(** * Reconciliation engine of the bingo display: a shallow embedding

    The development follows [src/hooks/useSocket.ts] (the socket hook and
    its event handlers), [lib/utils.ts] ([getColumnForNumber]) and the
    display page component (the effects that derive the cartela overlay).

    JavaScript numbers are modelled as [Z] (every payload of the game
    carries integers), strings as [string], arrays as [list], an optional
    or missing property as [option] ([None] is [undefined]/[null]). *)

From Stdlib Require Import ZArith QArith List Lia Bool Ascii DecimalString DecimalPos.
From stdpp Require Import base option list strings gmap.

Open Scope Z_scope.

(** ** JavaScript operators used by the merge rules *)

(** Truthiness of a defined value: [0] and the empty string are falsy,
    every array is truthy. *)
Class Truthy (A : Type) := truthy : A -> bool.

#[export] Instance Truthy_Z : Truthy Z := fun n => negb (n =? 0).
#[export] Instance Truthy_string : Truthy string := fun s => negb (String.eqb s "").
#[export] Instance Truthy_bool : Truthy bool := fun b => b.
#[export] Instance Truthy_list {A} : Truthy (list A) := fun _ => true.

(** Truthiness of a possibly missing value. *)
Definition js_truthy {A} `{Truthy A} (x : option A) : bool :=
  match x with
  | Some v => truthy v
  | None => false
  end.

(** [x || y]: the left operand when it is truthy, else the right one. *)
Definition js_or {A} `{Truthy A} (x y : option A) : option A :=
  if js_truthy x then x else y.

(** [x || d] where [d] is always defined. *)
Definition js_or_else {A} `{Truthy A} (x : option A) (d : A) : A :=
  match x with
  | Some v => if truthy v then v else d
  | None => d
  end.

(** [x ?? y]: the left operand unless it is [null] or [undefined]. *)
Definition js_nullish {A} (x y : option A) : option A :=
  match x with
  | Some v => Some v
  | None => y
  end.

(** [s.includes(pat)]. *)
Definition includes (s pat : string) : bool :=
  match String.index 0 pat s with
  | Some _ => true
  | None => false
  end.

Infix "|||" := js_or (at level 50, left associativity).
Infix "||:" := js_or_else (at level 50, left associativity).
Infix "???" := js_nullish (at level 50, left associativity).
Notation "x |> f" := (f x) (at level 45, left associativity, only parsing).

(** ** Column derivation *)

(** [getColumnForNumber] (the helper of the hook and its copy in
    lib/utils.ts are the same text). *)
Definition getColumnForNumber (number : Z) : string :=
  if (1 <=? number) && (number <=? 15) then "B"
  else if (16 <=? number) && (number <=? 30) then "I"
  else if (31 <=? number) && (number <=? 45) then "N"
  else if (46 <=? number) && (number <=? 60) then "G"
  else if (61 <=? number) && (number <=? 75) then "O"
  else "".

(** The column table as the specification words it: a letter inside
    [1,75], nothing ("undefined") outside. *)
Definition currentColumn_spec (n : Z) : option string :=
  if (1 <=? n) && (n <=? 15) then Some "B"
  else if (16 <=? n) && (n <=? 30) then Some "I"
  else if (31 <=? n) && (n <=? 45) then Some "N"
  else if (46 <=? n) && (n <=? 60) then Some "G"
  else if (61 <=? n) && (n <=? 75) then Some "O"
  else None.

(** ** Data model (types/index.ts) *)

Record GameHistoryItem : Type := {
  gh_gameId : string;
  gh_date : string;
  gh_duration : string;
  gh_totalNumbers : Z;
  gh_winners : Z
}.

Record Top3WinnerItem : Type := {
  tw_position : Z;
  tw_cartelaId : string;
  tw_gameId : string;
  tw_prize : string;
  tw_date : string
}.

Record VerificationData : Type := {
  vd_cartelaId : Z;
  vd_ticketNumber : string;
  vd_gameId : string;
  vd_status : string;
  vd_cartelaGrid : list (list Z);
  vd_matchedNumbers : list Z;
  vd_drawnNumbers : list Z;
  vd_gameProgress : Z;
  vd_totalCalledNumbers : Z
}.

Inductive Language : Type := AM | OR | TG.

(** A connection made by [io(url, {query: {displayToken, ...}})]. *)
Record Socket : Type := { query_displayToken : string }.

Module GameState.

(** [GameState] of types/index.ts. Optional fields ([f?: T]) are [option];
    [progress] and [sessionId] are not declared by the interface but the
    reset handlers write them into the object, so the record carries them. *)

Record t : Type := mk {
  currentNumber : option Z;
  currentColumn : option string;
  calledNumbers : list Z;
  gameStatus : option string;
  gameId : option string;
  eventId : option string;
  cartelas : option Z;
  stack : option Z;
  totalStack : option Z;
  totalWinStack : option Z;
  totalShopMargin : option Z;
  totalSystemFee : option Z;
  netPrizePool : option Z;
  netShopProfit : option Z;
  gameHistory : list GameHistoryItem;
  top3Winners : list Top3WinnerItem;
  isLoadingGameData : bool;
  selectedCartelas : option (list Z);
  progress : option Z;
  sessionId : option string
}.

Definition set_currentNumber (v : option Z) (s : t) : t :=
  {| currentNumber := v; currentColumn := currentColumn s;
     calledNumbers := calledNumbers s; gameStatus := gameStatus s;
     gameId := gameId s; eventId := eventId s; cartelas := cartelas s;
     stack := stack s; totalStack := totalStack s;
     totalWinStack := totalWinStack s; totalShopMargin := totalShopMargin s;
     totalSystemFee := totalSystemFee s; netPrizePool := netPrizePool s;
     netShopProfit := netShopProfit s; gameHistory := gameHistory s;
     top3Winners := top3Winners s; isLoadingGameData := isLoadingGameData s;
     selectedCartelas := selectedCartelas s; progress := progress s;
     sessionId := sessionId s |}.

Definition set_currentColumn (v : option string) (s : t) : t :=
  {| currentNumber := currentNumber s; currentColumn := v;
     calledNumbers := calledNumbers s; gameStatus := gameStatus s;
     gameId := gameId s; eventId := eventId s; cartelas := cartelas s;
     stack := stack s; totalStack := totalStack s;
     totalWinStack := totalWinStack s; totalShopMargin := totalShopMargin s;
     totalSystemFee := totalSystemFee s; netPrizePool := netPrizePool s;
     netShopProfit := netShopProfit s; gameHistory := gameHistory s;
     top3Winners := top3Winners s; isLoadingGameData := isLoadingGameData s;
     selectedCartelas := selectedCartelas s; progress := progress s;
     sessionId := sessionId s |}.

Definition set_calledNumbers (v : list Z) (s : t) : t :=
  {| currentNumber := currentNumber s; currentColumn := currentColumn s;
     calledNumbers := v; gameStatus := gameStatus s; gameId := gameId s;
     eventId := eventId s; cartelas := cartelas s; stack := stack s;
     totalStack := totalStack s; totalWinStack := totalWinStack s;
     totalShopMargin := totalShopMargin s;
     totalSystemFee := totalSystemFee s; netPrizePool := netPrizePool s;
     netShopProfit := netShopProfit s; gameHistory := gameHistory s;
     top3Winners := top3Winners s; isLoadingGameData := isLoadingGameData s;
     selectedCartelas := selectedCartelas s; progress := progress s;
     sessionId := sessionId s |}.

Definition set_gameStatus (v : option string) (s : t) : t :=
  {| currentNumber := currentNumber s; currentColumn := currentColumn s;
     calledNumbers := calledNumbers s; gameStatus := v; gameId := gameId s;
     eventId := eventId s; cartelas := cartelas s; stack := stack s;
     totalStack := totalStack s; totalWinStack := totalWinStack s;
     totalShopMargin := totalShopMargin s;
     totalSystemFee := totalSystemFee s; netPrizePool := netPrizePool s;
     netShopProfit := netShopProfit s; gameHistory := gameHistory s;
     top3Winners := top3Winners s; isLoadingGameData := isLoadingGameData s;
     selectedCartelas := selectedCartelas s; progress := progress s;
     sessionId := sessionId s |}.

Definition set_gameId (v : option string) (s : t) : t :=
  {| currentNumber := currentNumber s; currentColumn := currentColumn s;
     calledNumbers := calledNumbers s; gameStatus := gameStatus s;
     gameId := v; eventId := eventId s; cartelas := cartelas s;
     stack := stack s; totalStack := totalStack s;
     totalWinStack := totalWinStack s; totalShopMargin := totalShopMargin s;
     totalSystemFee := totalSystemFee s; netPrizePool := netPrizePool s;
     netShopProfit := netShopProfit s; gameHistory := gameHistory s;
     top3Winners := top3Winners s; isLoadingGameData := isLoadingGameData s;
     selectedCartelas := selectedCartelas s; progress := progress s;
     sessionId := sessionId s |}.

Definition set_eventId (v : option string) (s : t) : t :=
  {| currentNumber := currentNumber s; currentColumn := currentColumn s;
     calledNumbers := calledNumbers s; gameStatus := gameStatus s;
     gameId := gameId s; eventId := v; cartelas := cartelas s;
     stack := stack s; totalStack := totalStack s;
     totalWinStack := totalWinStack s; totalShopMargin := totalShopMargin s;
     totalSystemFee := totalSystemFee s; netPrizePool := netPrizePool s;
     netShopProfit := netShopProfit s; gameHistory := gameHistory s;
     top3Winners := top3Winners s; isLoadingGameData := isLoadingGameData s;
     selectedCartelas := selectedCartelas s; progress := progress s;
     sessionId := sessionId s |}.

Definition set_cartelas (v : option Z) (s : t) : t :=
  {| currentNumber := currentNumber s; currentColumn := currentColumn s;
     calledNumbers := calledNumbers s; gameStatus := gameStatus s;
     gameId := gameId s; eventId := eventId s; cartelas := v;
     stack := stack s; totalStack := totalStack s;
     totalWinStack := totalWinStack s; totalShopMargin := totalShopMargin s;
     totalSystemFee := totalSystemFee s; netPrizePool := netPrizePool s;
     netShopProfit := netShopProfit s; gameHistory := gameHistory s;
     top3Winners := top3Winners s; isLoadingGameData := isLoadingGameData s;
     selectedCartelas := selectedCartelas s; progress := progress s;
     sessionId := sessionId s |}.

Definition set_stack (v : option Z) (s : t) : t :=
  {| currentNumber := currentNumber s; currentColumn := currentColumn s;
     calledNumbers := calledNumbers s; gameStatus := gameStatus s;
     gameId := gameId s; eventId := eventId s; cartelas := cartelas s;
     stack := v; totalStack := totalStack s;
     totalWinStack := totalWinStack s; totalShopMargin := totalShopMargin s;
     totalSystemFee := totalSystemFee s; netPrizePool := netPrizePool s;
     netShopProfit := netShopProfit s; gameHistory := gameHistory s;
     top3Winners := top3Winners s; isLoadingGameData := isLoadingGameData s;
     selectedCartelas := selectedCartelas s; progress := progress s;
     sessionId := sessionId s |}.

Definition set_totalStack (v : option Z) (s : t) : t :=
  {| currentNumber := currentNumber s; currentColumn := currentColumn s;
     calledNumbers := calledNumbers s; gameStatus := gameStatus s;
     gameId := gameId s; eventId := eventId s; cartelas := cartelas s;
     stack := stack s; totalStack := v; totalWinStack := totalWinStack s;
     totalShopMargin := totalShopMargin s;
     totalSystemFee := totalSystemFee s; netPrizePool := netPrizePool s;
     netShopProfit := netShopProfit s; gameHistory := gameHistory s;
     top3Winners := top3Winners s; isLoadingGameData := isLoadingGameData s;
     selectedCartelas := selectedCartelas s; progress := progress s;
     sessionId := sessionId s |}.

Definition set_totalWinStack (v : option Z) (s : t) : t :=
  {| currentNumber := currentNumber s; currentColumn := currentColumn s;
     calledNumbers := calledNumbers s; gameStatus := gameStatus s;
     gameId := gameId s; eventId := eventId s; cartelas := cartelas s;
     stack := stack s; totalStack := totalStack s; totalWinStack := v;
     totalShopMargin := totalShopMargin s;
     totalSystemFee := totalSystemFee s; netPrizePool := netPrizePool s;
     netShopProfit := netShopProfit s; gameHistory := gameHistory s;
     top3Winners := top3Winners s; isLoadingGameData := isLoadingGameData s;
     selectedCartelas := selectedCartelas s; progress := progress s;
     sessionId := sessionId s |}.

Definition set_totalShopMargin (v : option Z) (s : t) : t :=
  {| currentNumber := currentNumber s; currentColumn := currentColumn s;
     calledNumbers := calledNumbers s; gameStatus := gameStatus s;
     gameId := gameId s; eventId := eventId s; cartelas := cartelas s;
     stack := stack s; totalStack := totalStack s;
     totalWinStack := totalWinStack s; totalShopMargin := v;
     totalSystemFee := totalSystemFee s; netPrizePool := netPrizePool s;
     netShopProfit := netShopProfit s; gameHistory := gameHistory s;
     top3Winners := top3Winners s; isLoadingGameData := isLoadingGameData s;
     selectedCartelas := selectedCartelas s; progress := progress s;
     sessionId := sessionId s |}.

Definition set_totalSystemFee (v : option Z) (s : t) : t :=
  {| currentNumber := currentNumber s; currentColumn := currentColumn s;
     calledNumbers := calledNumbers s; gameStatus := gameStatus s;
     gameId := gameId s; eventId := eventId s; cartelas := cartelas s;
     stack := stack s; totalStack := totalStack s;
     totalWinStack := totalWinStack s; totalShopMargin := totalShopMargin s;
     totalSystemFee := v; netPrizePool := netPrizePool s;
     netShopProfit := netShopProfit s; gameHistory := gameHistory s;
     top3Winners := top3Winners s; isLoadingGameData := isLoadingGameData s;
     selectedCartelas := selectedCartelas s; progress := progress s;
     sessionId := sessionId s |}.

Definition set_netPrizePool (v : option Z) (s : t) : t :=
  {| currentNumber := currentNumber s; currentColumn := currentColumn s;
     calledNumbers := calledNumbers s; gameStatus := gameStatus s;
     gameId := gameId s; eventId := eventId s; cartelas := cartelas s;
     stack := stack s; totalStack := totalStack s;
     totalWinStack := totalWinStack s; totalShopMargin := totalShopMargin s;
     totalSystemFee := totalSystemFee s; netPrizePool := v;
     netShopProfit := netShopProfit s; gameHistory := gameHistory s;
     top3Winners := top3Winners s; isLoadingGameData := isLoadingGameData s;
     selectedCartelas := selectedCartelas s; progress := progress s;
     sessionId := sessionId s |}.

Definition set_netShopProfit (v : option Z) (s : t) : t :=
  {| currentNumber := currentNumber s; currentColumn := currentColumn s;
     calledNumbers := calledNumbers s; gameStatus := gameStatus s;
     gameId := gameId s; eventId := eventId s; cartelas := cartelas s;
     stack := stack s; totalStack := totalStack s;
     totalWinStack := totalWinStack s; totalShopMargin := totalShopMargin s;
     totalSystemFee := totalSystemFee s; netPrizePool := netPrizePool s;
     netShopProfit := v; gameHistory := gameHistory s;
     top3Winners := top3Winners s; isLoadingGameData := isLoadingGameData s;
     selectedCartelas := selectedCartelas s; progress := progress s;
     sessionId := sessionId s |}.

Definition set_gameHistory (v : list GameHistoryItem) (s : t) : t :=
  {| currentNumber := currentNumber s; currentColumn := currentColumn s;
     calledNumbers := calledNumbers s; gameStatus := gameStatus s;
     gameId := gameId s; eventId := eventId s; cartelas := cartelas s;
     stack := stack s; totalStack := totalStack s;
     totalWinStack := totalWinStack s; totalShopMargin := totalShopMargin s;
     totalSystemFee := totalSystemFee s; netPrizePool := netPrizePool s;
     netShopProfit := netShopProfit s; gameHistory := v;
     top3Winners := top3Winners s; isLoadingGameData := isLoadingGameData s;
     selectedCartelas := selectedCartelas s; progress := progress s;
     sessionId := sessionId s |}.

Definition set_top3Winners (v : list Top3WinnerItem) (s : t) : t :=
  {| currentNumber := currentNumber s; currentColumn := currentColumn s;
     calledNumbers := calledNumbers s; gameStatus := gameStatus s;
     gameId := gameId s; eventId := eventId s; cartelas := cartelas s;
     stack := stack s; totalStack := totalStack s;
     totalWinStack := totalWinStack s; totalShopMargin := totalShopMargin s;
     totalSystemFee := totalSystemFee s; netPrizePool := netPrizePool s;
     netShopProfit := netShopProfit s; gameHistory := gameHistory s;
     top3Winners := v; isLoadingGameData := isLoadingGameData s;
     selectedCartelas := selectedCartelas s; progress := progress s;
     sessionId := sessionId s |}.

Definition set_isLoadingGameData (v : bool) (s : t) : t :=
  {| currentNumber := currentNumber s; currentColumn := currentColumn s;
     calledNumbers := calledNumbers s; gameStatus := gameStatus s;
     gameId := gameId s; eventId := eventId s; cartelas := cartelas s;
     stack := stack s; totalStack := totalStack s;
     totalWinStack := totalWinStack s; totalShopMargin := totalShopMargin s;
     totalSystemFee := totalSystemFee s; netPrizePool := netPrizePool s;
     netShopProfit := netShopProfit s; gameHistory := gameHistory s;
     top3Winners := top3Winners s; isLoadingGameData := v;
     selectedCartelas := selectedCartelas s; progress := progress s;
     sessionId := sessionId s |}.

Definition set_selectedCartelas (v : option (list Z)) (s : t) : t :=
  {| currentNumber := currentNumber s; currentColumn := currentColumn s;
     calledNumbers := calledNumbers s; gameStatus := gameStatus s;
     gameId := gameId s; eventId := eventId s; cartelas := cartelas s;
     stack := stack s; totalStack := totalStack s;
     totalWinStack := totalWinStack s; totalShopMargin := totalShopMargin s;
     totalSystemFee := totalSystemFee s; netPrizePool := netPrizePool s;
     netShopProfit := netShopProfit s; gameHistory := gameHistory s;
     top3Winners := top3Winners s; isLoadingGameData := isLoadingGameData s;
     selectedCartelas := v; progress := progress s; sessionId := sessionId s |}.

Definition set_progress (v : option Z) (s : t) : t :=
  {| currentNumber := currentNumber s; currentColumn := currentColumn s;
     calledNumbers := calledNumbers s; gameStatus := gameStatus s;
     gameId := gameId s; eventId := eventId s; cartelas := cartelas s;
     stack := stack s; totalStack := totalStack s;
     totalWinStack := totalWinStack s; totalShopMargin := totalShopMargin s;
     totalSystemFee := totalSystemFee s; netPrizePool := netPrizePool s;
     netShopProfit := netShopProfit s; gameHistory := gameHistory s;
     top3Winners := top3Winners s; isLoadingGameData := isLoadingGameData s;
     selectedCartelas := selectedCartelas s; progress := v;
     sessionId := sessionId s |}.

Definition set_sessionId (v : option string) (s : t) : t :=
  {| currentNumber := currentNumber s; currentColumn := currentColumn s;
     calledNumbers := calledNumbers s; gameStatus := gameStatus s;
     gameId := gameId s; eventId := eventId s; cartelas := cartelas s;
     stack := stack s; totalStack := totalStack s;
     totalWinStack := totalWinStack s; totalShopMargin := totalShopMargin s;
     totalSystemFee := totalSystemFee s; netPrizePool := netPrizePool s;
     netShopProfit := netShopProfit s; gameHistory := gameHistory s;
     top3Winners := top3Winners s; isLoadingGameData := isLoadingGameData s;
     selectedCartelas := selectedCartelas s; progress := progress s;
     sessionId := v |}.

End GameState.
Module DisplayState.

(** [DisplayState] of types/index.ts, with the extra keys that the
    [game_cleared] and [game_reset] handlers spread into it at run time
    ([gameId], [status], [progress], [cartelas], [winStack], [showWinner],
    [winnerData]); [None] stands for an absent key, [undefined] or [null]. *)

Record t : Type := mk {
  isConnected : bool;
  connectionError : option string;
  isLoading : bool;
  selectedLanguage : Language;
  isFullScreen : bool;
  showGameHistory : bool;
  showTop3Winners : bool;
  showVerificationModal : bool;
  modalPersistent : bool;
  isDrawing : bool;
  show3DMixer : option bool;
  isShuffling : option bool;
  gameId : option string;
  status : option string;
  progress : option string;
  cartelas : option Z;
  winStack : option string;
  showWinner : option bool;
  winnerData : option unit
}.

Definition set_isConnected (v : bool) (s : t) : t :=
  {| isConnected := v; connectionError := connectionError s;
     isLoading := isLoading s; selectedLanguage := selectedLanguage s;
     isFullScreen := isFullScreen s; showGameHistory := showGameHistory s;
     showTop3Winners := showTop3Winners s;
     showVerificationModal := showVerificationModal s;
     modalPersistent := modalPersistent s; isDrawing := isDrawing s;
     show3DMixer := show3DMixer s; isShuffling := isShuffling s;
     gameId := gameId s; status := status s; progress := progress s;
     cartelas := cartelas s; winStack := winStack s;
     showWinner := showWinner s; winnerData := winnerData s |}.

Definition set_connectionError (v : option string) (s : t) : t :=
  {| isConnected := isConnected s; connectionError := v;
     isLoading := isLoading s; selectedLanguage := selectedLanguage s;
     isFullScreen := isFullScreen s; showGameHistory := showGameHistory s;
     showTop3Winners := showTop3Winners s;
     showVerificationModal := showVerificationModal s;
     modalPersistent := modalPersistent s; isDrawing := isDrawing s;
     show3DMixer := show3DMixer s; isShuffling := isShuffling s;
     gameId := gameId s; status := status s; progress := progress s;
     cartelas := cartelas s; winStack := winStack s;
     showWinner := showWinner s; winnerData := winnerData s |}.

Definition set_isLoading (v : bool) (s : t) : t :=
  {| isConnected := isConnected s; connectionError := connectionError s;
     isLoading := v; selectedLanguage := selectedLanguage s;
     isFullScreen := isFullScreen s; showGameHistory := showGameHistory s;
     showTop3Winners := showTop3Winners s;
     showVerificationModal := showVerificationModal s;
     modalPersistent := modalPersistent s; isDrawing := isDrawing s;
     show3DMixer := show3DMixer s; isShuffling := isShuffling s;
     gameId := gameId s; status := status s; progress := progress s;
     cartelas := cartelas s; winStack := winStack s;
     showWinner := showWinner s; winnerData := winnerData s |}.

Definition set_selectedLanguage (v : Language) (s : t) : t :=
  {| isConnected := isConnected s; connectionError := connectionError s;
     isLoading := isLoading s; selectedLanguage := v;
     isFullScreen := isFullScreen s; showGameHistory := showGameHistory s;
     showTop3Winners := showTop3Winners s;
     showVerificationModal := showVerificationModal s;
     modalPersistent := modalPersistent s; isDrawing := isDrawing s;
     show3DMixer := show3DMixer s; isShuffling := isShuffling s;
     gameId := gameId s; status := status s; progress := progress s;
     cartelas := cartelas s; winStack := winStack s;
     showWinner := showWinner s; winnerData := winnerData s |}.

Definition set_isFullScreen (v : bool) (s : t) : t :=
  {| isConnected := isConnected s; connectionError := connectionError s;
     isLoading := isLoading s; selectedLanguage := selectedLanguage s;
     isFullScreen := v; showGameHistory := showGameHistory s;
     showTop3Winners := showTop3Winners s;
     showVerificationModal := showVerificationModal s;
     modalPersistent := modalPersistent s; isDrawing := isDrawing s;
     show3DMixer := show3DMixer s; isShuffling := isShuffling s;
     gameId := gameId s; status := status s; progress := progress s;
     cartelas := cartelas s; winStack := winStack s;
     showWinner := showWinner s; winnerData := winnerData s |}.

Definition set_showGameHistory (v : bool) (s : t) : t :=
  {| isConnected := isConnected s; connectionError := connectionError s;
     isLoading := isLoading s; selectedLanguage := selectedLanguage s;
     isFullScreen := isFullScreen s; showGameHistory := v;
     showTop3Winners := showTop3Winners s;
     showVerificationModal := showVerificationModal s;
     modalPersistent := modalPersistent s; isDrawing := isDrawing s;
     show3DMixer := show3DMixer s; isShuffling := isShuffling s;
     gameId := gameId s; status := status s; progress := progress s;
     cartelas := cartelas s; winStack := winStack s;
     showWinner := showWinner s; winnerData := winnerData s |}.

Definition set_showTop3Winners (v : bool) (s : t) : t :=
  {| isConnected := isConnected s; connectionError := connectionError s;
     isLoading := isLoading s; selectedLanguage := selectedLanguage s;
     isFullScreen := isFullScreen s; showGameHistory := showGameHistory s;
     showTop3Winners := v; showVerificationModal := showVerificationModal s;
     modalPersistent := modalPersistent s; isDrawing := isDrawing s;
     show3DMixer := show3DMixer s; isShuffling := isShuffling s;
     gameId := gameId s; status := status s; progress := progress s;
     cartelas := cartelas s; winStack := winStack s;
     showWinner := showWinner s; winnerData := winnerData s |}.

Definition set_showVerificationModal (v : bool) (s : t) : t :=
  {| isConnected := isConnected s; connectionError := connectionError s;
     isLoading := isLoading s; selectedLanguage := selectedLanguage s;
     isFullScreen := isFullScreen s; showGameHistory := showGameHistory s;
     showTop3Winners := showTop3Winners s; showVerificationModal := v;
     modalPersistent := modalPersistent s; isDrawing := isDrawing s;
     show3DMixer := show3DMixer s; isShuffling := isShuffling s;
     gameId := gameId s; status := status s; progress := progress s;
     cartelas := cartelas s; winStack := winStack s;
     showWinner := showWinner s; winnerData := winnerData s |}.

Definition set_modalPersistent (v : bool) (s : t) : t :=
  {| isConnected := isConnected s; connectionError := connectionError s;
     isLoading := isLoading s; selectedLanguage := selectedLanguage s;
     isFullScreen := isFullScreen s; showGameHistory := showGameHistory s;
     showTop3Winners := showTop3Winners s;
     showVerificationModal := showVerificationModal s; modalPersistent := v;
     isDrawing := isDrawing s; show3DMixer := show3DMixer s;
     isShuffling := isShuffling s; gameId := gameId s; status := status s;
     progress := progress s; cartelas := cartelas s; winStack := winStack s;
     showWinner := showWinner s; winnerData := winnerData s |}.

Definition set_isDrawing (v : bool) (s : t) : t :=
  {| isConnected := isConnected s; connectionError := connectionError s;
     isLoading := isLoading s; selectedLanguage := selectedLanguage s;
     isFullScreen := isFullScreen s; showGameHistory := showGameHistory s;
     showTop3Winners := showTop3Winners s;
     showVerificationModal := showVerificationModal s;
     modalPersistent := modalPersistent s; isDrawing := v;
     show3DMixer := show3DMixer s; isShuffling := isShuffling s;
     gameId := gameId s; status := status s; progress := progress s;
     cartelas := cartelas s; winStack := winStack s;
     showWinner := showWinner s; winnerData := winnerData s |}.

Definition set_show3DMixer (v : option bool) (s : t) : t :=
  {| isConnected := isConnected s; connectionError := connectionError s;
     isLoading := isLoading s; selectedLanguage := selectedLanguage s;
     isFullScreen := isFullScreen s; showGameHistory := showGameHistory s;
     showTop3Winners := showTop3Winners s;
     showVerificationModal := showVerificationModal s;
     modalPersistent := modalPersistent s; isDrawing := isDrawing s;
     show3DMixer := v; isShuffling := isShuffling s; gameId := gameId s;
     status := status s; progress := progress s; cartelas := cartelas s;
     winStack := winStack s; showWinner := showWinner s;
     winnerData := winnerData s |}.

Definition set_isShuffling (v : option bool) (s : t) : t :=
  {| isConnected := isConnected s; connectionError := connectionError s;
     isLoading := isLoading s; selectedLanguage := selectedLanguage s;
     isFullScreen := isFullScreen s; showGameHistory := showGameHistory s;
     showTop3Winners := showTop3Winners s;
     showVerificationModal := showVerificationModal s;
     modalPersistent := modalPersistent s; isDrawing := isDrawing s;
     show3DMixer := show3DMixer s; isShuffling := v; gameId := gameId s;
     status := status s; progress := progress s; cartelas := cartelas s;
     winStack := winStack s; showWinner := showWinner s;
     winnerData := winnerData s |}.

Definition set_gameId (v : option string) (s : t) : t :=
  {| isConnected := isConnected s; connectionError := connectionError s;
     isLoading := isLoading s; selectedLanguage := selectedLanguage s;
     isFullScreen := isFullScreen s; showGameHistory := showGameHistory s;
     showTop3Winners := showTop3Winners s;
     showVerificationModal := showVerificationModal s;
     modalPersistent := modalPersistent s; isDrawing := isDrawing s;
     show3DMixer := show3DMixer s; isShuffling := isShuffling s; gameId := v;
     status := status s; progress := progress s; cartelas := cartelas s;
     winStack := winStack s; showWinner := showWinner s;
     winnerData := winnerData s |}.

Definition set_status (v : option string) (s : t) : t :=
  {| isConnected := isConnected s; connectionError := connectionError s;
     isLoading := isLoading s; selectedLanguage := selectedLanguage s;
     isFullScreen := isFullScreen s; showGameHistory := showGameHistory s;
     showTop3Winners := showTop3Winners s;
     showVerificationModal := showVerificationModal s;
     modalPersistent := modalPersistent s; isDrawing := isDrawing s;
     show3DMixer := show3DMixer s; isShuffling := isShuffling s;
     gameId := gameId s; status := v; progress := progress s;
     cartelas := cartelas s; winStack := winStack s;
     showWinner := showWinner s; winnerData := winnerData s |}.

Definition set_progress (v : option string) (s : t) : t :=
  {| isConnected := isConnected s; connectionError := connectionError s;
     isLoading := isLoading s; selectedLanguage := selectedLanguage s;
     isFullScreen := isFullScreen s; showGameHistory := showGameHistory s;
     showTop3Winners := showTop3Winners s;
     showVerificationModal := showVerificationModal s;
     modalPersistent := modalPersistent s; isDrawing := isDrawing s;
     show3DMixer := show3DMixer s; isShuffling := isShuffling s;
     gameId := gameId s; status := status s; progress := v;
     cartelas := cartelas s; winStack := winStack s;
     showWinner := showWinner s; winnerData := winnerData s |}.

Definition set_cartelas (v : option Z) (s : t) : t :=
  {| isConnected := isConnected s; connectionError := connectionError s;
     isLoading := isLoading s; selectedLanguage := selectedLanguage s;
     isFullScreen := isFullScreen s; showGameHistory := showGameHistory s;
     showTop3Winners := showTop3Winners s;
     showVerificationModal := showVerificationModal s;
     modalPersistent := modalPersistent s; isDrawing := isDrawing s;
     show3DMixer := show3DMixer s; isShuffling := isShuffling s;
     gameId := gameId s; status := status s; progress := progress s;
     cartelas := v; winStack := winStack s; showWinner := showWinner s;
     winnerData := winnerData s |}.

Definition set_winStack (v : option string) (s : t) : t :=
  {| isConnected := isConnected s; connectionError := connectionError s;
     isLoading := isLoading s; selectedLanguage := selectedLanguage s;
     isFullScreen := isFullScreen s; showGameHistory := showGameHistory s;
     showTop3Winners := showTop3Winners s;
     showVerificationModal := showVerificationModal s;
     modalPersistent := modalPersistent s; isDrawing := isDrawing s;
     show3DMixer := show3DMixer s; isShuffling := isShuffling s;
     gameId := gameId s; status := status s; progress := progress s;
     cartelas := cartelas s; winStack := v; showWinner := showWinner s;
     winnerData := winnerData s |}.

Definition set_showWinner (v : option bool) (s : t) : t :=
  {| isConnected := isConnected s; connectionError := connectionError s;
     isLoading := isLoading s; selectedLanguage := selectedLanguage s;
     isFullScreen := isFullScreen s; showGameHistory := showGameHistory s;
     showTop3Winners := showTop3Winners s;
     showVerificationModal := showVerificationModal s;
     modalPersistent := modalPersistent s; isDrawing := isDrawing s;
     show3DMixer := show3DMixer s; isShuffling := isShuffling s;
     gameId := gameId s; status := status s; progress := progress s;
     cartelas := cartelas s; winStack := winStack s; showWinner := v;
     winnerData := winnerData s |}.

Definition set_winnerData (v : option unit) (s : t) : t :=
  {| isConnected := isConnected s; connectionError := connectionError s;
     isLoading := isLoading s; selectedLanguage := selectedLanguage s;
     isFullScreen := isFullScreen s; showGameHistory := showGameHistory s;
     showTop3Winners := showTop3Winners s;
     showVerificationModal := showVerificationModal s;
     modalPersistent := modalPersistent s; isDrawing := isDrawing s;
     show3DMixer := show3DMixer s; isShuffling := isShuffling s;
     gameId := gameId s; status := status s; progress := progress s;
     cartelas := cartelas s; winStack := winStack s;
     showWinner := showWinner s; winnerData := v |}.

End DisplayState.
Module Hook.

(** The [useState] and [useRef] cells of [useSocket]. *)

Record t : Type := mk {
  socket : option Socket;
  isConnected : bool;
  connectionError : option string;
  isLoading : bool;
  gameState : GameState.t;
  displayState : DisplayState.t;
  verificationData : option VerificationData;
  prevGameIdRef : option string
}.

Definition set_socket (v : option Socket) (s : t) : t :=
  {| socket := v; isConnected := isConnected s;
     connectionError := connectionError s; isLoading := isLoading s;
     gameState := gameState s; displayState := displayState s;
     verificationData := verificationData s;
     prevGameIdRef := prevGameIdRef s |}.

Definition set_isConnected (v : bool) (s : t) : t :=
  {| socket := socket s; isConnected := v;
     connectionError := connectionError s; isLoading := isLoading s;
     gameState := gameState s; displayState := displayState s;
     verificationData := verificationData s;
     prevGameIdRef := prevGameIdRef s |}.

Definition set_connectionError (v : option string) (s : t) : t :=
  {| socket := socket s; isConnected := isConnected s; connectionError := v;
     isLoading := isLoading s; gameState := gameState s;
     displayState := displayState s; verificationData := verificationData s;
     prevGameIdRef := prevGameIdRef s |}.

Definition set_isLoading (v : bool) (s : t) : t :=
  {| socket := socket s; isConnected := isConnected s;
     connectionError := connectionError s; isLoading := v;
     gameState := gameState s; displayState := displayState s;
     verificationData := verificationData s;
     prevGameIdRef := prevGameIdRef s |}.

Definition set_gameState (v : GameState.t) (s : t) : t :=
  {| socket := socket s; isConnected := isConnected s;
     connectionError := connectionError s; isLoading := isLoading s;
     gameState := v; displayState := displayState s;
     verificationData := verificationData s;
     prevGameIdRef := prevGameIdRef s |}.

Definition set_displayState (v : DisplayState.t) (s : t) : t :=
  {| socket := socket s; isConnected := isConnected s;
     connectionError := connectionError s; isLoading := isLoading s;
     gameState := gameState s; displayState := v;
     verificationData := verificationData s;
     prevGameIdRef := prevGameIdRef s |}.

Definition set_verificationData (v : option VerificationData) (s : t) : t :=
  {| socket := socket s; isConnected := isConnected s;
     connectionError := connectionError s; isLoading := isLoading s;
     gameState := gameState s; displayState := displayState s;
     verificationData := v; prevGameIdRef := prevGameIdRef s |}.

Definition set_prevGameIdRef (v : option string) (s : t) : t :=
  {| socket := socket s; isConnected := isConnected s;
     connectionError := connectionError s; isLoading := isLoading s;
     gameState := gameState s; displayState := displayState s;
     verificationData := verificationData s; prevGameIdRef := v |}.

End Hook.

(** ** Payloads of the push events

    Only the properties a handler reads are kept. The handlers take their
    payload untyped or with annotations the server need not honour, so a
    property is [option] wherever a handler tolerates its absence. *)

Module GameData.

(** The [gameData] object nested in betting and snapshot messages. *)
Record t : Type := mk {
  cartelas : option Z;
  stack : option Z;
  totalStack : option Z;
  totalWinStack : option Z;
  totalShopMargin : option Z;
  totalSystemFee : option Z;
  netPrizePool : option Z;
  netShopProfit : option Z;
  status : option string;
  calledNumbers : option (list Z);
  currentNumber : option Z;
  placedBetCartelas : option (list Z)
}.


End GameData.

Module GameReset.

(** Payload of [game_reset]. *)
Record t : Type := mk {
  gameId : option string;
  calledNumbers : option (list Z);
  cartelas : option Z;
  totalStack : option Z;
  totalWinStack : option Z
}.

End GameReset.

Module GameDataMsg.

(** Payload of [game_data_updated] and [game_data_response]. *)
Record t : Type := mk {
  id : option string;
  status : option string;
  gameData : option GameData.t
}.

End GameDataMsg.

Module GameCreated.

(** Payload of [game:created]. *)
Record t : Type := mk {
  gameId : option string;
  status : option string;
  calledNumbers : option (list Z);
  winStack : option Z;
  cartelas : option Z
}.

End GameCreated.

Module GameUpdate.

(** Payload of [game:update]; the handler tests [typeof x === 'number'],
    which is presence for a numeric property. *)
Record t : Type := mk {
  status : option string;
  cartelas : option Z;
  winStack : option Z;
  totalStack : option Z
}.

End GameUpdate.

(** The events the hook subscribes to, one constructor per wire name (the
    name is the constructor's, with [:] and [-] written [_]). [unhandled]
    stands for every name without a listener, such as [game:reset] and
    [number:drawn]. *)
Inductive Event : Type :=
  | connect
  | display_waiting_for_cashier
  | display_waiting_for_game
  | cashier_joined
  | display_room_joined (sessionId : option string)
  | display_error (message : option string)
  | game_cleared (gameId : option string)
  | game_reset (data : GameReset.t)
  | placed_bets_updated (placedBetCartelas : list Z) (gameId : option string)
  | bets_placed (gameData : option GameData.t)
  | game_data_updated (data : GameDataMsg.t)
  | game_status_updated (status gameId : option string)
  | game_comprehensive_reset (newGameId : option string)
  | disconnect
  | connect_error
  | display_unauthorized
  | game_start (gameId eventId : option string)
  | number_called (number : option Z)
  | game_end
  | game_created (data : GameCreated.t)
  | game_started (gameId : option string)
  | game_paused
  | game_resumed
  | game_ended
  | number_drawn (number : option Z) (calledNumbers : option (list Z))
  | game_update (data : GameUpdate.t)
  | game_id_updated (gameId : option string)
  | game_data_response (data : GameDataMsg.t)
  | cartela_verified (data : VerificationData)
  | close_verification_modal (sessionId : option string)
  | close_verification_modal_display (sessionId : option string)
  | game_session_info (gameId sessionId status : option string)
  | room_joined
  | user_joined_room
  | cashier_joined_room (gameId : option string)
  | connection_status_update (sessionId : option string) (displayConnected : option bool)
  | display_connection_status (sessionId : option string) (connected : option bool)
  | display_connected
  | show_cartelas
  | close_cartelas
  | refresh_pages (message sessionId : option string)
  | verification_modal_closed (sessionId : option string)
  | game_completed (gameId : option string) (winningPatterns : option (list string))
  | end_game (gameId sessionId : option string)
  | game_data_refresh
  | cartela_selected (cartelaId : Z)
  | cartela_deselected (cartelaId : Z)
  | cartelas_cleared (sessionId : option string)
  | cartela_selections_response (selectedCartelas : option (list Z))
  | ticket_cancelled (cartelaId : Z) (sessionId : option string)
  | reconnect
  | reconnect_error
  | display_shuffle_animation (sessionId action : option string)
  | unhandled (name : string).

(** What a handler does besides updating the hook's cells. *)
Inductive SideEffect : Type :=
  | SocketEmit (event : string) (arg : option string)
  | SocketEmitAfter (ms : Z) (event : string) (arg : option string)
  | OnCloseCartelas
  | SetJustStartedFlag
  | PlayNumberSound (number : Z)
  | PlayWinSound
  | PlayLostSound
  | DispatchWindowEvent (type : string) (cartelas : list Z)
  | ReloadPage (ms : Z)
  | ClearIsDrawingAfter (ms : Z)
  | IoConnect (displayToken : string).

(** ** Constants (lib/constants.ts) *)

Module ERROR_MESSAGES.
Definition NO_TOKEN : string := "No display token provided in URL".
Definition CONNECTION_FAILED : string := "Failed to connect to server".
Definition CONNECTION_LOST : string := "Connection lost. Attempting to reconnect...".
Definition INVALID_TOKEN : string := "Invalid display token!".
Definition RECONNECTION_FAILED : string := "Reconnection failed".
Definition INITIALIZATION_FAILED : string := "Failed to initialize connection".
End ERROR_MESSAGES.

(** The initial [useState] values of the hook. *)
Definition initialGameState : GameState.t :=
  {| GameState.currentNumber := None; GameState.currentColumn := None;
     GameState.calledNumbers := []; GameState.gameStatus := Some "waiting";
     GameState.gameId := None; GameState.eventId := None;
     GameState.cartelas := Some 0; GameState.stack := Some 0;
     GameState.totalStack := Some 0; GameState.totalWinStack := Some 0;
     GameState.totalShopMargin := Some 0; GameState.totalSystemFee := Some 0;
     GameState.netPrizePool := Some 0; GameState.netShopProfit := Some 0;
     GameState.gameHistory := []; GameState.top3Winners := [];
     GameState.isLoadingGameData := false;
     GameState.selectedCartelas := Some [];
     GameState.progress := None; GameState.sessionId := None |}.

Definition initialDisplayState : DisplayState.t :=
  {| DisplayState.isConnected := false; DisplayState.connectionError := None;
     DisplayState.isLoading := true; DisplayState.selectedLanguage := AM;
     DisplayState.isFullScreen := false; DisplayState.showGameHistory := false;
     DisplayState.showTop3Winners := false;
     DisplayState.showVerificationModal := false;
     DisplayState.modalPersistent := false; DisplayState.isDrawing := false;
     DisplayState.show3DMixer := Some false;
     DisplayState.isShuffling := Some false;
     DisplayState.gameId := None; DisplayState.status := None;
     DisplayState.progress := None; DisplayState.cartelas := None;
     DisplayState.winStack := None; DisplayState.showWinner := None;
     DisplayState.winnerData := None |}.

Definition initialHook : Hook.t :=
  {| Hook.socket := None;
     Hook.isConnected := false; Hook.connectionError := None;
     Hook.isLoading := true; Hook.gameState := initialGameState;
     Hook.displayState := initialDisplayState;
     Hook.verificationData := None; Hook.prevGameIdRef := None |}.

(** ** Handlers as state transformers with side effects *)

Definition Handler : Type := Hook.t -> Hook.t * list SideEffect.

Definition skip : Handler := fun h => (h, []).

Definition andThen (h1 h2 : Handler) : Handler := fun h =>
  let '(s1, e1) := h1 h in
  let '(s2, e2) := h2 s1 in
  (s2, e1 ++ e2).

Infix ">>" := andThen (at level 60, right associativity).

Definition when (b : bool) (h : Handler) : Handler := if b then h else skip.

Definition effect (e : SideEffect) : Handler := fun h => (h, [e]).

(** [setX(updater)]: React applies the queued updaters in call order, each
    to the result of the one before. *)
Definition setGameState (f : GameState.t -> GameState.t) : Handler :=
  fun h => (Hook.set_gameState (f (Hook.gameState h)) h, []).

Definition setDisplayState (f : DisplayState.t -> DisplayState.t) : Handler :=
  fun h => (Hook.set_displayState (f (Hook.displayState h)) h, []).

Definition setVerificationData (v : option VerificationData) : Handler :=
  fun h => (Hook.set_verificationData v h, []).

Definition setIsConnected (b : bool) : Handler :=
  fun h => (Hook.set_isConnected b h, []).

Definition setConnectionError (e : option string) : Handler :=
  fun h => (Hook.set_connectionError e h, []).

Definition setIsLoading (b : bool) : Handler :=
  fun h => (Hook.set_isLoading b h, []).

(** Runs the handlers registered for one event name, in registration order. *)
Fixpoint runAll (hs : list Handler) : Handler :=
  match hs with
  | [] => skip
  | h :: rest => h >> runAll rest
  end.

(** [n ? getColumnForNumber(n) : d]. *)
Definition columnIf (n : option Z) (d : option string) : option string :=
  match n with
  | Some v => if truthy v then Some (getColumnForNumber v) else d
  | None => d
  end.

(** [!prev.gameId || (id && id !== prev.gameId)]. *)
Definition shouldUpdateGameId (prevId id : option string) : bool :=
  negb (js_truthy prevId) || (js_truthy id && bool_decide (id ≠ prevId)).

(** [Array.from(map.keys())] of a [Map] filled from the list: each id once,
    in the order of its first insertion. *)
Fixpoint mapKeys (l : list Z) : list Z :=
  match l with
  | [] => []
  | x :: rest => x :: filter (fun y => y ≠ x) (mapKeys rest)
  end.

Section Listeners.

(** The token the listeners close over, and whether the optional callbacks
    were passed to the hook. *)
Variable displayToken : string.
Variable onCloseCartelas : bool.
Variable soundCallbacks : bool.

Definition requestGameData : Handler :=
  effect (SocketEmitAfter 500 "get_game_data" (Some displayToken)).

Definition closeCartelas : Handler := when onCloseCartelas (effect OnCloseCartelas).

Definition on_connect : Handler :=
  setIsConnected true >> setConnectionError None >> setIsLoading false >>
  setDisplayState (fun prev => prev
    |> DisplayState.set_isConnected true
    |> DisplayState.set_connectionError None
    |> DisplayState.set_isLoading false) >>
  when (truthy displayToken)
    (effect (SocketEmit "display:connected" (Some displayToken)) >>
     effect (SocketEmit "join_display_room" (Some displayToken)) >>
     effect (SocketEmitAfter 500 "get_display_status" (Some displayToken))).

Definition on_display_waiting_for_cashier : Handler :=
  setDisplayState (DisplayState.set_connectionError
                     (Some "Waiting for cashier to connect...")).

Definition on_display_waiting_for_game_1 : Handler :=
  setDisplayState (DisplayState.set_connectionError
                     (Some "Waiting for game to start...")).

Definition on_cashier_joined : Handler :=
  setDisplayState (DisplayState.set_connectionError None).

Definition on_display_room_joined : Handler :=
  setDisplayState (DisplayState.set_connectionError None).

Definition on_display_error_1 (message : option string) : Handler :=
  setConnectionError message.

Definition on_game_cleared (gameId : option string) : Handler :=
  setDisplayState (fun prev => prev
    |> DisplayState.set_gameId (gameId ||| None)
    |> DisplayState.set_status (Some "waiting")
    |> DisplayState.set_progress (Some "0/75")
    |> DisplayState.set_cartelas (Some 0)
    |> DisplayState.set_winStack (Some "Br. 0")
    |> DisplayState.set_connectionError (Some "Game ended and cleared")) >>
  setGameState (fun prev => prev
    |> GameState.set_gameId (gameId ||| None)
    |> GameState.set_gameStatus (Some "waiting")).

(** The first [game_reset] listener (the one that zeroes the betting data). *)
Definition on_game_reset_1 (data : GameReset.t) : Handler :=
  setGameState (fun prev => prev
    |> GameState.set_gameId (GameReset.gameId data)
    |> GameState.set_gameStatus (Some "waiting")
    |> GameState.set_calledNumbers []
    |> GameState.set_currentNumber None
    |> GameState.set_currentColumn None
    |> GameState.set_progress (Some 0)
    |> GameState.set_cartelas (Some 0)
    |> GameState.set_totalStack (Some 0)
    |> GameState.set_totalWinStack (Some 0)
    |> GameState.set_totalShopMargin (Some 0)
    |> GameState.set_totalSystemFee (Some 0)
    |> GameState.set_netPrizePool (Some 0)
    |> GameState.set_eventId None
    |> GameState.set_gameHistory []
    |> GameState.set_top3Winners []
    |> GameState.set_isLoadingGameData false) >>
  setDisplayState (fun prev => prev
    |> DisplayState.set_showWinner (Some false)
    |> DisplayState.set_winnerData None).

Definition on_placed_bets_updated_1 (placedBetCartelas : list Z) : Handler :=
  setGameState (fun prev => prev
    |> GameState.set_cartelas
         (Some (Z.of_nat (length placedBetCartelas)) ||| GameState.cartelas prev)) >>
  effect (DispatchWindowEvent "placed_bets_updated" placedBetCartelas).

Definition on_bets_placed (gameData : option GameData.t) : Handler :=
  setGameState (fun prev => prev
    |> GameState.set_cartelas
         ((gameData ≫= GameData.cartelas) ||| GameState.cartelas prev)
    |> GameState.set_stack
         ((gameData ≫= GameData.stack) ||| GameState.stack prev)
    |> GameState.set_totalStack
         ((gameData ≫= GameData.totalStack) ||| GameState.totalStack prev)
    |> GameState.set_totalWinStack
         ((gameData ≫= GameData.totalWinStack) ||| GameState.totalWinStack prev)
    |> GameState.set_totalShopMargin
         ((gameData ≫= GameData.totalShopMargin) ||| GameState.totalShopMargin prev)
    |> GameState.set_totalSystemFee
         ((gameData ≫= GameData.totalSystemFee) ||| GameState.totalSystemFee prev)
    |> GameState.set_netPrizePool
         ((gameData ≫= GameData.netPrizePool) ||| GameState.netPrizePool prev)
    |> GameState.set_netShopProfit
         ((gameData ≫= GameData.netShopProfit) ||| GameState.netShopProfit prev)
    |> GameState.set_gameStatus
         ((gameData ≫= GameData.status) ||| GameState.gameStatus prev)
    |> GameState.set_calledNumbers
         ((gameData ≫= GameData.calledNumbers) ||: GameState.calledNumbers prev)
    |> GameState.set_currentNumber
         ((gameData ≫= GameData.currentNumber) ||| GameState.currentNumber prev)
    |> GameState.set_currentColumn
         (columnIf (gameData ≫= GameData.currentNumber) (GameState.currentColumn prev))).

(** The first [game_data_updated] listener: [||] merges, no [stack]. *)
Definition on_game_data_updated_1 (data : GameDataMsg.t) : Handler :=
  let gameData := GameDataMsg.gameData data in
  when (js_truthy (GameDataMsg.id data))
    (setGameState (fun prev => prev
       |> GameState.set_gameId (GameDataMsg.id data)
       |> GameState.set_gameStatus
            (GameDataMsg.status data ||| GameState.gameStatus prev)
       |> GameState.set_cartelas
            ((gameData ≫= GameData.cartelas) ||| GameState.cartelas prev)
       |> GameState.set_totalStack
            ((gameData ≫= GameData.totalStack) ||| GameState.totalStack prev)
       |> GameState.set_totalWinStack
            ((gameData ≫= GameData.totalWinStack) ||| GameState.totalWinStack prev)
       |> GameState.set_totalShopMargin
            ((gameData ≫= GameData.totalShopMargin) ||| GameState.totalShopMargin prev)
       |> GameState.set_totalSystemFee
            ((gameData ≫= GameData.totalSystemFee) ||| GameState.totalSystemFee prev)
       |> GameState.set_netPrizePool
            ((gameData ≫= GameData.netPrizePool) ||| GameState.netPrizePool prev)
       |> GameState.set_netShopProfit
            ((gameData ≫= GameData.netShopProfit) ||| GameState.netShopProfit prev)
       |> GameState.set_calledNumbers
            ((gameData ≫= GameData.calledNumbers) ||: GameState.calledNumbers prev)
       |> GameState.set_currentNumber
            ((gameData ≫= GameData.currentNumber) ||| GameState.currentNumber prev)
       |> GameState.set_currentColumn
            (columnIf (gameData ≫= GameData.currentNumber)
                      (GameState.currentColumn prev))) >>
     match gameData ≫= GameData.placedBetCartelas with
     | Some l => effect (DispatchWindowEvent "placed_bets_updated" (mapKeys l))
     | None => skip
     end).

Definition on_game_status_updated (status gameId : option string) : Handler :=
  when (js_truthy status)
    (setGameState (fun prev => prev
       |> GameState.set_gameStatus status
       |> GameState.set_gameId (gameId ||| GameState.gameId prev))).

Definition on_game_comprehensive_reset (newGameId : option string) : Handler :=
  setGameState (fun prev => prev
    |> GameState.set_gameId (newGameId ||| None)
    |> GameState.set_gameStatus (Some "waiting")
    |> GameState.set_calledNumbers []
    |> GameState.set_currentNumber None
    |> GameState.set_currentColumn None
    |> GameState.set_eventId None
    |> GameState.set_gameHistory []
    |> GameState.set_top3Winners []
    |> GameState.set_isLoadingGameData false
    |> GameState.set_sessionId None
    |> GameState.set_selectedCartelas (Some [])) >>
  closeCartelas >>
  when (js_truthy newGameId) (effect (ReloadPage 1000)).

Definition on_disconnect : Handler :=
  setIsConnected false >>
  setConnectionError (Some ERROR_MESSAGES.CONNECTION_LOST) >>
  setDisplayState (fun prev => prev
    |> DisplayState.set_isConnected false
    |> DisplayState.set_connectionError (Some ERROR_MESSAGES.CONNECTION_LOST)).

Definition on_connect_error : Handler :=
  setIsConnected false >>
  setConnectionError (Some ERROR_MESSAGES.CONNECTION_FAILED) >>
  setIsLoading false >>
  setDisplayState (fun prev => prev
    |> DisplayState.set_isConnected false
    |> DisplayState.set_connectionError (Some ERROR_MESSAGES.CONNECTION_FAILED)
    |> DisplayState.set_isLoading false).

Definition on_display_unauthorized : Handler :=
  setIsConnected false >>
  setConnectionError (Some ERROR_MESSAGES.INVALID_TOKEN) >>
  setDisplayState (fun prev => prev
    |> DisplayState.set_isConnected false
    |> DisplayState.set_connectionError (Some ERROR_MESSAGES.INVALID_TOKEN)).

Definition on_game_start (gameId eventId : option string) : Handler :=
  when (js_truthy gameId)
    (setGameState (fun prev => prev
       |> GameState.set_gameStatus (Some "active")
       |> GameState.set_gameId gameId
       |> GameState.set_eventId eventId) >>
     when onCloseCartelas
       (effect OnCloseCartelas >>
        when (truthy displayToken) (effect SetJustStartedFlag)) >>
     requestGameData).

Definition on_number_called (number : option Z) : Handler :=
  match number with
  | Some n =>
      when (truthy n && (1 <=? n) && (n <=? 75))
        (setGameState (fun prev => prev
           |> GameState.set_currentNumber (Some n)
           |> GameState.set_currentColumn (Some (getColumnForNumber n))
           |> GameState.set_calledNumbers (GameState.calledNumbers prev ++ [n])))
  | None => skip
  end.

Definition on_game_end : Handler :=
  setGameState (GameState.set_gameStatus (Some "finished")) >>
  requestGameData.

(** [prevGameIdRef]: leave the room of the game shown before, remember the
    new one. *)
Definition leavePreviousGame (gameId : option string) : Handler := fun h =>
  let previous := Hook.prevGameIdRef h in
  (Hook.set_prevGameIdRef gameId h,
   if js_truthy previous && bool_decide (previous ≠ gameId)
   then [SocketEmit "leave_game" previous]
   else []).

Definition joinGame (gameId : option string) : Handler :=
  when (js_truthy gameId) (effect (SocketEmit "join_game" gameId)).

Definition on_game_created (data : GameCreated.t) : Handler :=
  leavePreviousGame (GameCreated.gameId data) >>
  setGameState (fun prev => prev
    |> GameState.set_gameId (GameCreated.gameId data)
    |> GameState.set_gameStatus
         (if bool_decide (GameCreated.status data = Some "pending")
          then Some "waiting"
          else Some (GameCreated.status data ||: "waiting"))
    |> GameState.set_calledNumbers (GameCreated.calledNumbers data ||: [])
    |> GameState.set_currentNumber None
    |> GameState.set_currentColumn None
    |> GameState.set_totalWinStack (Some (GameCreated.winStack data ||: 0))
    |> GameState.set_cartelas (Some (GameCreated.cartelas data ||: 0))) >>
  joinGame (GameCreated.gameId data).

Definition on_game_started (gameId : option string) : Handler :=
  leavePreviousGame gameId >>
  setGameState (fun prev => prev
    |> GameState.set_gameStatus (Some "active")
    |> GameState.set_gameId gameId) >>
  when onCloseCartelas
    (effect OnCloseCartelas >>
     when (truthy displayToken) (effect SetJustStartedFlag)) >>
  joinGame gameId.

Definition on_game_paused : Handler :=
  setGameState (GameState.set_gameStatus (Some "paused")).

Definition on_game_resumed : Handler :=
  setGameState (GameState.set_gameStatus (Some "active")) >>
  requestGameData.

(** The second [game_reset] listener (the one that keeps the betting data
    with [??]). *)
Definition on_game_reset_2 (data : GameReset.t) : Handler :=
  setGameState (fun prev => prev
    |> GameState.set_gameId (GameReset.gameId data)
    |> GameState.set_gameStatus (Some "waiting")
    |> GameState.set_calledNumbers (GameReset.calledNumbers data ||: [])
    |> GameState.set_currentNumber None
    |> GameState.set_currentColumn None
    |> GameState.set_cartelas (GameReset.cartelas data ??? GameState.cartelas prev)
    |> GameState.set_totalWinStack
         (GameReset.totalWinStack data ??? GameState.totalWinStack prev)
    |> GameState.set_totalStack
         (GameReset.totalStack data ??? GameState.totalStack prev)
    |> GameState.set_eventId None
    |> GameState.set_gameHistory []
    |> GameState.set_top3Winners []
    |> GameState.set_isLoadingGameData false
    |> GameState.set_sessionId None) >>
  requestGameData.

Definition on_game_ended : Handler :=
  setGameState (fun prev => prev
    |> GameState.set_gameStatus (Some "waiting")
    |> GameState.set_currentNumber None
    |> GameState.set_currentColumn None
    |> GameState.set_calledNumbers []
    |> GameState.set_eventId None
    |> GameState.set_gameHistory []
    |> GameState.set_top3Winners []
    |> GameState.set_isLoadingGameData false
    |> GameState.set_sessionId None) >>
  closeCartelas >>
  requestGameData.

Definition on_number_drawn (number : option Z) (calledNumbers : option (list Z))
  : Handler :=
  setDisplayState (DisplayState.set_isDrawing true) >>
  setGameState (fun prev => prev
    |> GameState.set_calledNumbers (calledNumbers ||: GameState.calledNumbers prev)
    |> GameState.set_currentNumber number
    |> GameState.set_currentColumn (columnIf number None)) >>
  match number with
  | Some n => when (soundCallbacks && truthy n) (effect (PlayNumberSound n))
  | None => skip
  end >>
  effect (ClearIsDrawingAfter 2000).

Definition on_game_update (data : GameUpdate.t) : Handler :=
  setGameState (fun prev => prev
    |> GameState.set_gameStatus
         (if js_truthy (GameUpdate.status data)
          then (if bool_decide (GameUpdate.status data = Some "pending")
                then Some "waiting" else GameUpdate.status data)
          else GameState.gameStatus prev)
    |> GameState.set_cartelas (GameUpdate.cartelas data ??? GameState.cartelas prev)
    |> GameState.set_totalWinStack
         (GameUpdate.winStack data ??? GameState.totalWinStack prev)
    |> GameState.set_totalStack
         (GameUpdate.totalStack data ??? GameState.totalStack prev)) >>
  requestGameData.

(** The snapshot merge shared by the second [game_data_updated] listener and
    by [game_data_response]: progress cleared on [waiting], betting data
    merged with [??]. *)
Definition snapshotProgress (data : GameDataMsg.t) (prev : GameState.t)
  : GameState.t :=
  let gameData := GameDataMsg.gameData data in
  let isGameWaiting := bool_decide (GameDataMsg.status data = Some "waiting") in
  prev
    |> GameState.set_gameId
         (if shouldUpdateGameId (GameState.gameId prev) (GameDataMsg.id data)
          then GameDataMsg.id data else GameState.gameId prev)
    |> GameState.set_gameStatus
         (GameDataMsg.status data ||| GameState.gameStatus prev)
    |> GameState.set_calledNumbers
         (if isGameWaiting then []
          else (gameData ≫= GameData.calledNumbers) ||: GameState.calledNumbers prev)
    |> GameState.set_currentNumber
         (if isGameWaiting then None
          else (gameData ≫= GameData.currentNumber) ||| GameState.currentNumber prev)
    |> GameState.set_currentColumn
         (if isGameWaiting then None
          else columnIf (gameData ≫= GameData.currentNumber)
                        (GameState.currentColumn prev))
    |> GameState.set_totalWinStack
         ((gameData ≫= GameData.totalWinStack) ??? GameState.totalWinStack prev)
    |> GameState.set_totalStack
         ((gameData ≫= GameData.totalStack) ??? GameState.totalStack prev)
    |> GameState.set_cartelas
         ((gameData ≫= GameData.cartelas) ??? GameState.cartelas prev).

Definition snapshotMargins (data : GameDataMsg.t) (prev : GameState.t)
  (s : GameState.t) : GameState.t :=
  let gameData := GameDataMsg.gameData data in
  s |> GameState.set_totalShopMargin
         ((gameData ≫= GameData.totalShopMargin) ??? GameState.totalShopMargin prev)
    |> GameState.set_totalSystemFee
         ((gameData ≫= GameData.totalSystemFee) ??? GameState.totalSystemFee prev)
    |> GameState.set_netPrizePool
         ((gameData ≫= GameData.netPrizePool) ??? GameState.netPrizePool prev).

Definition closeWhenActive (data : GameDataMsg.t) : Handler :=
  when (bool_decide (GameDataMsg.status data = Some "active") && onCloseCartelas)
    (effect OnCloseCartelas).

Definition on_game_data_updated_2 (data : GameDataMsg.t) : Handler :=
  let gameData := GameDataMsg.gameData data in
  when (js_truthy (GameDataMsg.id data))
    (setGameState (fun prev => snapshotProgress data prev
       |> GameState.set_stack
            ((gameData ≫= GameData.stack) ??? GameState.stack prev)
       |> snapshotMargins data prev
       |> GameState.set_netShopProfit
            ((gameData ≫= GameData.netShopProfit) ??? GameState.netShopProfit prev)
       |> GameState.set_isLoadingGameData false) >>
     closeWhenActive data).

Definition on_game_id_updated (gameId : option string) : Handler :=
  when (js_truthy gameId) (setGameState (GameState.set_gameId gameId)).

Definition on_game_data_response (data : GameDataMsg.t) : Handler :=
  when (js_truthy (GameDataMsg.id data))
    (setGameState (fun prev => snapshotProgress data prev
       |> snapshotMargins data prev
       |> GameState.set_isLoadingGameData false) >>
     closeWhenActive data).

Definition on_cartela_verified (data : VerificationData) : Handler :=
  setVerificationData (Some data) >>
  setDisplayState (fun prev => prev
    |> DisplayState.set_showVerificationModal true
    |> DisplayState.set_modalPersistent true) >>
  when soundCallbacks
    (if String.eqb (vd_status data) "won" then effect PlayWinSound
     else if String.eqb (vd_status data) "lost" then effect PlayLostSound
     else skip).

(** [data && data.sessionId === displayToken]. *)
Definition forOurSession (sessionId : option string) : bool :=
  bool_decide (sessionId = Some displayToken).

Definition closeVerificationModal : Handler :=
  setDisplayState (fun prev => prev
    |> DisplayState.set_showVerificationModal false
    |> DisplayState.set_modalPersistent false) >>
  setVerificationData None.

Definition on_close_verification_modal (sessionId : option string) : Handler :=
  when (forOurSession sessionId) closeVerificationModal.

Definition on_close_verification_modal_display (sessionId : option string)
  : Handler :=
  when (forOurSession sessionId) closeVerificationModal.

Definition on_game_session_info (gameId sessionId status : option string)
  : Handler :=
  setGameState (fun prev => prev
    |> GameState.set_gameId
         (if shouldUpdateGameId (GameState.gameId prev) gameId
          then gameId else GameState.gameId prev)
    |> GameState.set_sessionId sessionId
    |> GameState.set_gameStatus status).

Definition on_cashier_joined_room (gameId : option string) : Handler :=
  setDisplayState (DisplayState.set_isConnected true) >>
  when (js_truthy gameId)
    (setGameState (fun prev => prev
       |> GameState.set_gameId
            (if shouldUpdateGameId (GameState.gameId prev) gameId
             then gameId else GameState.gameId prev))).

Definition on_connection_status_update (sessionId : option string)
  (displayConnected : option bool) : Handler :=
  when (forOurSession sessionId)
    (setDisplayState (DisplayState.set_isConnected (displayConnected ||: false))).

Definition on_display_connection_status (sessionId : option string)
  (connected : option bool) : Handler :=
  when (forOurSession sessionId)
    (setDisplayState (DisplayState.set_isConnected (connected ||: false))).

Definition on_display_connected : Handler :=
  setDisplayState (DisplayState.set_isConnected true).

Definition on_display_waiting_for_game_2 : Handler :=
  setDisplayState (fun prev => prev
    |> DisplayState.set_isConnected false
    |> DisplayState.set_connectionError (Some "Waiting for game to start...")).

Definition on_display_error_2 (message : option string) : Handler :=
  setDisplayState (fun prev => prev
    |> DisplayState.set_isConnected false
    |> DisplayState.set_connectionError
         (Some (message ||: "Connection error occurred"))).

Definition on_close_cartelas : Handler := closeCartelas.

(** The first [refresh_pages] listener reloads at once for the two
    directives it recognises; the second reloads after a second, always. *)
Definition on_refresh_pages_1 (message : option string) : Handler :=
  match message with
  | Some m =>
      if truthy m && includes m "Game ended" then effect (ReloadPage 0)
      else if truthy m && includes m "Verification modal closed"
           then effect (ReloadPage 0)
           else skip
  | None => skip
  end.

Definition on_refresh_pages_2 : Handler := effect (ReloadPage 1000).

Definition on_verification_modal_closed : Handler := effect (ReloadPage 0).

(** The listener first logs [data.winningPatterns.join(', ')]: for a payload
    without [winningPatterns] that expression throws a TypeError, and the
    listener ends there, before any update and before the win sound. *)
Definition on_game_completed (gameId : option string)
  (winningPatterns : option (list string)) : Handler :=
  match winningPatterns with
  | Some _ =>
      setGameState (fun prev => prev
        |> GameState.set_gameStatus (Some "completed")
        |> GameState.set_gameId gameId) >>
      when soundCallbacks (effect PlayWinSound)
  | None => skip
  end.

Definition on_end_game (gameId : option string) : Handler :=
  setGameState (fun prev => prev
    |> GameState.set_gameStatus (Some "completed")
    |> GameState.set_gameId gameId).

Definition on_cartela_selected (cartelaId : Z) : Handler :=
  setGameState (fun prev => prev
    |> GameState.set_selectedCartelas
         (Some ((GameState.selectedCartelas prev ||: []) ++ [cartelaId]))).

Definition on_cartela_deselected (cartelaId : Z) : Handler :=
  setGameState (fun prev => prev
    |> GameState.set_selectedCartelas
         (Some (filter (fun id => id ≠ cartelaId)
                       (GameState.selectedCartelas prev ||: [])))).

Definition on_cartelas_cleared : Handler :=
  setGameState (GameState.set_selectedCartelas (Some [])) >>
  effect (DispatchWindowEvent "cartelas_cleared" []) >>
  effect (ReloadPage 50).

Definition on_cartela_selections_response (selectedCartelas : option (list Z))
  : Handler :=
  setGameState (GameState.set_selectedCartelas selectedCartelas).

Definition on_ticket_cancelled (cartelaId : Z) : Handler :=
  setGameState (fun prev => prev
    |> GameState.set_selectedCartelas
         (Some (filter (fun id => id ≠ cartelaId)
                       (GameState.selectedCartelas prev ||: [])))).

Definition on_reconnect : Handler :=
  setIsConnected true >> setConnectionError None >> setIsLoading false >>
  setDisplayState (fun prev => prev
    |> DisplayState.set_isConnected true
    |> DisplayState.set_connectionError None
    |> DisplayState.set_isLoading false).

Definition on_reconnect_error : Handler :=
  setIsConnected false >>
  setConnectionError (Some ERROR_MESSAGES.RECONNECTION_FAILED) >>
  setDisplayState (fun prev => prev
    |> DisplayState.set_isConnected false
    |> DisplayState.set_connectionError (Some ERROR_MESSAGES.RECONNECTION_FAILED)).

Definition on_display_shuffle_animation (action : option string) : Handler :=
  if bool_decide (action = Some "start") then
    setDisplayState (fun prev => prev
      |> DisplayState.set_show3DMixer (Some true)
      |> DisplayState.set_isShuffling (Some true))
  else if bool_decide (action = Some "complete") then
    setDisplayState (fun prev => prev
      |> DisplayState.set_show3DMixer (Some false)
      |> DisplayState.set_isShuffling (Some false))
  else skip.

Definition on_placed_bets_updated_2 (gameId : option string) : Handler :=
  setGameState (fun prev => prev
    |> GameState.set_gameId (gameId ||| GameState.gameId prev)).

(** The listeners of [setupSocketListeners] for each event, in the order of
    their [socketInstance.on] calls: the socket runs every listener of a
    name, first registered first. *)
Definition listeners (e : Event) : list Handler :=
  match e with
  | connect => [on_connect]
  | display_waiting_for_cashier => [on_display_waiting_for_cashier]
  | display_waiting_for_game =>
      [on_display_waiting_for_game_1; on_display_waiting_for_game_2]
  | cashier_joined => [on_cashier_joined]
  | display_room_joined _ => [on_display_room_joined]
  | display_error message => [on_display_error_1 message; on_display_error_2 message]
  | game_cleared gameId => [on_game_cleared gameId]
  | game_reset data => [on_game_reset_1 data; on_game_reset_2 data]
  | placed_bets_updated cartelas gameId =>
      [on_placed_bets_updated_1 cartelas; on_placed_bets_updated_2 gameId]
  | bets_placed gameData => [on_bets_placed gameData]
  | game_data_updated data => [on_game_data_updated_1 data; on_game_data_updated_2 data]
  | game_status_updated status gameId => [on_game_status_updated status gameId]
  | game_comprehensive_reset newGameId => [on_game_comprehensive_reset newGameId]
  | disconnect => [on_disconnect]
  | connect_error => [on_connect_error]
  | display_unauthorized => [on_display_unauthorized]
  | game_start gameId eventId => [on_game_start gameId eventId]
  | number_called number => [on_number_called number]
  | game_end => [on_game_end]
  | game_created data => [on_game_created data]
  | game_started gameId => [on_game_started gameId]
  | game_paused => [on_game_paused]
  | game_resumed => [on_game_resumed]
  | game_ended => [on_game_ended]
  | number_drawn number calledNumbers => [on_number_drawn number calledNumbers]
  | game_update data => [on_game_update data]
  | game_id_updated gameId => [on_game_id_updated gameId]
  | game_data_response data => [on_game_data_response data]
  | cartela_verified data => [on_cartela_verified data]
  | close_verification_modal sessionId => [on_close_verification_modal sessionId]
  | close_verification_modal_display sessionId =>
      [on_close_verification_modal_display sessionId]
  | game_session_info gameId sessionId status =>
      [on_game_session_info gameId sessionId status]
  | room_joined => [skip]
  | user_joined_room => [skip]
  | cashier_joined_room gameId => [on_cashier_joined_room gameId]
  | connection_status_update sessionId displayConnected =>
      [on_connection_status_update sessionId displayConnected]
  | display_connection_status sessionId connected =>
      [on_display_connection_status sessionId connected]
  | display_connected => [on_display_connected]
  | show_cartelas => [skip]
  | close_cartelas => [on_close_cartelas; on_close_cartelas]
  | refresh_pages message _ => [on_refresh_pages_1 message; on_refresh_pages_2]
  | verification_modal_closed _ => [on_verification_modal_closed]
  | game_completed gameId winningPatterns =>
      [on_game_completed gameId winningPatterns]
  | end_game gameId _ => [on_end_game gameId]
  | game_data_refresh => [skip]
  | cartela_selected cartelaId => [on_cartela_selected cartelaId]
  | cartela_deselected cartelaId => [on_cartela_deselected cartelaId]
  | cartelas_cleared _ => [on_cartelas_cleared]
  | cartela_selections_response selected => [on_cartela_selections_response selected]
  | ticket_cancelled cartelaId _ => [on_ticket_cancelled cartelaId]
  | reconnect => [on_reconnect]
  | reconnect_error => [on_reconnect_error]
  | display_shuffle_animation _ action => [on_display_shuffle_animation action]
  | unhandled _ => []
  end.

(** One inbound event: every listener of its name runs to completion. *)
Definition applyEvent (e : Event) : Handler := runAll (listeners e).

(** The fold over an event sequence. *)
Fixpoint applyEvents (es : list Event) : Handler :=
  match es with
  | [] => skip
  | e :: rest => applyEvent e >> applyEvents rest
  end.

End Listeners.

(** ** Opening the connection *)

Section Connection.

(** [io]: the transport either hands back a socket or throws ([None]). *)
Variable io : string -> option Socket.

(** [initializeSocket], a closure of the hook that only the connection
    effect below calls: the hook's cells after the call, what it did, and
    the socket it returns ([None] is [null]). Each call of [io] is recorded
    as an [IoConnect] effect. *)
Definition initializeSocket (displayToken : option string) (h : Hook.t)
  : Hook.t * list SideEffect * option Socket :=
  match displayToken with
  | Some token =>
      if truthy token then
        match io token with
        | Some socketInstance => (h, [IoConnect token], Some socketInstance)
        | None =>
            let '(h', effects) :=
              (setConnectionError (Some ERROR_MESSAGES.INITIALIZATION_FAILED) >>
               setIsLoading false) h in
            (h', IoConnect token :: effects, None)
        end
      else
        let '(h', effects) :=
          (setConnectionError (Some ERROR_MESSAGES.NO_TOKEN) >>
           setIsConnected false >> setIsLoading false) h in
        (h', effects, None)
  | None =>
      let '(h', effects) :=
        (setConnectionError (Some ERROR_MESSAGES.NO_TOKEN) >>
         setIsConnected false >> setIsLoading false) h in
      (h', effects, None)
  end.

(** The connection effect of [useSocket]: nothing without a token, else
    [initializeSocket] and, when it returned a socket, [setSocket]. *)
Definition connectionEffect (displayToken : option string) (h : Hook.t)
  : Hook.t * list SideEffect :=
  if negb (js_truthy displayToken) then (h, [])
  else
    let '(h', effects, socketInstance) := initializeSocket displayToken h in
    match socketInstance with
    | Some s => (Hook.set_socket (Some s) h', effects)
    | None => (h', effects)
    end.

End Connection.

(** ** The display page: deriving the cartela overlay *)

Module DisplayPage.

Record PlacedBet : Type := {
  cartelaId : Z;
  placedAt : Z;
  status : string
}.

(** What the page keeps in [localStorage]: the guard flags are the text
    ['true'], the saved overlay state is the JSON text of
    [{showCartelas, selectedCartelas}], kept here unserialised. *)
Inductive Stored : Type :=
  | Text (s : string)
  | CartelaState (showCartelas : bool) (selectedCartelas : list Z).

#[export] Instance Truthy_Stored : Truthy Stored := fun v =>
  match v with
  | Text s => truthy s
  | CartelaState _ _ => true
  end.

#[export] Instance Stored_eq_dec : EqDecision Stored.
Proof. solve_decision. Defined.

Abbreviation LocalStorage := (gmap string Stored).

(** [`cartela_display_${displayToken}`] and the two guard keys; a [null]
    token prints as [null]. *)
Definition stateKey (displayToken : option string) : string :=
  "cartela_display_" +:+ default "null" displayToken.

Definition justStartedKey (displayToken : option string) : string :=
  stateKey displayToken +:+ "_just_started".

Definition wasActiveKey (displayToken : option string) : string :=
  stateKey displayToken +:+ "_was_active".

(** The [useState] cells of the page that the overlay logic writes. *)
Record Page : Type := {
  showCartelas : bool;
  availableCartelas : list Z;
  selectedCartelas : list Z
}.

(** What an effect sees: the values of the render it belongs to. *)
Record Render : Type := {
  page : Page;
  placedBets : gmap Z PlacedBet;
  gameState : GameState.t;
  displayToken : option string
}.

(** A queued [useState] setter call. *)
Inductive Update : Type :=
  | SetShowCartelas (b : bool)
  | SetSelectedCartelas (l : list Z)
  | SetAvailableCartelas (l : list Z).

(** An effect reads its render, reads and writes [localStorage] at once,
    and queues setter calls. *)
Definition Effect : Type := Render -> LocalStorage -> list Update * LocalStorage.

Definition saveCartelaState (displayToken : option string) (show : bool)
  (cartelas : list Z) (ls : LocalStorage) : LocalStorage :=
  if js_truthy displayToken
  then <[stateKey displayToken := CartelaState show cartelas]> ls
  else ls.

Definition statusIs (r : Render) (s : string) : bool :=
  bool_decide (GameState.gameStatus (gameState r) = Some s).

(** "Sync with gameState.selectedCartelas for real-time updates". *)
Definition syncSelectedCartelas : Effect := fun r ls =>
  match GameState.selectedCartelas (gameState r) with
  | Some selected =>
      let shouldShowCartelas :=
        (0 <? Z.of_nat (length selected)) || (0 <? Z.of_nat (size (placedBets r))) in
      if shouldShowCartelas then
        if statusIs r "waiting" then
          if negb (js_truthy (ls !! justStartedKey (displayToken r))) then
            ([SetSelectedCartelas selected; SetShowCartelas true],
             saveCartelaState (displayToken r) true selected ls)
          else
            ([SetSelectedCartelas selected],
             delete (justStartedKey (displayToken r)) ls)
        else ([SetSelectedCartelas selected], ls)
      else
        ([SetSelectedCartelas selected; SetShowCartelas false],
         saveCartelaState (displayToken r) false [] ls)
  | None => ([], ls)
  end.

(** "Auto-close cartela display when game becomes active": emptied, it
    keeps the overlay. *)
Definition keepOpenWhenActive : Effect := fun r ls => ([], ls).

Definition closeAll (r : Render) (ls : LocalStorage) : list Update * LocalStorage :=
  ([SetShowCartelas false; SetSelectedCartelas []; SetAvailableCartelas []],
   saveCartelaState (displayToken r) false [] ls).

(** "Auto-close cartela display when game status changes from 'waiting' to
    other statuses". *)
Definition closeOnTerminalStatus : Effect := fun r ls =>
  if negb (statusIs r "waiting") && showCartelas (page r) then
    if statusIs r "completed" || statusIs r "finished" || statusIs r "cancelled"
    then closeAll r ls
    else ([], ls)
  else ([], ls).

(** "Clear cartela state when game ends". *)
Definition clearAfterGame : Effect := fun r ls =>
  if statusIs r "waiting" && showCartelas (page r) then
    if bool_decide (ls !! wasActiveKey (displayToken r) = Some (Text "true")) then
      let '(updates, ls') := closeAll r ls in
      (updates, delete (wasActiveKey (displayToken r)) ls')
    else ([], ls)
  else if statusIs r "active" then
    ([], <[wasActiveKey (displayToken r) := Text "true"]> ls)
  else ([], ls).

(** The effects that depend on [gameState.gameStatus] and touch the
    overlay, in the order the component declares them. *)
Definition statusEffects : list Effect :=
  [syncSelectedCartelas; keepOpenWhenActive; closeOnTerminalStatus; clearAfterGame].

(** After a render the effects run in order on the same render values;
    [localStorage] is threaded through, the setter calls are queued. *)
Fixpoint runEffects (effects : list Effect) (r : Render) (ls : LocalStorage)
  : list Update * LocalStorage :=
  match effects with
  | [] => ([], ls)
  | e :: rest =>
      let '(u1, ls1) := e r ls in
      let '(u2, ls2) := runEffects rest r ls1 in
      (u1 ++ u2, ls2)
  end.

Definition applyUpdate (p : Page) (u : Update) : Page :=
  match u with
  | SetShowCartelas b =>
      {| showCartelas := b; availableCartelas := availableCartelas p;
         selectedCartelas := selectedCartelas p |}
  | SetSelectedCartelas l =>
      {| showCartelas := showCartelas p; availableCartelas := availableCartelas p;
         selectedCartelas := l |}
  | SetAvailableCartelas l =>
      {| showCartelas := showCartelas p; availableCartelas := l;
         selectedCartelas := selectedCartelas p |}
  end.

(** The queued setter calls are applied in call order. *)
Definition commit (p : Page) (updates : list Update) : Page :=
  fold_left applyUpdate updates p.

(** One pass after a render in which the status changed: the page cells
    and [localStorage] that the next render sees. *)
Definition statusPass (r : Render) (ls : LocalStorage) : Page * LocalStorage :=
  let '(updates, ls') := runEffects statusEffects r ls in
  (commit (page r) updates, ls').

(** The terminal statuses. *)
Definition isTerminal (status : option string) : bool :=
  bool_decide (status = Some "completed") || bool_decide (status = Some "finished")
  || bool_decide (status = Some "cancelled").

End DisplayPage.

(** ** Helpers of lib/utils.ts *)

Module BINGO_CONFIG.
Definition TOTAL_NUMBERS : Z := 75.
End BINGO_CONFIG.

(** [l[i]] for an integer index: [undefined] outside the array. *)
Definition nthZ {A} (l : list A) (i : Z) : option A :=
  if i <? 0 then None else l !! Z.to_nat i.

(** [l.slice(start)]: a negative start counts from the end, and both ends
    are clamped to the array. *)
Definition sliceFrom {A} (l : list A) (start : Z) : list A :=
  let len := Z.of_nat (length l) in
  let k := if start <? 0 then Z.max (len + start) 0 else Z.min start len in
  drop (Z.to_nat k) l.

(** The value of a decimal digit character. *)
Definition digitValue (c : ascii) : option Z :=
  let n := Z.of_nat (nat_of_ascii c) in
  if (48 <=? n) && (n <=? 57) then Some (n - 48) else None.

(** White space as [trim] and [parseInt] skip it. Strings are 8-bit here, so
    only the ASCII white space (tab, line feed, vertical tab, form feed,
    carriage return, space) is represented. *)
Definition isWhiteSpace (c : ascii) : bool :=
  let n := Z.of_nat (nat_of_ascii c) in
  ((9 <=? n) && (n <=? 13)) || (n =? 32).

Fixpoint trimStart (s : string) : string :=
  match s with
  | String c rest => if isWhiteSpace c then trimStart rest else s
  | EmptyString => EmptyString
  end.

(** The longest run of decimal digits at the start of [s], read into [acc];
    [seen] tells whether a digit was read. No digit at all is [NaN]. *)
Fixpoint parseDigits (s : string) (acc : Z) (seen : bool) : option Z :=
  match s with
  | String c rest =>
      match digitValue c with
      | Some d => parseDigits rest (10 * acc + d) true
      | None => if seen then Some acc else None
      end
  | EmptyString => if seen then Some acc else None
  end.

(** [parseInt(s, 10)]; [None] is [NaN]. Leading white space is skipped, one
    sign is read, then digits up to the first other character. *)
Definition parseInt (s : string) : option Z :=
  match trimStart s with
  | String "-" rest => Z.opp <$> parseDigits rest 0 false
  | String "+" rest => parseDigits rest 0 false
  | t => parseDigits t 0 false
  end.

(** [n.toString()] of an integer. *)
Definition toString (n : Z) : string := NilZero.string_of_int (Z.to_int n).

(** [Number.MAX_SAFE_INTEGER]: up to it every integer is a JavaScript
    number, and [Z] stands for them exactly. *)
Definition MAX_SAFE_INTEGER : Z := 9007199254740991.

(** The value of a decimal numeral read from the left into [acc] (the
    arithmetic of [parseDigits], on the numerals that [toString] prints). *)
Fixpoint uintValue (d : Decimal.uint) (acc : Z) : Z :=
  match d with
  | Decimal.Nil => acc
  | Decimal.D0 l => uintValue l (10 * acc + 0)
  | Decimal.D1 l => uintValue l (10 * acc + 1)
  | Decimal.D2 l => uintValue l (10 * acc + 2)
  | Decimal.D3 l => uintValue l (10 * acc + 3)
  | Decimal.D4 l => uintValue l (10 * acc + 4)
  | Decimal.D5 l => uintValue l (10 * acc + 5)
  | Decimal.D6 l => uintValue l (10 * acc + 6)
  | Decimal.D7 l => uintValue l (10 * acc + 7)
  | Decimal.D8 l => uintValue l (10 * acc + 8)
  | Decimal.D9 l => uintValue l (10 * acc + 9)
  end.

(** A JavaScript number, where a helper may be handed any: a finite number
    (every finite double is a rational), [NaN] or an infinity. *)
Inductive JsNumber : Type :=
  | Finite (q : Q)
  | NaN
  | PosInfinity
  | NegInfinity.

(** An integer as a JavaScript number. *)
Definition ofZ (z : Z) : JsNumber := Finite (inject_Z z).

(** [x >= c], [x <= c], [x < c] and [x > c] for an integer literal [c];
    every comparison with [NaN] is false. *)
Definition js_ge (x : JsNumber) (c : Z) : bool :=
  match x with
  | Finite q => Qle_bool (inject_Z c) q
  | PosInfinity => true
  | NaN | NegInfinity => false
  end.

Definition js_le (x : JsNumber) (c : Z) : bool :=
  match x with
  | Finite q => Qle_bool q (inject_Z c)
  | NegInfinity => true
  | NaN | PosInfinity => false
  end.

Definition js_lt (x : JsNumber) (c : Z) : bool :=
  match x with
  | Finite q => negb (Qle_bool (inject_Z c) q)
  | NegInfinity => true
  | NaN | PosInfinity => false
  end.

Definition js_gt (x : JsNumber) (c : Z) : bool :=
  match x with
  | Finite q => negb (Qle_bool q (inject_Z c))
  | PosInfinity => true
  | NaN | NegInfinity => false
  end.

(** Whether a rational is an integer, and the integer it then is. *)
Definition isInteger (q : Q) : bool := Z.rem (Qnum q) (Z.pos (Qden q)) =? 0.

Definition integerOf (q : Q) : Z := Z.quot (Qnum q) (Z.pos (Qden q)).

Module Utils.

Record BingoColumn : Type := {
  letter : string;
  numbers : list Z
}.

(** The copy of the column helper in lib/utils.ts, on any number. *)
Definition getColumnForNumber (number : JsNumber) : string :=
  if js_ge number 1 && js_le number 15 then "B"
  else if js_ge number 16 && js_le number 30 then "I"
  else if js_ge number 31 && js_le number 45 then "N"
  else if js_ge number 46 && js_le number 60 then "G"
  else if js_ge number 61 && js_le number 75 then "O"
  else "".

Definition isNumberCalled (number : Z) (calledNumbers : list Z) : bool :=
  bool_decide (number ∈ calledNumbers).

(** [Array.from({ length: n }, (_, i) => i + first)]. *)
Definition arrayFrom (n : Z) (first : Z) : list Z :=
  (fun i => i + first) <$> seqZ 0 n.

Definition generateBingoColumns : list BingoColumn :=
  [ {| letter := "B"; numbers := arrayFrom 15 1 |};
    {| letter := "I"; numbers := arrayFrom 15 16 |};
    {| letter := "N"; numbers := arrayFrom 15 31 |};
    {| letter := "G"; numbers := arrayFrom 15 46 |};
    {| letter := "O"; numbers := arrayFrom 15 61 |} ].

(** Every number of the board, column after column. *)
Definition boardNumbers : list Z :=
  concat (numbers <$> generateBingoColumns).

Definition isValidBingoNumber (number : JsNumber) : bool :=
  js_ge number 1 && js_le number BINGO_CONFIG.TOTAL_NUMBERS.

(** [getRecentNumbers(calledNumbers, count = 3)]. *)
Definition getRecentNumbers (calledNumbers : list Z) (count : option Z) : list Z :=
  sliceFrom calledNumbers (- default 3 count).

Record WinningPatternDetails : Type := {
  patternName : string;
  pattern : option (list (list bool));
  matchedPositions : option (list (list Z))
}.

Definition isPositionInWinningPattern (rowIndex colIndex : Z)
  (winningPatternDetails : option WinningPatternDetails) : bool :=
  match winningPatternDetails with
  | None => false
  | Some details =>
      match pattern details with
      | None => false
      | Some cells =>
          let isInPattern :=
            bool_decide (nthZ cells rowIndex ≫= (fun row => nthZ row colIndex)
                         = Some true) in
          let isMatched :=
            (fun positions =>
               existsb (fun pos => bool_decide (pos !! 0%nat = Some rowIndex)
                                   && bool_decide (pos !! 1%nat = Some colIndex))
                       positions) <$> matchedPositions details in
          (isInPattern && js_truthy isMatched)
          || ((rowIndex =? 2) && (colIndex =? 2))
      end
  end.

Definition isHexDigit (c : ascii) : bool :=
  let n := Z.of_nat (nat_of_ascii c) in
  ((48 <=? n) && (n <=? 57)) || ((97 <=? n) && (n <=? 102))
  || ((65 <=? n) && (n <=? 70)).

(** One item of the UUID pattern: [k] hexadecimal digits, or a hyphen. *)
Inductive UuidItem : Type := Hex (k : nat) | Hyphen.

(** [^[0-9a-f]{8}-[0-9a-f]{4}-[0-9a-f]{4}-[0-9a-f]{4}-[0-9a-f]{12}$], with
    the [i] flag. *)
Definition uuidRegex : list UuidItem :=
  [Hex 8; Hyphen; Hex 4; Hyphen; Hex 4; Hyphen; Hex 4; Hyphen; Hex 12].

Fixpoint matchHex (k : nat) (s : string) : option string :=
  match k with
  | O => Some s
  | S k' =>
      match s with
      | String c rest => if isHexDigit c then matchHex k' rest else None
      | EmptyString => None
      end
  end.

(** Matches the items from the start of [s] to its end. *)
Fixpoint matchItems (items : list UuidItem) (s : string) : bool :=
  match items with
  | [] => bool_decide (s = EmptyString)
  | Hex k :: rest =>
      match matchHex k s with
      | Some s' => matchItems rest s'
      | None => false
      end
  | Hyphen :: rest =>
      match s with
      | String "-" s' => matchItems rest s'
      | _ => false
      end
  end.

Definition isValidUUID (token : string) : bool := matchItems uuidRegex token.

(** The number of characters that a pattern matches. *)
Fixpoint itemsLength (items : list UuidItem) : nat :=
  match items with
  | [] => O
  | Hex k :: rest => (k + itemsLength rest)%nat
  | Hyphen :: rest => S (itemsLength rest)
  end.

Definition validateDisplayToken (token : option string) : bool :=
  if negb (js_truthy token) then false else isValidUUID (default "" token).

Definition extractGameIdNumber (gameId : option string) : Z :=
  match gameId with
  | Some s => if truthy s then default 0 (parseInt s) else 0
  | None => 0
  end.

(** A game id as the display helpers take it: a string or a number. *)
Inductive GameIdValue : Type :=
  | IdString (s : string)
  | IdNumber (n : Z).

#[export] Instance Truthy_GameIdValue : Truthy GameIdValue := fun v =>
  match v with
  | IdString s => truthy s
  | IdNumber n => truthy n
  end.

Definition formatGameIdForDisplay (gameId : option GameIdValue) : string :=
  match gameId with
  | Some v =>
      if negb (truthy v) then "0"
      else match v with
           | IdNumber n => toString n
           | IdString s =>
               match parseInt s with
               | Some parsedId => toString parsedId
               | None => "0"
               end
           end
  | None => "0"
  end.

Definition getGameIdNumber (gameId : option GameIdValue) : Z :=
  match gameId with
  | Some v =>
      if negb (truthy v) then 0
      else match v with
           | IdNumber n => n
           | IdString s => default 0 (parseInt s)
           end
  | None => 0
  end.

End Utils.

(** ** Helpers of lib/security.ts *)

Module Security.

(** [s.trim()]. *)
Fixpoint trimEnd (s : string) : string :=
  match s with
  | EmptyString => EmptyString
  | String c rest =>
      let rest' := trimEnd rest in
      if isWhiteSpace c && String.eqb rest' "" then EmptyString
      else String c rest'
  end.

Definition trim (s : string) : string := trimEnd (trimStart s).

(** The class [[a-zA-Z0-9\-_\.]]. *)
Definition isTokenChar (c : ascii) : bool :=
  let n := Z.of_nat (nat_of_ascii c) in
  ((97 <=? n) && (n <=? 122)) || ((65 <=? n) && (n <=? 90))
  || ((48 <=? n) && (n <=? 57))
  || (n =? 45) || (n =? 95) || (n =? 46).

Fixpoint allChars (p : ascii -> bool) (s : string) : bool :=
  match s with
  | String c rest => p c && allChars p rest
  | EmptyString => true
  end.

(** [^[a-zA-Z0-9\-_\.]+$]: at least one character, all of the class. *)
Definition tokenRegexTest (s : string) : bool :=
  negb (String.eqb s "") && allChars isTokenChar s.

Definition validateDisplayToken (token : option string) : bool :=
  match token with
  | Some t =>
      if negb (truthy t) then false
      else if (String.length (trim t) =? 0)%nat then false
      else tokenRegexTest t
  | None => false
  end.

(** The class [\w]. *)
Definition isWordChar (c : ascii) : bool :=
  let n := Z.of_nat (nat_of_ascii c) in
  ((97 <=? n) && (n <=? 122)) || ((65 <=? n) && (n <=? 90))
  || ((48 <=? n) && (n <=? 57)) || (n =? 95).

(** Letters compared as the [i] flag does. *)
Definition toLowerAscii (c : ascii) : ascii :=
  let n := nat_of_ascii c in
  if (65 <=? n)%nat && (n <=? 90)%nat then ascii_of_nat (n + 32) else c.

Definition eqChar_i (a b : ascii) : bool :=
  Ascii.eqb (toLowerAscii a) (toLowerAscii b).

(** [s] starts with [lit], letter case ignored: what is left of [s]. *)
Fixpoint stripPrefix_i (lit s : string) : option string :=
  match lit with
  | EmptyString => Some s
  | String a lit' =>
      match s with
      | String c rest => if eqChar_i a c then stripPrefix_i lit' rest else None
      | EmptyString => None
      end
  end.

(** The length of the longest run of [\w] characters at the start of [s],
    and what follows it. *)
Fixpoint wordRun (s : string) : nat * string :=
  match s with
  | String c rest =>
      if isWordChar c then let '(k, after) := wordRun rest in (S k, after)
      else (O, s)
  | EmptyString => (O, s)
  end.

(** A match of [/javascript:/i] at the start of [s]: its length. *)
Definition matchJavascript (s : string) : option nat :=
  match stripPrefix_i "javascript:" s with
  | Some _ => Some 11%nat
  | None => None
  end.

(** A match of [/on\w+=/i] at the start of [s]: its length. [\w+] is greedy
    and [=] is no word character, so the run of word characters is taken
    whole and must be followed by [=]. *)
Definition matchOnHandler (s : string) : option nat :=
  match stripPrefix_i "on" s with
  | Some rest =>
      match wordRun rest with
      | (S k, String "=" _) => Some (2 + S k + 1)%nat
      | _ => None
      end
  | None => None
  end.

(** [s.replace(re, '')] for a global pattern without empty matches: the
    string is scanned from the left, a match is dropped and the scan goes
    on after it. [skip] counts the characters of the current match that
    are still to drop. *)
Fixpoint removeMatches (matchAt : string -> option nat) (skip : nat) (s : string)
  : string :=
  match s with
  | EmptyString => EmptyString
  | String c rest =>
      match skip with
      | S k => removeMatches matchAt k rest
      | O =>
          match matchAt s with
          | Some (S m) => removeMatches matchAt m rest
          | _ => String c (removeMatches matchAt 0 rest)
          end
      end
  end.

(** [s.replace(/[<>]/g, '')]. *)
Fixpoint removeAngles (s : string) : string :=
  match s with
  | EmptyString => EmptyString
  | String c rest =>
      if Ascii.eqb c "<" || Ascii.eqb c ">" then removeAngles rest
      else String c (removeAngles rest)
  end.

Definition sanitizeInput (input : string) : string :=
  trim (removeMatches matchOnHandler 0
          (removeMatches matchJavascript 0 (removeAngles input))).

(** *** RateLimiter *)

Module RateLimiter.

Record t : Type := mk {
  requests : gmap string (list Z);
  maxRequests : Z;
  windowMs : Z
}.


(** [isAllowed(identifier)] at time [now] ([Date.now()]): the answer and
    the limiter after the call. *)
Definition isAllowed (now : Z) (identifier : string) (rl : t) : bool * t :=
  let windowStart := now - windowMs rl in
  match requests rl !! identifier with
  | None =>
      (true, {| requests := <[identifier := [now]]> (requests rl);
                maxRequests := maxRequests rl; windowMs := windowMs rl |})
  | Some reqs =>
      let recentRequests := filter (fun time => windowStart < time) reqs in
      if maxRequests rl <=? Z.of_nat (length recentRequests) then (false, rl)
      else
        (true, {| requests := <[identifier := recentRequests ++ [now]]> (requests rl);
                  maxRequests := maxRequests rl; windowMs := windowMs rl |})
  end.

(** [cleanup()] at time [now]. *)
Definition cleanup (now : Z) (rl : t) : t :=
  let windowStart := now - windowMs rl in
  {| requests :=
       omap (fun reqs =>
               let recentRequests := filter (fun time => windowStart < time) reqs in
               if (length recentRequests =? 0)%nat then None else Some recentRequests)
            (requests rl);
     maxRequests := maxRequests rl; windowMs := windowMs rl |}.

End RateLimiter.

(** *** generateSecureId *)

Definition chars : string :=
  "ABCDEFGHIJKLMNOPQRSTUVWXYZabcdefghijklmnopqrstuvwxyz0123456789".

(** [chars[i]] as a one-character string; the empty string stands for
    [undefined], which [+=] never meets here. *)
Definition charAt (s : string) (i : Z) : string :=
  if i <? 0 then ""
  else match String.get (Z.to_nat i) s with
       | Some c => String c ""
       | None => ""
       end.

(** The branch of [generateSecureId] taken when [crypto.getRandomValues]
    exists: [array] is the [Uint8Array] of [length] bytes it filled. *)
Definition generateSecureId_crypto (array : list Z) : string :=
  fold_left (fun result byte =>
               result +:+ charAt chars (Z.rem byte (Z.of_nat (String.length chars))))
            array "".

(** *** encryptData / decryptData *)

(** [s.replace(key, '')] with a string pattern: the first occurrence of
    [key] is dropped. *)
Fixpoint replaceFirst (key s : string) : string :=
  if String.prefix key s then String.substring (String.length key)
                                (String.length s - String.length key) s
  else match s with
       | String c rest => String c (replaceFirst key rest)
       | EmptyString => EmptyString
       end.

(** Whether [key] occurs in [s] at one of its first [n] positions. *)
Fixpoint occursBefore (key s : string) (n : nat) : bool :=
  match n with
  | O => false
  | S n' =>
      String.prefix key s
      || match s with
         | String _ rest => occursBefore key rest n'
         | EmptyString => false
         end
  end.

Section Codec.

(** [btoa] and [atob] of the browser; [atob] throws ([None]) on text that
    is not base64. *)
Variable btoa : string -> string.
Variable atob : string -> option string.

Definition encryptData (data key : string) : string := btoa (data +:+ key).

Definition decryptData (encryptedData key : string) : string :=
  match atob encryptedData with
  | Some decoded => replaceFirst key decoded
  | None => ""
  end.

End Codec.

End Security.

(** ** The sound manager (hooks/useSoundManager.ts) *)

Module SoundManager.

Inductive SoundType : Type := AM | OR | TG.

Definition soundTypeText (t : SoundType) : string :=
  match t with
  | AM => "AM"
  | OR => "OR"
  | TG => "TG"
  end.

(** The hook's own copy of the column helper: it falls back to [B]. *)
Definition getColumnForNumber (number : JsNumber) : string :=
  if js_ge number 1 && js_le number 15 then "B"
  else if js_ge number 16 && js_le number 30 then "I"
  else if js_ge number 31 && js_le number 45 then "N"
  else if js_ge number 46 && js_le number 60 then "G"
  else if js_ge number 61 && js_le number 75 then "O"
  else "B".

Section Printing.

(** The digits that [Number.prototype.toString] prints for a finite number
    that is no integer, taken as given. *)
Variable fractionText : Q -> string.

(** [`${number}`]: an integer prints as its decimal numeral. *)
Definition numberText (number : JsNumber) : string :=
  match number with
  | Finite q => if isInteger q then toString (integerOf q) else fractionText q
  | NaN => "NaN"
  | PosInfinity => "Infinity"
  | NegInfinity => "-Infinity"
  end.

(** What [playNumberSound] asks the audio layer to play: the cache key and
    the path of the file, or nothing when it returns at its guard. *)
Definition playNumberSound (soundType : SoundType) (isMuted : bool)
  (number : JsNumber) : option (string * string) :=
  if isMuted || js_lt number 1 || js_gt number 75 then None
  else
    let column := getColumnForNumber number in
    Some (soundTypeText soundType +:+ "_" +:+ column +:+ numberText number,
          "/sounds/" +:+ soundTypeText soundType +:+ "/" +:+ column
            +:+ numberText number +:+ ".mp3").

End Printing.

End SoundManager.

(** ** More of the socket hook *)


(** ** More of the display page *)

Module PageCallbacks.
Import DisplayPage.

(** The [onCloseCartelas] callback that the page passes to the hook. *)
Definition onCloseCartelas (displayToken : option string)
  (st : Page * LocalStorage) : Page * LocalStorage :=
  (commit (fst st)
     [SetShowCartelas false; SetSelectedCartelas []; SetAvailableCartelas []],
   saveCartelaState displayToken false [] (snd st)).

(** What the callback effects of the hook do to the page cells and to
    [localStorage]: the close callback and the just-started flag that the
    start listeners set. Window events (the page has its own listeners for
    them), socket traffic, sounds and reloads are not interpreted. *)
Definition runPageEffect (displayToken : string) (e : SideEffect)
  (st : Page * LocalStorage) : Page * LocalStorage :=
  match e with
  | OnCloseCartelas => onCloseCartelas (Some displayToken) st
  | SetJustStartedFlag =>
      (fst st, <[justStartedKey (Some displayToken) := Text "true"]> (snd st))
  | _ => st
  end.

Definition runPageEffects (displayToken : string) (effects : list SideEffect)
  (st : Page * LocalStorage) : Page * LocalStorage :=
  fold_left (fun acc e => runPageEffect displayToken e acc) effects st.

End PageCallbacks.

(** ** Sample states and payloads *)

(** A hook that shows game [G1] with [totalStack = 500]. *)
Definition hookWithTotalStack500 : Hook.t :=
  Hook.set_gameState
    (initialGameState
       |> GameState.set_gameId (Some "G1")
       |> GameState.set_totalStack (Some 500))
    initialHook.

(** A [gameData] object that carries [totalStack] and nothing else. *)
Definition gameDataWithTotalStack (v : Z) : GameData.t :=
  {| GameData.cartelas := None; GameData.stack := None;
     GameData.totalStack := Some v; GameData.totalWinStack := None;
     GameData.totalShopMargin := None; GameData.totalSystemFee := None;
     GameData.netPrizePool := None; GameData.netShopProfit := None;
     GameData.status := None; GameData.calledNumbers := None;
     GameData.currentNumber := None; GameData.placedBetCartelas := None |}.



(** A [game_reset] payload without any financial property. *)
Definition resetWithoutFinancials (gameId : option string)
  (calledNumbers : option (list Z)) : GameReset.t :=
  {| GameReset.gameId := gameId; GameReset.calledNumbers := calledNumbers;
     GameReset.cartelas := None; GameReset.totalStack := None;
     GameReset.totalWinStack := None |}.

(** A hook whose selection holds cartela 5. *)
Definition hookWithSelection5 : Hook.t :=
  Hook.set_gameState (GameState.set_selectedCartelas (Some [5]) initialGameState)
    initialHook.

(** The game id that an event's payload supplies, if the event carries one. *)
Definition suppliedGameId (e : Event) : option string :=
  match e with
  | game_cleared id | game_comprehensive_reset id | game_started id
  | game_id_updated id | cashier_joined_room id => id
  | game_completed id _ => id
  | game_reset data => GameReset.gameId data
  | placed_bets_updated _ id => id
  | game_data_updated data | game_data_response data => GameDataMsg.id data
  | game_status_updated _ id => id
  | game_start id _ => id
  | game_created data => GameCreated.gameId data
  | game_session_info id _ _ => id
  | end_game id _ => id
  | _ => None
  end.

(** The events whose listeners write the payload's id into [gameId] as it
    comes, present or not; [game_completed] is one of them when its payload
    carries [winningPatterns], without which its listener throws before it
    writes anything. *)
Definition assignsGameId (e : Event) : bool :=
  match e with
  | game_cleared _ | game_comprehensive_reset _ | game_reset _
  | game_created _ | game_started _ | end_game _ _ => true
  | game_completed _ winningPatterns =>
      match winningPatterns with Some _ => true | None => false end
  | _ => false
  end.

(** A render of the page for token [Y]: overlay flag, selection pushed by
    the server and status as given, no placed bet. *)
Definition renderOf (show : bool) (selected : list Z) (status : string)
  : DisplayPage.Render :=
  {| DisplayPage.page :=
       {| DisplayPage.showCartelas := show;
          DisplayPage.availableCartelas := selected;
          DisplayPage.selectedCartelas := selected |};
     DisplayPage.placedBets := ∅;
     DisplayPage.gameState :=
       initialGameState
         |> GameState.set_selectedCartelas (Some selected)
         |> GameState.set_gameStatus (Some status);
     DisplayPage.displayToken := Some "Y" |}.

(** A [localStorage] that holds only the was-active flag of token [Y]. *)
Definition storageWasActive : gmap string DisplayPage.Stored :=
  {[ DisplayPage.wasActiveKey (Some "Y") := DisplayPage.Text "true" ]}.

(** [gameId] after an event, as a function of [gameId] before it: what the
    listeners of the event compute, read off their [gameId:] lines. It is
    proved equal to the fold below ([gameId_after_step]). *)
Definition gameIdAfter (e : Event) (prevId : option string) : option string :=
  match e with
  | game_cleared id | game_comprehensive_reset id => id ||| None
  | game_reset data => GameReset.gameId data
  | game_created data => GameCreated.gameId data
  | game_started id | end_game id _ => id
  | game_completed id winningPatterns =>
      match winningPatterns with Some _ => id | None => prevId end
  | placed_bets_updated _ id => id ||| prevId
  | game_data_updated data =>
      if js_truthy (GameDataMsg.id data) then GameDataMsg.id data else prevId
  | game_status_updated status id =>
      if js_truthy status then id ||| prevId else prevId
  | game_start id _ | game_id_updated id => if js_truthy id then id else prevId
  | game_data_response data =>
      if js_truthy (GameDataMsg.id data) && shouldUpdateGameId prevId (GameDataMsg.id data)
      then GameDataMsg.id data else prevId
  | cashier_joined_room id =>
      if js_truthy id && shouldUpdateGameId prevId id then id else prevId
  | game_session_info id _ _ => if shouldUpdateGameId prevId id then id else prevId
  | _ => prevId
  end.

(** ** Invariants and sample inputs of the helper properties *)

(** The column kept beside the current number is the one derived from it
    ([undefined] while there is no number, or the number is 0). *)
Definition columnConsistent (g : GameState.t) : Prop :=
  GameState.currentColumn g = columnIf (GameState.currentNumber g) None.


(** A number strictly between the last number of one board column and the
    first number of the next: above 15 and below 16, or so at 30, 45 or
    60. *)
Definition betweenColumns (q : Q) : Prop :=
  exists k, k ∈ [15; 30; 45; 60] /\ (inject_Z k < q)%Q /\ (q < inject_Z (k + 1))%Q.

(** The characters of a string, in order. *)
Abbreviation chars_of := String.list_ascii_of_string.

(** How many of the 256 byte values [generateSecureId] maps to the
    character at index [i] of its alphabet. *)
Definition bytesMappedTo (i : Z) : nat :=
  length (filter (fun byte =>
                    Security.generateSecureId_crypto [byte]
                    = Security.charAt Security.chars i)
                 (seqZ 0 256)).

(** A version-4 UUID, as display tokens are. *)
Definition sampleToken : string := "123e4567-e89b-42d3-a456-426614174000".

(** A limiter of two requests per second that has seen [shop] at 0 and 100. *)
Definition sampleLimiter : Security.RateLimiter.t :=
  {| Security.RateLimiter.requests := {[ "shop" := [0; 100] ]};
     Security.RateLimiter.maxRequests := 2;
     Security.RateLimiter.windowMs := 1000 |}.

(** The events of the transport itself. *)
Definition connectionEvents : list Event :=
  [connect; reconnect; disconnect; connect_error; reconnect_error;
   display_unauthorized].

Definition opensConnection (e : Event) : bool :=
  match e with
  | connect | reconnect => true
  | _ => false
  end.

(** A snapshot of game [G1] in status [waiting] that still carries called
    numbers. *)
Definition waitingSnapshot : GameDataMsg.t :=
  {| GameDataMsg.id := Some "G1"; GameDataMsg.status := Some "waiting";
     GameDataMsg.gameData :=
       Some {| GameData.cartelas := None; GameData.stack := None;
               GameData.totalStack := None; GameData.totalWinStack := None;
               GameData.totalShopMargin := None; GameData.totalSystemFee := None;
               GameData.netPrizePool := None; GameData.netShopProfit := None;
               GameData.status := None; GameData.calledNumbers := Some [5; 17];
               GameData.currentNumber := Some 17;
               GameData.placedBetCartelas := None |} |}.


(** The verification of a winning cartela. *)
Definition sampleVerification : VerificationData :=
  {| vd_cartelaId := 12; vd_ticketNumber := "T-1"; vd_gameId := "G1";
     vd_status := "won"; vd_cartelaGrid := []; vd_matchedNumbers := [];
     vd_drawnNumbers := []; vd_gameProgress := 0; vd_totalCalledNumbers := 0 |}.

(** A render for token [Y] in status [waiting]: overlay closed, cartela 5
    selected on the server, no placed bet. *)
Definition closedWaitingRender : DisplayPage.Render :=
  {| DisplayPage.page :=
       {| DisplayPage.showCartelas := false;
          DisplayPage.availableCartelas := [];
          DisplayPage.selectedCartelas := [] |};
     DisplayPage.placedBets := ∅;
     DisplayPage.gameState :=
       initialGameState |> GameState.set_selectedCartelas (Some [5]);
     DisplayPage.displayToken := Some "Y" |}.

(** A [localStorage] that holds only the just-started flag of token [Y]. *)
Definition storageJustStarted : gmap string DisplayPage.Stored :=
  {[ DisplayPage.justStartedKey (Some "Y") := DisplayPage.Text "true" ]}.

(** A page whose overlay shows cartelas 5 and 9. *)
Definition openPage : DisplayPage.Page :=
  {| DisplayPage.showCartelas := true;
     DisplayPage.availableCartelas := [5; 9];
     DisplayPage.selectedCartelas := [5; 9] |}.


(** ** Proof tools *)

Create HintDb listeners.

#[local] Hint Unfold applyEvent applyEvents listeners runAll andThen when effect skip
  setGameState setDisplayState setVerificationData setIsConnected
  setConnectionError setIsLoading requestGameData closeCartelas
  closeVerificationModal closeWhenActive leavePreviousGame joinGame
  on_connect on_display_waiting_for_cashier
  on_display_waiting_for_game_1 on_cashier_joined
  on_display_room_joined on_display_error_1 on_game_cleared
  on_game_reset_1 on_placed_bets_updated_1 on_bets_placed
  on_game_data_updated_1 on_game_status_updated
  on_game_comprehensive_reset on_disconnect on_connect_error
  on_display_unauthorized on_game_start on_number_called on_game_end
  on_game_created on_game_started on_game_paused on_game_resumed
  on_game_reset_2 on_game_ended on_number_drawn on_game_update
  on_game_data_updated_2 on_game_id_updated on_game_data_response
  on_cartela_verified on_close_verification_modal
  on_close_verification_modal_display on_game_session_info
  on_cashier_joined_room on_connection_status_update
  on_display_connection_status on_display_connected
  on_display_waiting_for_game_2 on_display_error_2 on_close_cartelas
  on_refresh_pages_1 on_refresh_pages_2 on_verification_modal_closed
  on_game_completed on_end_game on_cartela_selected
  on_cartela_deselected on_cartelas_cleared
  on_cartela_selections_response on_ticket_cancelled on_reconnect
  on_reconnect_error on_display_shuffle_animation
  on_placed_bets_updated_2
  : listeners.

(** Unfolds the listeners of the event at hand and evaluates the merge. *)
Ltac run_listeners := autounfold with listeners; cbn.

(** Unfolds the comparisons of a finite number with integer literals into
    comparisons of integers and decides them. *)
Ltac compare_finite :=
  unfold js_ge, js_le, js_lt, js_gt, Qle_bool, Qlt, Qle in *; cbn in *;
  repeat match goal with
         | |- context [?a <=? ?b] => destruct (Z.leb_spec a b)
         | H : context [?a <=? ?b] |- _ => destruct (Z.leb_spec a b)
         end;
  cbn in *; try congruence; try lia.

(** ** Properties of the column derivation *)

(** The derivation agrees with the table of the specification wherever the
    table has a letter, and is the empty string where it has none. *)
Lemma getColumnForNumber_refines_table (n : Z) :
  getColumnForNumber n = default "" (currentColumn_spec n) /\
  bool_decide (currentColumn_spec n = None)
    = negb ((1 <=? n) && (n <=? 75)).
Proof.
  unfold getColumnForNumber, currentColumn_spec.
  repeat (case_match; try (split; [reflexivity | cbn; lia])).
Qed.

(** C8, as stated: outside [1,75] the derivation would be undefined. The
    function returns a string for every number, the empty one at 0 and at
    76, so its result is never the missing value of the table. *)
Lemma getColumnForNumber_defined_outside_range :
  Some (getColumnForNumber 0) <> currentColumn_spec 0 /\
  Some (getColumnForNumber 76) <> currentColumn_spec 76 /\
  getColumnForNumber 0 = "" /\ getColumnForNumber 76 = "".
Proof. repeat split; discriminate. Qed.

(** C8, amended: for every integer [n] the derivation returns B for 1-15,
    I for 16-30, N for 31-45, G for 46-60, O for 61-75, and the empty
    string (a string that is no column letter) for 0, for 76 and for every
    [n] outside [1,75]. *)
Theorem getColumnForNumber_table (n : Z) :
  (1 <= n <= 15 -> getColumnForNumber n = "B") /\
  (16 <= n <= 30 -> getColumnForNumber n = "I") /\
  (31 <= n <= 45 -> getColumnForNumber n = "N") /\
  (46 <= n <= 60 -> getColumnForNumber n = "G") /\
  (61 <= n <= 75 -> getColumnForNumber n = "O") /\
  (n < 1 \/ 75 < n -> getColumnForNumber n = "").
Proof.
  unfold getColumnForNumber.
  repeat split; intros Hn;
    repeat (case_match; try reflexivity; try lia).
Qed.

Lemma getColumnForNumber_table_witness :
  (31 <= 37 <= 45 /\ getColumnForNumber 37 = "N") /\
  ((0 < 1 \/ 75 < 0) /\ getColumnForNumber 0 = "") /\
  ((76 < 1 \/ 75 < 76) /\ getColumnForNumber 76 = "").
Proof.
  split; [|split].
  - assert (H : 31 <= 37 <= 45) by lia.
    split; [exact H|].
    exact (proj1 (proj2 (proj2 (getColumnForNumber_table 37))) H).
  - assert (H : 0 < 1 \/ 75 < 0) by (left; lia).
    split; [exact H|].
    exact (proj2 (proj2 (proj2 (proj2 (proj2 (getColumnForNumber_table 0))))) H).
  - assert (H : 76 < 1 \/ 75 < 76) by (right; lia).
    split; [exact H|].
    exact (proj2 (proj2 (proj2 (proj2 (proj2 (getColumnForNumber_table 76))))) H).
Defined.

(** ** Properties of the event fold *)

Section Reconciler.

Variable displayToken : string.
Variables onCloseCartelas soundCallbacks : bool.

Abbreviation step := (applyEvent displayToken onCloseCartelas soundCallbacks).
Abbreviation steps := (applyEvents displayToken onCloseCartelas soundCallbacks).
Abbreviation gameStateAfter h := (Hook.gameState (fst h)).

(** *** Selection *)

Lemma selectedCartelas_after_select (h : Hook.t) (c : Z) :
  GameState.selectedCartelas (gameStateAfter (step (cartela_selected c) h))
  = Some ((GameState.selectedCartelas (Hook.gameState h) ||: []) ++ [c]).
Proof. reflexivity. Qed.

Lemma selectedCartelas_after_selects (h : Hook.t) (c : Z) (n : nat) :
  GameState.selectedCartelas
    (gameStateAfter (steps (repeat (cartela_selected c) n) h))
  = match n with
    | O => GameState.selectedCartelas (Hook.gameState h)
    | S _ => Some ((GameState.selectedCartelas (Hook.gameState h) ||: [])
                   ++ repeat c n)
    end.
Proof.
  revert h. induction n as [|n IH]; intros h; [reflexivity|].
  cbn [repeat applyEvents]. unfold andThen.
  pose proof (selectedCartelas_after_select h c) as Hs.
  destruct (applyEvent _ _ _ (cartela_selected c) h) as [h1 e1].
  specialize (IH h1).
  destruct (applyEvents _ _ _ (repeat (cartela_selected c) n) h1) as [h2 e2].
  cbn [fst] in *. rewrite IH, Hs.
  destruct n; [reflexivity|].
  cbn [js_or_else truthy Truthy_list]. now rewrite <- app_assoc.
Qed.

(** However often a cartela was selected, one deselect removes it. *)
Lemma deselect_after_selects (h : Hook.t) (c : Z) (n : nat) :
  exists l,
    GameState.selectedCartelas
      (gameStateAfter (steps (repeat (cartela_selected c) n ++ [cartela_deselected c]) h))
    = Some l /\ c ∉ l.
Proof.
  revert h. induction n as [|n IH]; intros h.
  - eexists. split; [run_listeners; reflexivity|].
    rewrite list_elem_of_filter. tauto.
  - cbn [repeat app applyEvents]. unfold andThen at 1.
    destruct (applyEvent _ _ _ (cartela_selected c) h) as [h1 e1].
    destruct (IH h1) as (l & Hl & Hc).
    destruct (applyEvents _ _ _ _ h1) as [h2 e2].
    exists l. split; assumption.
Qed.

(** C6: for every state of the hook, [cartela_selected{c}] twice and then
    [cartela_deselected{c}] once leave a selection that does not contain
    [c] (in particular for [c = 5]): the deselect filters every occurrence
    out, so one deselect is enough however often the id was selected. *)
Theorem select_select_deselect (h : Hook.t) (c : Z) :
  exists l,
    GameState.selectedCartelas
      (gameStateAfter
         (steps [cartela_selected c; cartela_selected c; cartela_deselected c] h))
    = Some l /\ c ∉ l.
Proof.
  eexists. split; [run_listeners; reflexivity|].
  rewrite list_elem_of_filter. tauto.
Qed.

(** *** Number drawn *)


(** The legacy [number_called] listener appends on each delivery. *)
Lemma number_called_appends (h : Hook.t) :
  GameState.calledNumbers
    (gameStateAfter (steps [number_called (Some 37); number_called (Some 37)] h))
  = GameState.calledNumbers (Hook.gameState h) ++ [37; 37].
Proof. run_listeners. now rewrite <- app_assoc. Qed.


(** *** End of a game *)

(** C5, as stated: [game_ended] would leave a terminal status. From the
    initial state it leaves [waiting]. *)
Lemma game_ended_is_not_terminal :
  GameState.gameStatus (gameStateAfter (applyEvent "Y" true true game_ended initialHook))
    = Some "waiting" /\
  DisplayPage.isTerminal
    (GameState.gameStatus
       (gameStateAfter (applyEvent "Y" true true game_ended initialHook))) = false.
Proof. split; reflexivity. Qed.

(** C5, amended: for every state of the hook, [end_game] sets
    [gameStatus] to [completed], a terminal status, and so does
    [game_completed] when its payload carries [winningPatterns]; a
    [game_completed] without [winningPatterns] throws in the listener
    before any update, so it leaves the whole hook, [gameStatus] included,
    as it was and plays no sound; [game_ended] sets [gameStatus] to
    [waiting], ready for the next round. *)
Theorem status_after_game_end (h : Hook.t) (gameId sessionId : option string)
  (winningPatterns : list string) :
  GameState.gameStatus (gameStateAfter (step (end_game gameId sessionId) h))
    = Some "completed" /\
  GameState.gameStatus
    (gameStateAfter (step (game_completed gameId (Some winningPatterns)) h))
    = Some "completed" /\
  step (game_completed gameId None) h = (h, []) /\
  DisplayPage.isTerminal (Some "completed") = true /\
  GameState.gameStatus (gameStateAfter (step game_ended h)) = Some "waiting".
Proof.
  run_listeners. destruct soundCallbacks, onCloseCartelas; repeat split.
Qed.

(** *** Financial aggregates *)

(** The second [game_reset] listener, alone, keeps the betting data. *)
Lemma on_game_reset_2_preserves (h : Hook.t) (gameId : option string)
  (calledNumbers : option (list Z)) :
  let g := gameStateAfter
             (on_game_reset_2 displayToken (resetWithoutFinancials gameId calledNumbers) h) in
  GameState.totalStack g = GameState.totalStack (Hook.gameState h) /\
  GameState.totalWinStack g = GameState.totalWinStack (Hook.gameState h) /\
  GameState.cartelas g = GameState.cartelas (Hook.gameState h).
Proof. repeat split. Qed.

(** Whichever of the two [game_reset] listeners ran first, the aggregates
    that the first one zeroes end at zero. *)
Lemma game_reset_order_irrelevant (h : Hook.t) (gameId : option string)
  (calledNumbers : option (list Z)) :
  let data := resetWithoutFinancials gameId calledNumbers in
  GameState.totalStack
    (gameStateAfter ((on_game_reset_2 displayToken data >> on_game_reset_1 data) h))
  = Some 0.
Proof. reflexivity. Qed.

(** A wire name without a listener changes nothing ([game:reset], the
    name in [SOCKET_EVENTS.GAME_RESET], is one). *)
Lemma unhandled_is_noop (name : string) (h : Hook.t) :
  step (unhandled name) h = (h, []).
Proof. reflexivity. Qed.

(** C1 on the code: from [totalStack = 500], and from every state of the
    hook, a [game_reset] whose payload has no financial property leaves
    [totalStack], [totalWinStack], [totalShopMargin], [totalSystemFee] and
    [netPrizePool] at 0, because the first listener zeroes them before the
    second one merges; [stack] and [netShopProfit] are kept; a following
    [bets_placed{totalStack:650}] sets [totalStack] to 650. *)
Theorem game_reset_zeroes_aggregates (h : Hook.t) (gameId : option string)
  (calledNumbers : option (list Z)) :
  let afterReset :=
    fst (step (game_reset (resetWithoutFinancials gameId calledNumbers)) h) in
  let g := Hook.gameState afterReset in
  GameState.totalStack (Hook.gameState hookWithTotalStack500) = Some 500 /\
  GameState.totalStack
    (gameStateAfter
       (step (game_reset (resetWithoutFinancials gameId calledNumbers))
          hookWithTotalStack500))
  = Some 0 /\
  GameState.totalStack g = Some 0 /\
  GameState.totalWinStack g = Some 0 /\
  GameState.totalShopMargin g = Some 0 /\
  GameState.totalSystemFee g = Some 0 /\
  GameState.netPrizePool g = Some 0 /\
  GameState.stack g = GameState.stack (Hook.gameState h) /\
  GameState.netShopProfit g = GameState.netShopProfit (Hook.gameState h) /\
  GameState.totalStack
    (gameStateAfter (step (bets_placed (Some (gameDataWithTotalStack 650))) afterReset))
  = Some 650.
Proof. repeat split. Qed.

(** The merge of [bets_placed], field by field. *)
Lemma bets_placed_merge (h : Hook.t) (gameData : option GameData.t) :
  let prev := Hook.gameState h in
  let g := gameStateAfter (step (bets_placed gameData) h) in
  GameState.stack g = ((gameData ≫= GameData.stack) ||| GameState.stack prev) /\
  GameState.totalStack g
    = ((gameData ≫= GameData.totalStack) ||| GameState.totalStack prev) /\
  GameState.totalWinStack g
    = ((gameData ≫= GameData.totalWinStack) ||| GameState.totalWinStack prev) /\
  GameState.totalShopMargin g
    = ((gameData ≫= GameData.totalShopMargin) ||| GameState.totalShopMargin prev) /\
  GameState.totalSystemFee g
    = ((gameData ≫= GameData.totalSystemFee) ||| GameState.totalSystemFee prev) /\
  GameState.netPrizePool g
    = ((gameData ≫= GameData.netPrizePool) ||| GameState.netPrizePool prev) /\
  GameState.netShopProfit g
    = ((gameData ≫= GameData.netShopProfit) ||| GameState.netShopProfit prev).
Proof. repeat split. Qed.

(** Both [game_data_updated] listeners together: the [||] of the first is
    overridden by the [??] of the second. *)
Lemma or_then_nullish {A} `{Truthy A} (x prev : option A) :
  (x ??? (x ||| prev)) = (x ??? prev).
Proof. destruct x; reflexivity. Qed.

Lemma game_data_updated_merge (h : Hook.t) (data : GameDataMsg.t) :
  let prev := Hook.gameState h in
  let gameData := GameDataMsg.gameData data in
  let g := gameStateAfter (step (game_data_updated data) h) in
  if js_truthy (GameDataMsg.id data) then
    GameState.stack g = ((gameData ≫= GameData.stack) ??? GameState.stack prev) /\
    GameState.totalStack g
      = ((gameData ≫= GameData.totalStack) ??? GameState.totalStack prev) /\
    GameState.totalWinStack g
      = ((gameData ≫= GameData.totalWinStack) ??? GameState.totalWinStack prev) /\
    GameState.totalShopMargin g
      = ((gameData ≫= GameData.totalShopMargin) ??? GameState.totalShopMargin prev) /\
    GameState.totalSystemFee g
      = ((gameData ≫= GameData.totalSystemFee) ??? GameState.totalSystemFee prev) /\
    GameState.netPrizePool g
      = ((gameData ≫= GameData.netPrizePool) ??? GameState.netPrizePool prev) /\
    GameState.netShopProfit g
      = ((gameData ≫= GameData.netShopProfit) ??? GameState.netShopProfit prev)
  else fst (step (game_data_updated data) h) = h.
Proof.
  run_listeners. destruct (js_truthy (GameDataMsg.id data)); cbn.
  - destruct (GameDataMsg.gameData data ≫= GameData.placedBetCartelas),
      (bool_decide _ && onCloseCartelas); cbn;
      rewrite !or_then_nullish; repeat split.
  - now destruct h.
Qed.



(** *** Game id *)

(** C3, as stated: no event would clear a set [gameId]. A [game_cleared]
    and a [game_comprehensive_reset] without an id both clear the id of
    game [G1]. *)
Lemma game_cleared_clears_gameId :
  GameState.gameId (Hook.gameState hookWithTotalStack500) = Some "G1" /\
  GameState.gameId
    (gameStateAfter (applyEvent "Y" true true (game_cleared None) hookWithTotalStack500))
  = None /\
  GameState.gameId
    (gameStateAfter
       (applyEvent "Y" true true (game_comprehensive_reset None) hookWithTotalStack500))
  = None.
Proof. repeat split. Qed.

Lemma gameId_after_step (e : Event) (h : Hook.t) :
  GameState.gameId (gameStateAfter (step e h))
  = gameIdAfter e (GameState.gameId (Hook.gameState h)).
Proof.
  destruct e; cbn [gameIdAfter]; run_listeners;
    repeat (case_match; simplify_eq; cbn in *); try reflexivity.
Qed.

(** C3, amended: for every state whose [gameId] is set and every event:
    unless the event is one of [game_cleared], [game_comprehensive_reset],
    [game_reset], [game:created], [game_started], [end_game] and a
    [game_completed] whose payload carries [winningPatterns], the id stays
    set, and it changes only to a present id that the event supplies; those
    seven events write the payload's id as it comes, so the id is replaced
    when the payload carries one and cleared when it does not. A
    [game_completed] without [winningPatterns] throws in its listener
    before it writes anything and so belongs to the events that keep the
    id: it leaves [gameId] as it was. *)
Theorem gameId_replacement (e : Event) (h : Hook.t) :
  js_truthy (GameState.gameId (Hook.gameState h)) = true ->
  let id' := GameState.gameId (gameStateAfter (step e h)) in
  if assignsGameId e then
    js_truthy id' = js_truthy (suppliedGameId e) /\
    (if js_truthy (suppliedGameId e) then id' = suppliedGameId e else True)
  else
    js_truthy id' = true /\
    (bool_decide (id' = GameState.gameId (Hook.gameState h))
     || (js_truthy (suppliedGameId e) && bool_decide (id' = suppliedGameId e))
     = true).
Proof.
  intros Hset. cbv zeta. rewrite gameId_after_step.
  set (prevId := GameState.gameId (Hook.gameState h)) in *.
  assert (Hkeep : forall b : bool, bool_decide (prevId = prevId) || b = true)
    by (intros b; rewrite bool_decide_eq_true_2; reflexivity).
  destruct e;
    try match goal with
        | winningPatterns : option (list string) |- _ => destruct winningPatterns
        end;
    cbn [assignsGameId suppliedGameId gameIdAfter];
    unfold js_or, shouldUpdateGameId; rewrite ?Hset; cbn [negb orb];
    repeat match goal with
           | |- context [js_truthy ?x] =>
               lazymatch x with
               | prevId => fail
               | _ => destruct (js_truthy x) eqn:?
               end
           | |- context [bool_decide (?x ≠ prevId)] =>
               destruct (bool_decide (x ≠ prevId))
           end;
    cbn [andb orb js_truthy] in *; try discriminate; try congruence.
  all: rewrite ?Hset.
  all: split; [congruence || reflexivity |]; auto.
  all: match goal with
       | |- _ || bool_decide (?x = ?x) = true =>
           rewrite (bool_decide_eq_true_2 (x = x)) by reflexivity;
           apply orb_true_r
       end.
Qed.

(** *** Stale sessions *)

(** C4, as stated: every event that carries a session id would be ignored
    when the id is not the display token. With token [Y],
    [verification_modal_closed{sessionId:"X"}] reloads the page and
    [cartelas_cleared{sessionId:"X"}] empties the selection (and reloads);
    [end_game{sessionId:"X"}] sets the status. *)
Lemma foreign_session_events_applied :
  snd (applyEvent "Y" true true (verification_modal_closed (Some "X")) initialHook)
    = [ReloadPage 0] /\
  GameState.selectedCartelas (Hook.gameState hookWithSelection5) = Some [5] /\
  GameState.selectedCartelas
    (gameStateAfter
       (applyEvent "Y" true true (cartelas_cleared (Some "X")) hookWithSelection5))
    = Some [] /\
  applyEvent "Y" true true (cartelas_cleared (Some "X")) hookWithSelection5
    <> (hookWithSelection5, []) /\
  GameState.gameStatus
    (gameStateAfter
       (applyEvent "Y" true true (end_game (Some "G1") (Some "X")) initialHook))
    = Some "completed".
Proof. repeat split. discriminate. Qed.

(** With the display's own token the close events close the modal and drop
    the cached verification. *)
Lemma own_session_closes_modal (h : Hook.t) :
  let h' := fst (step (close_verification_modal (Some displayToken)) h) in
  DisplayState.showVerificationModal (Hook.displayState h') = false /\
  DisplayState.modalPersistent (Hook.displayState h') = false /\
  Hook.verificationData h' = None.
Proof.
  run_listeners. unfold forOurSession.
  rewrite bool_decide_eq_true_2 by reflexivity. repeat split.
Qed.

(** C4, amended: the listeners of [close-verification-modal],
    [close-verification-modal-display], [connection_status_update] and
    [display:connection_status] compare the payload's session id with the
    display token; when it differs (or is missing) the event changes
    nothing in the hook's state and has no side effect. *)
Theorem stale_session_ignored (sessionId : option string) (flag : option bool)
  (h : Hook.t) :
  sessionId <> Some displayToken ->
  step (close_verification_modal sessionId) h = (h, []) /\
  step (close_verification_modal_display sessionId) h = (h, []) /\
  step (connection_status_update sessionId flag) h = (h, []) /\
  step (display_connection_status sessionId flag) h = (h, []).
Proof.
  intros Hstale. run_listeners. unfold forOurSession.
  rewrite bool_decide_eq_false_2 by assumption. repeat split.
Qed.

End Reconciler.

(** Witnesses at concrete inputs. *)

Lemma gameId_replacement_witness :
  let e := game_data_updated
             {| GameDataMsg.id := Some "G2"; GameDataMsg.status := None;
                GameDataMsg.gameData := None |} in
  js_truthy (GameState.gameId (Hook.gameState hookWithTotalStack500)) = true /\
  js_truthy
    (GameState.gameId
       (Hook.gameState (fst (applyEvent "Y" true true e hookWithTotalStack500))))
  = true.
Proof.
  split; [reflexivity|].
  exact (proj1 (gameId_replacement "Y" true true
                  (game_data_updated
                     {| GameDataMsg.id := Some "G2"; GameDataMsg.status := None;
                        GameDataMsg.gameData := None |})
                  hookWithTotalStack500 eq_refl)).
Defined.

Lemma stale_session_ignored_witness :
  Some "X" <> Some "Y" /\
  applyEvent "Y" true true (close_verification_modal (Some "X")) initialHook
    = (initialHook, []).
Proof.
  split; [discriminate|].
  apply (stale_session_ignored "Y" true true (Some "X") None initialHook).
  discriminate.
Defined.

(** ** Properties of the connection *)

Section ConnectionProperties.

Variable io : string -> option Socket.

(** With a token the transport is called, once. *)
Lemma initializeSocket_with_token (token : string) (h : Hook.t) :
  truthy token = true ->
  exists h' rest socketInstance,
    initializeSocket io (Some token) h = (h', IoConnect token :: rest, socketInstance)
    /\ socketInstance = io token.
Proof.
  intros Htoken. unfold initializeSocket. rewrite Htoken.
  destruct (io token); repeat eexists.
Qed.

(** C9 on the code: when the display token is absent ([null], or the
    empty string) the hook makes no connection attempt, but it does not
    surface the NO_TOKEN message either. The connection effect returns at
    its own token test, before it calls [initializeSocket], which no other
    code calls: the hook is left as it was, so from its initial state
    [connectionError] stays [null], the loading flag stays on and the
    connected flag is not written (it keeps its initial [false]). The
    NO_TOKEN branch of [initializeSocket], which would set the message,
    the connected flag and the loading flag, is the last conjunct: it is
    never reached through the effect. *)
Theorem no_token_error_not_surfaced (displayToken : option string) (h : Hook.t) :
  js_truthy displayToken = false ->
  connectionEffect io displayToken h = (h, []) /\
  Hook.connectionError (fst (connectionEffect io displayToken initialHook)) = None /\
  Hook.isLoading (fst (connectionEffect io displayToken initialHook)) = true /\
  Hook.isConnected (fst (connectionEffect io displayToken initialHook)) = false /\
  (Hook.connectionError h <> Some ERROR_MESSAGES.NO_TOKEN ->
   Hook.connectionError (fst (connectionEffect io displayToken h))
   <> Some ERROR_MESSAGES.NO_TOKEN) /\
  initializeSocket io displayToken h
    = (h |> Hook.set_connectionError (Some ERROR_MESSAGES.NO_TOKEN)
         |> Hook.set_isConnected false
         |> Hook.set_isLoading false,
       [], None).
Proof.
  intros Habsent. unfold connectionEffect. rewrite Habsent.
  destruct displayToken as [token|]; cbn in Habsent |- *;
    [rewrite Habsent|]; repeat split; auto.
Qed.

End ConnectionProperties.

Lemma no_token_error_not_surfaced_witness :
  js_truthy (None : option string) = false /\
  connectionEffect (fun token => Some {| query_displayToken := token |}) None initialHook
    = (initialHook, []) /\
  Hook.connectionError
    (fst (connectionEffect (fun token => Some {| query_displayToken := token |})
            None initialHook))
    = None.
Proof.
  split; [reflexivity|].
  pose proof (no_token_error_not_surfaced
                (fun token => Some {| query_displayToken := token |}) None initialHook
                eq_refl) as (Heffect & Herror & _).
  exact (conj Heffect Herror).
Defined.

(** ** Properties of the overlay *)

Module OverlayProperties.
Import DisplayPage.

Lemma string_length_app (s t : string) :
  String.length (s +:+ t) = (String.length s + String.length t)%nat.
Proof.
  induction s as [|a s IH]; [reflexivity|].
  change (S (String.length (s +:+ t)) = S (String.length s + String.length t)).
  now rewrite IH.
Qed.

Lemma stateKey_ne_wasActiveKey (displayToken : option string) :
  stateKey displayToken <> wasActiveKey displayToken.
Proof.
  unfold wasActiveKey. intros Heq.
  apply (f_equal String.length) in Heq.
  rewrite string_length_app in Heq. cbn in Heq. lia.
Qed.

Lemma shouldShow_true (selected : list Z) (bets : gmap Z PlacedBet) :
  selected <> [] \/ bets <> ∅ ->
  (0 <? Z.of_nat (length selected)) || (0 <? Z.of_nat (size bets)) = true.
Proof.
  intros [Hs | Hb]; apply orb_true_iff; [left | right]; apply Z.ltb_lt.
  - destruct selected; [congruence | cbn; lia].
  - apply map_size_non_empty_iff in Hb. lia.
Qed.

Lemma statusIs_eq (r : Render) (s t : string) :
  GameState.gameStatus (gameState r) = Some s ->
  statusIs r t = bool_decide (s = t).
Proof.
  intros Hs. unfold statusIs. rewrite Hs.
  destruct (decide (s = t)) as [->|Hne].
  - now rewrite !bool_decide_eq_true_2.
  - rewrite !bool_decide_eq_false_2; congruence.
Qed.

(** C7, as stated: on [active] the overlay flag would keep its value, and
    on [waiting] with a selection and no just-started flag it would become
    true. With an empty selection and no placed bet an open overlay is
    closed on [active]; on [waiting] an open overlay is closed when the
    was-active flag is set. *)
Lemma overlay_closed_against_gating :
  showCartelas (page (renderOf true [] "active")) = true /\
  showCartelas (fst (statusPass (renderOf true [] "active") ∅)) = false /\
  showCartelas (page (renderOf true [5] "waiting")) = true /\
  storageWasActive !! justStartedKey (Some "Y") = None /\
  showCartelas (fst (statusPass (renderOf true [5] "waiting") storageWasActive))
    = false.
Proof. vm_compute. repeat split. Qed.

Lemma statusIs_true (r : Render) (s : string) :
  GameState.gameStatus (gameState r) = Some s -> statusIs r s = true.
Proof. intros Hs. rewrite (statusIs_eq r s s Hs). now apply bool_decide_eq_true_2. Qed.

Lemma statusIs_false (r : Render) (s t : string) :
  GameState.gameStatus (gameState r) = Some s -> s <> t -> statusIs r t = false.
Proof.
  intros Hs Hne. rewrite (statusIs_eq r s t Hs). now apply bool_decide_eq_false_2.
Qed.

Lemma wasActive_after_save (displayToken : option string) (show : bool)
  (cartelas : list Z) (ls : LocalStorage) :
  saveCartelaState displayToken show cartelas ls !! wasActiveKey displayToken
  = ls !! wasActiveKey displayToken.
Proof.
  unfold saveCartelaState. destruct (js_truthy displayToken); [|reflexivity].
  apply lookup_insert_ne, stateKey_ne_wasActiveKey.
Qed.

(** On [waiting]: the overlay opens. *)
Lemma pass_waiting (r : Render) (ls : LocalStorage) (selected : list Z) :
  GameState.gameStatus (gameState r) = Some "waiting" ->
  GameState.selectedCartelas (gameState r) = Some selected ->
  selected <> [] \/ placedBets r <> ∅ ->
  js_truthy (ls !! justStartedKey (displayToken r)) = false ->
  showCartelas (page r) = false
  \/ ls !! wasActiveKey (displayToken r) <> Some (Text "true") ->
  showCartelas (fst (statusPass r ls)) = true.
Proof.
  intros Hwaiting Hsel Hshow Hguard Hwas.
  unfold statusPass, statusEffects, runEffects, syncSelectedCartelas,
    keepOpenWhenActive, closeOnTerminalStatus, clearAfterGame.
  rewrite Hsel, (shouldShow_true _ _ Hshow), (statusIs_true r _ Hwaiting), Hguard.
  rewrite (statusIs_false r "waiting" "active") by (assumption || discriminate).
  cbn [negb andb].
  destruct (showCartelas (page r)) eqn:Hopen; cbn [andb]; [|reflexivity].
  rewrite wasActive_after_save.
  destruct Hwas as [Hclosed | Hflag]; [discriminate|].
  rewrite bool_decide_eq_false_2 by assumption. reflexivity.
Qed.

(** On a terminal status: the overlay is closed, and what was open is
    cleared. *)
Lemma pass_terminal (r : Render) (ls : LocalStorage) :
  isTerminal (GameState.gameStatus (gameState r)) = true ->
  showCartelas (fst (statusPass r ls)) = false /\
  (showCartelas (page r) = true ->
   selectedCartelas (fst (statusPass r ls)) = [] /\
   availableCartelas (fst (statusPass r ls)) = [] /\
   (js_truthy (displayToken r) = true ->
    snd (statusPass r ls) !! stateKey (displayToken r)
    = Some (CartelaState false []))).
Proof.
  intros Hterminal.
  assert (Hstatus : statusIs r "waiting" = false /\ statusIs r "active" = false /\
                    statusIs r "completed" || statusIs r "finished"
                    || statusIs r "cancelled" = true).
  { unfold isTerminal in Hterminal. unfold statusIs.
    destruct (GameState.gameStatus (gameState r)) as [s|]; [|discriminate].
    repeat split; [| |exact Hterminal];
      apply bool_decide_eq_false_2; intros [= ->]; discriminate. }
  destruct Hstatus as (Hw & Ha & Ht).
  unfold statusPass, statusEffects, runEffects, syncSelectedCartelas,
    keepOpenWhenActive, closeOnTerminalStatus, clearAfterGame, closeAll.
  rewrite Hw, Ha, Ht. cbn [negb andb].
  destruct (GameState.selectedCartelas (gameState r)) as [selected|];
    [destruct ((0 <? Z.of_nat (length selected)) || _)|];
    destruct (showCartelas (page r)) eqn:Hopen;
    cbn; rewrite ?Hopen; (split; [reflexivity|]); intros [=]; repeat split;
    intros Htoken; unfold saveCartelaState; rewrite Htoken;
    apply lookup_insert_eq.
Qed.

(** On [active]: the flag keeps its value while there is something to
    show. *)
Lemma pass_active (r : Render) (ls : LocalStorage) :
  GameState.gameStatus (gameState r) = Some "active" ->
  (forall selected,
     GameState.selectedCartelas (gameState r) = Some selected ->
     selected <> [] \/ placedBets r <> ∅) ->
  showCartelas (fst (statusPass r ls)) = showCartelas (page r).
Proof.
  intros Hactive Hshow.
  unfold statusPass, statusEffects, runEffects, syncSelectedCartelas,
    keepOpenWhenActive, closeOnTerminalStatus, clearAfterGame.
  rewrite (statusIs_true r _ Hactive).
  rewrite !(statusIs_false r "active") by (assumption || discriminate).
  cbn [negb andb orb].
  destruct (GameState.selectedCartelas (gameState r)) as [selected|].
  - rewrite (shouldShow_true _ _ (Hshow selected eq_refl)).
    destruct (showCartelas (page r)) eqn:Hopen; cbn; now rewrite ?Hopen.
  - destruct (showCartelas (page r)) eqn:Hopen; cbn; now rewrite ?Hopen.
Qed.

(** With nothing selected and no placed bet the overlay is closed, whatever
    the status. *)
Lemma pass_nothing_to_show (r : Render) (ls : LocalStorage) :
  GameState.selectedCartelas (gameState r) = Some [] ->
  placedBets r = ∅ ->
  showCartelas (fst (statusPass r ls)) = false.
Proof.
  intros Hsel Hbets.
  unfold statusPass, statusEffects, runEffects, syncSelectedCartelas,
    keepOpenWhenActive, closeOnTerminalStatus, clearAfterGame, closeAll.
  rewrite Hsel, Hbets, map_size_empty. cbn [length Z.of_nat Z.ltb Z.compare orb].
  repeat (case_match; simplify_eq; cbn); reflexivity.
Qed.

Lemma stateKey_ne_justStartedKey (displayToken : option string) :
  stateKey displayToken <> justStartedKey displayToken.
Proof.
  unfold justStartedKey. intros Heq.
  apply (f_equal String.length) in Heq.
  rewrite string_length_app in Heq. cbn in Heq. lia.
Qed.

Lemma wasActiveKey_ne_justStartedKey (displayToken : option string) :
  wasActiveKey displayToken <> justStartedKey displayToken.
Proof.
  unfold wasActiveKey, justStartedKey. intros Heq.
  apply (f_equal String.length) in Heq.
  rewrite !string_length_app in Heq. cbn in Heq. lia.
Qed.

(** On [waiting], an overlay that is open while the was-active flag is set
    is closed by the pass and opened again by the pass of the next render
    (the page cells that were committed, the rest as before). *)
Lemma pass_waiting_flicker (r : Render) (ls : LocalStorage) (selected : list Z) :
  GameState.gameStatus (gameState r) = Some "waiting" ->
  GameState.selectedCartelas (gameState r) = Some selected ->
  selected <> [] \/ placedBets r <> ∅ ->
  js_truthy (ls !! justStartedKey (displayToken r)) = false ->
  showCartelas (page r) = true ->
  ls !! wasActiveKey (displayToken r) = Some (Text "true") ->
  let '(page1, ls1) := statusPass r ls in
  let r1 := {| page := page1; placedBets := placedBets r;
               gameState := gameState r; displayToken := displayToken r |} in
  showCartelas page1 = false /\
  showCartelas (fst (statusPass r1 ls1)) = true.
Proof.
  intros Hwaiting Hsel Hshow Hguard Hopen Hwas.
  assert (Hpass : statusPass r ls
            = ({| showCartelas := false; availableCartelas := [];
                  selectedCartelas := [] |},
               delete (wasActiveKey (displayToken r))
                 (saveCartelaState (displayToken r) false []
                    (saveCartelaState (displayToken r) true selected ls)))).
  { unfold statusPass, statusEffects, runEffects, syncSelectedCartelas,
      keepOpenWhenActive, closeOnTerminalStatus, clearAfterGame, closeAll.
    rewrite Hsel, (shouldShow_true _ _ Hshow), (statusIs_true r _ Hwaiting), Hguard.
    rewrite Hopen. cbn [negb andb].
    rewrite wasActive_after_save, Hwas.
    rewrite bool_decide_eq_true_2 by reflexivity. reflexivity. }
  rewrite Hpass. split; [reflexivity|].
  apply (pass_waiting _ _ selected); cbn [gameState placedBets displayToken page];
    try assumption; [|left; reflexivity].
  rewrite lookup_delete_ne by apply wasActiveKey_ne_justStartedKey.
  unfold saveCartelaState. destruct (js_truthy (displayToken r));
    rewrite ?lookup_insert_ne by apply stateKey_ne_justStartedKey; assumption.
Qed.

(** C7, amended: in the pass of effects that follows a status change,
    (1) on [waiting], when [gameState.selectedCartelas] is an array, it or
    the placed-bet map is non-empty, the just-started flag is absent, and
    the overlay is not both open and marked was-active, the overlay flag
    becomes true (an overlay that is open and marked was-active is closed
    by this pass and opened by the next, [pass_waiting_flicker]); (2) on a terminal status ([completed], [finished],
    [cancelled]) the flag is false after the pass whatever was selected,
    and if the overlay was open the page's selection and available lists
    are emptied and the saved state is reset; (3) on [active] the flag
    keeps its value as long as the selection or the placed-bet map is
    non-empty; (4) with an empty selection and no placed bet the overlay is
    closed whatever the status. *)
Theorem overlay_gating (r : Render) (ls : LocalStorage) :
  (forall selected,
     GameState.gameStatus (gameState r) = Some "waiting" ->
     GameState.selectedCartelas (gameState r) = Some selected ->
     selected <> [] \/ placedBets r <> ∅ ->
     js_truthy (ls !! justStartedKey (displayToken r)) = false ->
     showCartelas (page r) = false
     \/ ls !! wasActiveKey (displayToken r) <> Some (Text "true") ->
     showCartelas (fst (statusPass r ls)) = true) /\
  (isTerminal (GameState.gameStatus (gameState r)) = true ->
   showCartelas (fst (statusPass r ls)) = false /\
   (showCartelas (page r) = true ->
    selectedCartelas (fst (statusPass r ls)) = [] /\
    availableCartelas (fst (statusPass r ls)) = [] /\
    (js_truthy (displayToken r) = true ->
     snd (statusPass r ls) !! stateKey (displayToken r)
     = Some (CartelaState false [])))) /\
  (GameState.gameStatus (gameState r) = Some "active" ->
   (forall selected,
      GameState.selectedCartelas (gameState r) = Some selected ->
      selected <> [] \/ placedBets r <> ∅) ->
   showCartelas (fst (statusPass r ls)) = showCartelas (page r)) /\
  (GameState.selectedCartelas (gameState r) = Some [] ->
   placedBets r = ∅ ->
   showCartelas (fst (statusPass r ls)) = false).
Proof.
  repeat split.
  - intros selected. apply pass_waiting.
  - now apply pass_terminal.
  - now apply pass_terminal.
  - now apply pass_terminal.
  - now apply pass_terminal.
  - apply pass_active.
  - apply pass_nothing_to_show.
Qed.

Lemma overlay_gating_witness :
  showCartelas (fst (statusPass (renderOf false [5] "waiting") ∅)) = true /\
  showCartelas (fst (statusPass (renderOf true [5] "completed") ∅)) = false /\
  showCartelas (fst (statusPass (renderOf true [5] "active") ∅)) = true /\
  showCartelas (fst (statusPass (renderOf true [] "paused") ∅)) = false.
Proof.
  split; [|split; [|split]].
  - apply (proj1 (overlay_gating (renderOf false [5] "waiting") ∅) [5]).
    + reflexivity.
    + reflexivity.
    + left. discriminate.
    + reflexivity.
    + left. reflexivity.
  - apply (proj1 (proj2 (overlay_gating (renderOf true [5] "completed") ∅))).
    reflexivity.
  - apply (proj1 (proj2 (proj2 (overlay_gating (renderOf true [5] "active") ∅)))).
    + reflexivity.
    + intros selected [= <-]. left. discriminate.
  - apply (proj2 (proj2 (proj2 (overlay_gating (renderOf true [] "paused") ∅)))).
    + reflexivity.
    + reflexivity.
Defined.

End OverlayProperties.

(** * Further properties of the code *)

(** ** Facts about strings *)

Lemma length_append (s t : string) :
  String.length (s +:+ t) = (String.length s + String.length t)%nat.
Proof.
  induction s as [|c s IH]; [reflexivity|].
  change (S (String.length (s +:+ t)) = S (String.length s + String.length t)).
  now rewrite IH.
Qed.

Lemma append_assoc (s t u : string) : (s +:+ t) +:+ u = s +:+ (t +:+ u).
Proof.
  induction s as [|c s IH]; [reflexivity|].
  change (String c ((s +:+ t) +:+ u) = String c (s +:+ (t +:+ u))). now rewrite IH.
Qed.

Lemma append_empty_r (s : string) : s +:+ "" = s.
Proof.
  induction s as [|c s IH]; [reflexivity|].
  change (String c (s +:+ "") = String c s). now rewrite IH.
Qed.

Lemma prefix_append (key rest : string) : String.prefix key (key +:+ rest) = true.
Proof.
  induction key as [|c key IH]; [now destruct rest|].
  change (String c key +:+ rest) with (String c (key +:+ rest)). cbn.
  destruct (Ascii.ascii_dec c c); [exact IH|congruence].
Qed.

Lemma length_chars_of (s : string) : length (chars_of s) = String.length s.
Proof. induction s as [|c s IH]; cbn; [reflexivity | now rewrite IH]. Qed.

(** ** Facts about JavaScript numbers *)

Lemma js_ge_ofZ (n c : Z) : js_ge (ofZ n) c = (c <=? n).
Proof. unfold js_ge, ofZ, Qle_bool. cbn. now rewrite !Z.mul_1_r. Qed.

Lemma js_le_ofZ (n c : Z) : js_le (ofZ n) c = (n <=? c).
Proof. unfold js_le, ofZ, Qle_bool. cbn. now rewrite !Z.mul_1_r. Qed.

Lemma js_lt_ofZ (n c : Z) : js_lt (ofZ n) c = (n <? c).
Proof.
  change (js_lt (ofZ n) c) with (negb (js_ge (ofZ n) c)). rewrite js_ge_ofZ. lia.
Qed.

Lemma js_gt_ofZ (n c : Z) : js_gt (ofZ n) c = (c <? n).
Proof.
  change (js_gt (ofZ n) c) with (negb (js_le (ofZ n) c)). rewrite js_le_ofZ. lia.
Qed.

(** On the integers the copy of the column helper in lib/utils.ts is the
    copy in the hook. *)
Lemma utils_column_of_integer (n : Z) :
  Utils.getColumnForNumber (ofZ n) = getColumnForNumber n.
Proof.
  unfold Utils.getColumnForNumber, getColumnForNumber.
  now rewrite !js_ge_ofZ, !js_le_ofZ.
Qed.

Lemma valid_of_integer (n : Z) :
  Utils.isValidBingoNumber (ofZ n) = (1 <=? n) && (n <=? 75).
Proof.
  unfold Utils.isValidBingoNumber, BINGO_CONFIG.TOTAL_NUMBERS.
  now rewrite js_ge_ofZ, js_le_ofZ.
Qed.

(** Between two columns a number passes the range test of the validator
    and of the sound guard, has no column in lib/utils.ts, gets the
    fallback column of the sound manager, and is no integer. *)
Lemma between_columns (q : Q) :
  betweenColumns q ->
  Utils.isValidBingoNumber (Finite q) = true /\
  Utils.getColumnForNumber (Finite q) = "" /\
  SoundManager.getColumnForNumber (Finite q) = "B" /\
  js_lt (Finite q) 1 = false /\ js_gt (Finite q) 75 = false /\
  isInteger q = false.
Proof.
  intros (k & Hk & Hlow & Hhigh). destruct q as [num den].
  assert (Hcases : k = 15 \/ k = 30 \/ k = 45 \/ k = 60).
  { rewrite !elem_of_cons, elem_of_nil in Hk. tauto. }
  unfold Qlt in Hlow, Hhigh. cbn in Hlow, Hhigh.
  repeat split.
  - unfold Utils.isValidBingoNumber, BINGO_CONFIG.TOTAL_NUMBERS. compare_finite.
  - unfold Utils.getColumnForNumber. compare_finite.
  - unfold SoundManager.getColumnForNumber. compare_finite.
  - compare_finite.
  - compare_finite.
  - unfold isInteger. cbn. apply Z.eqb_neq. intros Hrem.
    pose proof (Z.quot_rem' num (Z.pos den)) as Hdiv. rewrite Hrem in Hdiv.
    assert (k < Z.quot num (Z.pos den) < k + 1) by nia. lia.
Qed.

(** ** The board helpers of lib/utils.ts *)

Module UtilsProperties.

Lemma boardNumbers_eq : Utils.boardNumbers = seqZ 1 75.
Proof. reflexivity. Qed.

(** X1: the five columns of [generateBingoColumns] hold each number from 1
    to 75 exactly once and no other number, and every number stands in the
    column whose letter [getColumnForNumber] derives for it (the copy of
    the hook and the copy of lib/utils.ts alike). *)
Theorem board_partition (n : Z) :
  NoDup Utils.boardNumbers /\
  (n ∈ Utils.boardNumbers <-> 1 <= n <= 75) /\
  Forall (fun col =>
            Forall (fun m => getColumnForNumber m = Utils.letter col)
                   (Utils.numbers col))
         Utils.generateBingoColumns /\
  Forall (fun col =>
            Forall (fun m => Utils.getColumnForNumber (ofZ m) = Utils.letter col)
                   (Utils.numbers col))
         Utils.generateBingoColumns.
Proof.
  rewrite boardNumbers_eq. split; [apply NoDup_seqZ|]. split; [|split].
  - rewrite elem_of_seqZ. lia.
  - repeat (constructor; [repeat constructor|]). constructor.
  - repeat (constructor; [repeat constructor|]). constructor.
Qed.

Import Utils.

(** X2: on the integers [isValidBingoNumber] accepts exactly the numbers
    for which [getColumnForNumber] yields a column letter (a non-empty
    string), which are exactly the numbers on the generated board. On
    other numbers only one direction holds: a number with a column letter
    is valid, but every number strictly between two columns (above 15 and
    below 16, or so at 30, 45 or 60) is accepted although it has no column
    letter and is on no column. *)
Theorem valid_number_has_column (n : Z) :
  isValidBingoNumber (ofZ n)
  = negb (String.eqb (getColumnForNumber (ofZ n)) "") /\
  isValidBingoNumber (ofZ n) = bool_decide (n ∈ boardNumbers) /\
  (forall number : JsNumber,
     String.eqb (getColumnForNumber number) "" = false ->
     isValidBingoNumber number = true) /\
  (forall q : Q,
     betweenColumns q ->
     isValidBingoNumber (Finite q) = true /\
     getColumnForNumber (Finite q) = "" /\
     forall m, m ∈ boardNumbers -> ~ (q == inject_Z m)%Q).
Proof.
  split; [|split; [|split]].
  - rewrite valid_of_integer. unfold getColumnForNumber.
    rewrite !js_ge_ofZ, !js_le_ofZ.
    repeat match goal with
           | |- context [?a <=? ?b] => destruct (Z.leb_spec a b)
           end; cbn; try reflexivity; lia.
  - rewrite valid_of_integer, boardNumbers_eq.
    destruct (decide (1 <= n <= 75)) as [Hin|Hout].
    + rewrite bool_decide_eq_true_2 by (apply elem_of_seqZ; lia). lia.
    + rewrite bool_decide_eq_false_2 by (rewrite elem_of_seqZ; lia). lia.
  - intros [[num den]| | |]; unfold getColumnForNumber, isValidBingoNumber,
      BINGO_CONFIG.TOTAL_NUMBERS; cbn; try discriminate.
    compare_finite.
  - intros q Hbetween.
    destruct (between_columns q Hbetween) as (Hvalid & Hcolumn & _).
    split; [exact Hvalid|]. split; [exact Hcolumn|].
    intros m _ Heq. destruct Hbetween as (k & _ & Hlow & Hhigh).
    rewrite Heq in Hlow, Hhigh. rewrite <- Zlt_Qlt in Hlow, Hhigh. lia.
Qed.

(** X3: for a count of at least 1, [getRecentNumbers] returns the last
    [count] called numbers in their order (all of them when fewer were
    called); a count of 0 returns the whole list, not the empty one, since
    [slice(-0)] is [slice(0)]; the default count is 3. *)
Theorem getRecentNumbers_suffix (calledNumbers : list Z) (count : Z) :
  (1 <= count ->
   exists older,
     calledNumbers = older ++ getRecentNumbers calledNumbers (Some count) /\
     Z.of_nat (length (getRecentNumbers calledNumbers (Some count)))
     = Z.min count (Z.of_nat (length calledNumbers))) /\
  getRecentNumbers calledNumbers (Some 0) = calledNumbers /\
  getRecentNumbers calledNumbers None = getRecentNumbers calledNumbers (Some 3).
Proof.
  split; [|split; [|reflexivity]];
    [|unfold getRecentNumbers, sliceFrom; cbn;
      rewrite Z.min_l by lia; reflexivity].
  intros Hcount. unfold getRecentNumbers, sliceFrom.
  change (default 3 (Some count)) with count.
  destruct (- count <? 0) eqn:Hneg; [|lia].
  set (k := Z.to_nat (Z.max (Z.of_nat (length calledNumbers) + - count) 0)).
  exists (take k calledNumbers). split.
  - symmetry. apply take_drop.
  - rewrite length_drop. unfold k. lia.
Qed.

(** X4: [isPositionInWinningPattern] is false for every cell, the free
    centre included, when the details or their pattern are missing; with a
    pattern the centre cell (2,2) is always part of it; any other cell is
    part of it exactly when the pattern marks it and [matchedPositions]
    exists and lists the cell. *)
Theorem winning_pattern_cells (rowIndex colIndex : Z) (details : WinningPatternDetails) :
  isPositionInWinningPattern rowIndex colIndex None = false /\
  (pattern details = None ->
   isPositionInWinningPattern rowIndex colIndex (Some details) = false) /\
  (forall cells,
     pattern details = Some cells ->
     isPositionInWinningPattern 2 2 (Some details) = true /\
     (rowIndex <> 2 \/ colIndex <> 2 ->
      (isPositionInWinningPattern rowIndex colIndex (Some details) = true <->
       (nthZ cells rowIndex ≫= (fun row => nthZ row colIndex)) = Some true /\
       exists positions pos,
         matchedPositions details = Some positions /\ pos ∈ positions /\
         pos !! 0%nat = Some rowIndex /\ pos !! 1%nat = Some colIndex))).
Proof.
  split; [reflexivity|]. split.
  - intros Hnone. unfold isPositionInWinningPattern. now rewrite Hnone.
  - intros cells Hcells. unfold isPositionInWinningPattern. rewrite Hcells. split.
    + apply orb_true_r.
    + intros Hoff.
      assert (Hcentre : (rowIndex =? 2) && (colIndex =? 2) = false)
        by (apply andb_false_iff; destruct Hoff; [left | right]; lia).
      rewrite Hcentre, orb_false_r, andb_true_iff, bool_decide_eq_true.
      apply and_iff_compat_l.
      destruct (matchedPositions details) as [positions|]; cbn;
        unfold truthy, Truthy_bool.
      * rewrite existsb_exists. split.
        -- intros (pos & Hin & Hpos). apply andb_true_iff in Hpos as [H0 H1].
           apply bool_decide_eq_true in H0, H1.
           exists positions, pos. repeat split; try assumption.
           now apply list_elem_of_In.
        -- intros (positions' & pos & [= <-] & Hin & H0 & H1).
           exists pos. split; [now apply list_elem_of_In|].
           apply andb_true_iff. split; now apply bool_decide_eq_true.
      * split; [discriminate|]. intros (? & ? & [=] & _).
Qed.

(** *** Display tokens *)

Lemma isHexDigit_isTokenChar (c : ascii) :
  isHexDigit c = true -> Security.isTokenChar c = true.
Proof.
  unfold isHexDigit, Security.isTokenChar. generalize (Z.of_nat (nat_of_ascii c)).
  intros n. lia.
Qed.

Lemma isTokenChar_not_space (c : ascii) :
  Security.isTokenChar c = true -> isWhiteSpace c = false.
Proof.
  unfold isWhiteSpace, Security.isTokenChar. generalize (Z.of_nat (nat_of_ascii c)).
  intros n. lia.
Qed.

Lemma matchHex_spec (k : nat) (s s' : string) :
  matchHex k s = Some s' ->
  exists pre, s = pre +:+ s' /\ String.length pre = k
              /\ Security.allChars Security.isTokenChar pre = true.
Proof.
  revert s. induction k as [|k IH]; intros s Hm; cbn in Hm.
  - injection Hm as <-. now exists "".
  - destruct s as [|c rest]; [discriminate|].
    destruct (isHexDigit c) eqn:Hc; [|discriminate].
    destruct (IH _ Hm) as (pre & -> & Hlen & Hall).
    exists (String c pre). cbn. rewrite Hlen, Hall, (isHexDigit_isTokenChar _ Hc).
    auto.
Qed.

Lemma allChars_app p (s t : string) :
  Security.allChars p (s +:+ t) = Security.allChars p s && Security.allChars p t.
Proof.
  induction s as [|c s IH]; [reflexivity|].
  change (Security.allChars p (String c (s +:+ t))
          = Security.allChars p (String c s) && Security.allChars p t).
  cbn [Security.allChars]. now rewrite IH, andb_assoc.
Qed.

Lemma matchItems_spec (items : list UuidItem) (s : string) :
  matchItems items s = true ->
  String.length s = itemsLength items
  /\ Security.allChars Security.isTokenChar s = true.
Proof.
  revert s. induction items as [|[k|] items IH]; intros s Hm; cbn in Hm.
  - apply bool_decide_eq_true in Hm as ->. now split.
  - destruct (matchHex k s) as [s'|] eqn:Hk; [|discriminate].
    destruct (matchHex_spec _ _ _ Hk) as (pre & -> & Hlen & Hall).
    destruct (IH _ Hm) as [Hl Ha].
    rewrite length_append, allChars_app, Hlen, Hl, Hall, Ha.
    now split.
  - destruct s as [|c s']; [discriminate|].
    destruct (Ascii.eqb_spec c "-") as [->|Hne].
    + destruct (IH _ Hm) as [Hl Ha]. cbn. rewrite Hl, Ha. now split.
    + exfalso. revert Hm.
      destruct c as [[] [] [] [] [] [] [] []]; try discriminate. congruence.
Qed.

Lemma trimStart_token (s : string) :
  Security.allChars Security.isTokenChar s = true -> trimStart s = s.
Proof.
  destruct s as [|c s]; [reflexivity|]. cbn. intros H.
  apply andb_true_iff in H as [Hc _].
  now rewrite (isTokenChar_not_space _ Hc).
Qed.

Lemma trimEnd_token (s : string) :
  Security.allChars Security.isTokenChar s = true -> Security.trimEnd s = s.
Proof.
  induction s as [|c s IH]; [reflexivity|]. cbn. intros H.
  apply andb_true_iff in H as [Hc Hs].
  now rewrite (IH Hs), (isTokenChar_not_space _ Hc).
Qed.

(** X5: a token that the UUID check of lib/utils.ts accepts is a string of
    36 characters, and the looser check of lib/security.ts accepts it
    too. *)
Theorem uuid_token_passes_both_validators (token : option string) :
  validateDisplayToken token = true ->
  Security.validateDisplayToken token = true /\
  exists t, token = Some t /\ String.length t = 36%nat.
Proof.
  unfold validateDisplayToken, Security.validateDisplayToken.
  destruct token as [t|]; [|discriminate].
  change (default "" (Some t)) with t. cbn [js_truthy].
  destruct (truthy t) eqn:Ht; [|discriminate]. cbn [negb].
  intros Hm. apply matchItems_spec in Hm as [Hlen Hall]. cbn in Hlen.
  split; [|now exists t].
  unfold Security.trim. rewrite (trimStart_token _ Hall), (trimEnd_token _ Hall), Hlen.
  cbn. unfold Security.tokenRegexTest. rewrite Hall.
  destruct t; [discriminate|reflexivity].
Qed.

Lemma uuid_token_passes_both_validators_witness :
  validateDisplayToken (Some sampleToken) = true /\
  Security.validateDisplayToken (Some sampleToken) = true.
Proof.
  split; [reflexivity|].
  exact (proj1 (uuid_token_passes_both_validators (Some sampleToken) eq_refl)).
Defined.

(** *** Game ids *)

Lemma uintValue_acc (d : Decimal.uint) (acc : positive) :
  uintValue d (Z.pos acc) = Z.pos (Pos.of_uint_acc d acc).
Proof.
  revert acc. induction d; intros acc; cbn [uintValue Pos.of_uint_acc];
    [reflexivity|..];
    match goal with
    | |- uintValue _ ?a = _ =>
        match goal with
        | |- _ = Z.pos (Pos.of_uint_acc _ ?b) =>
            replace a with (Z.pos b) by lia
        end
    end; apply IHd.
Qed.

Lemma uintValue_0 (d : Decimal.uint) : uintValue d 0 = Z.of_N (Pos.of_uint d).
Proof.
  induction d; cbn [uintValue Pos.of_uint Z.of_N]; [reflexivity | exact IHd |..];
    rewrite <- uintValue_acc; reflexivity.
Qed.

Lemma parseDigits_numeral (d : Decimal.uint) (acc : Z) (seen : bool) :
  parseDigits (NilEmpty.string_of_uint d) acc seen
  = match d with
    | Decimal.Nil => if seen then Some acc else None
    | _ => Some (uintValue d acc)
    end.
Proof.
  revert acc seen.
  induction d; intros acc seen; [reflexivity|..];
    cbn -[Z.mul Z.add digitValue];
    match goal with
    | |- context [digitValue ?c] =>
        let v := eval vm_compute in (digitValue c) in
        change (digitValue c) with v
    end; cbn iota beta;
    rewrite IHd; destruct d; reflexivity.
Qed.

Lemma parseInt_numeral (d : Decimal.uint) :
  d <> Decimal.Nil ->
  parseInt (NilEmpty.string_of_uint d) = Some (uintValue d 0) /\
  parseInt (String "-" (NilEmpty.string_of_uint d)) = Some (- uintValue d 0).
Proof.
  intros Hd. split.
  - pose proof (parseDigits_numeral d 0 false) as Hp.
    destruct d; [congruence|..]; exact Hp.
  - unfold parseInt. cbn [trimStart].
    change (isWhiteSpace "-") with false. cbn iota.
    rewrite parseDigits_numeral. destruct d; [congruence|..]; reflexivity.
Qed.

(** Reading back what [toString] printed. *)
Lemma parseInt_toString (z : Z) : parseInt (toString z) = Some z.
Proof.
  unfold toString. destruct z as [|p|p]; [reflexivity|..]; cbn [Z.to_int].
  - unfold NilZero.string_of_int, NilZero.string_of_uint.
    pose proof (DecimalPos.Unsigned.to_uint_nonnil p) as Hn.
    pose proof (DecimalPos.Unsigned.of_to p) as Hof.
    destruct (parseInt_numeral _ Hn) as [Hpos _].
    destruct (Pos.to_uint p) eqn:E; [congruence|..];
      rewrite Hpos, uintValue_0, Hof; reflexivity.
  - unfold NilZero.string_of_int, NilZero.string_of_uint.
    pose proof (DecimalPos.Unsigned.to_uint_nonnil p) as Hn.
    pose proof (DecimalPos.Unsigned.of_to p) as Hof.
    destruct (parseInt_numeral _ Hn) as [_ Hneg].
    destruct (Pos.to_uint p) eqn:E; [congruence|..];
      rewrite Hneg, uintValue_0, Hof; reflexivity.
Qed.

Lemma toString_truthy (z : Z) : truthy (toString z) = true.
Proof.
  unfold toString. destruct z as [|p|p]; [reflexivity|..]; cbn [Z.to_int];
    unfold NilZero.string_of_int, NilZero.string_of_uint.
  - pose proof (DecimalPos.Unsigned.to_uint_nonnil p) as Hn.
    destruct (Pos.to_uint p); [congruence|..]; reflexivity.
  - reflexivity.
Qed.

Lemma format_printed_id (z : Z) :
  formatGameIdForDisplay (Some (IdString (toString z))) = toString z.
Proof.
  unfold formatGameIdForDisplay. cbn [truthy Truthy_GameIdValue].
  now rewrite toString_truthy, parseInt_toString.
Qed.

(** X6: a game id printed as a decimal string is read back as the same
    number by [extractGameIdNumber] and [getGameIdNumber], 0 and negative
    numbers included, and [formatGameIdForDisplay] shows a numeric id and
    its printed form alike. *)
Theorem gameId_round_trip (z : Z) :
  Z.abs z <= MAX_SAFE_INTEGER ->
  extractGameIdNumber (Some (toString z)) = z /\
  getGameIdNumber (Some (IdString (toString z))) = z /\
  getGameIdNumber (Some (IdNumber z)) = z /\
  formatGameIdForDisplay (Some (IdString (toString z))) = toString z /\
  formatGameIdForDisplay (Some (IdNumber z)) = toString z.
Proof.
  intros _. rewrite format_printed_id.
  unfold extractGameIdNumber, getGameIdNumber, formatGameIdForDisplay.
  cbn [truthy Truthy_GameIdValue].
  rewrite toString_truthy, parseInt_toString. cbn [negb default].
  repeat split.
  - unfold truthy, Truthy_Z. destruct (Z.eqb_spec z 0) as [->|]; reflexivity.
  - unfold truthy, Truthy_Z. destruct (Z.eqb_spec z 0) as [->|]; reflexivity.
Qed.

Lemma gameId_round_trip_witness :
  Z.abs 100001 <= MAX_SAFE_INTEGER /\
  extractGameIdNumber (Some "100001") = 100001.
Proof.
  split; [unfold MAX_SAFE_INTEGER; lia|].
  refine (proj1 (gameId_round_trip 100001 _)). unfold MAX_SAFE_INTEGER. lia.
Defined.

(** X7: for a string id whose number is a safe integer, the text that
    [formatGameIdForDisplay] shows is the number that [extractGameIdNumber]
    reads, printed, and [getGameIdNumber] reads that same number; a missing
    or empty id, like one without leading digits, is shown as 0; and
    formatting is idempotent: the shown text formats to itself. *)
Theorem format_is_toString_of_extract (gameId : option string) :
  Z.abs (extractGameIdNumber gameId) <= MAX_SAFE_INTEGER ->
  formatGameIdForDisplay (IdString <$> gameId)
    = toString (extractGameIdNumber gameId) /\
  getGameIdNumber (IdString <$> gameId) = extractGameIdNumber gameId /\
  formatGameIdForDisplay None = "0" /\
  formatGameIdForDisplay (Some (IdString "")) = "0" /\
  (forall s, gameId = Some s -> parseInt s = None ->
             formatGameIdForDisplay (IdString <$> gameId) = "0") /\
  formatGameIdForDisplay
    (Some (IdString (formatGameIdForDisplay (IdString <$> gameId))))
  = formatGameIdForDisplay (IdString <$> gameId).
Proof.
  intros _.
  assert (H1 : formatGameIdForDisplay (IdString <$> gameId)
               = toString (extractGameIdNumber gameId)).
  { destruct gameId as [s|]; [|reflexivity]. cbn.
    destruct (truthy s); [|reflexivity]. cbn. destruct (parseInt s); reflexivity. }
  repeat split; try assumption.
  - destruct gameId as [s|]; [|reflexivity]. cbn.
    destruct (truthy s); reflexivity.
  - intros s -> Hnan. cbn. rewrite Hnan. now destruct (truthy s).
  - rewrite H1. apply format_printed_id.
Qed.

Lemma format_is_toString_of_extract_witness :
  Z.abs (extractGameIdNumber (Some " 100001-A")) <= MAX_SAFE_INTEGER /\
  formatGameIdForDisplay (Some (IdString " 100001-A")) = "100001".
Proof.
  split; [vm_compute; discriminate|].
  refine (proj1 (format_is_toString_of_extract (Some " 100001-A") _)).
  vm_compute. discriminate.
Defined.

End UtilsProperties.

(** ** The helpers of lib/security.ts *)

Module SecurityProperties.
Import Security.

(** *** sanitizeInput *)

Lemma removeAngles_sublist (s : string) :
  sublist (chars_of (removeAngles s)) (chars_of s).
Proof.
  induction s as [|c s IH]; cbn; [constructor|].
  destruct (_ || _); cbn; now constructor.
Qed.

Lemma removeAngles_clean (s : string) (c : ascii) :
  c = "<"%char \/ c = ">"%char -> c ∉ chars_of (removeAngles s).
Proof.
  intros Hc. induction s as [|a s IH]; cbn; [apply not_elem_of_nil|].
  destruct (Ascii.eqb_spec a "<") as [->|Hlt]; cbn; [exact IH|].
  destruct (Ascii.eqb_spec a ">") as [->|Hgt]; cbn; [exact IH|].
  apply not_elem_of_cons. split; [|exact IH]. destruct Hc; congruence.
Qed.

Lemma removeMatches_sublist (matchAt : string -> option nat) (skip : nat) (s : string) :
  sublist (chars_of (removeMatches matchAt skip s)) (chars_of s).
Proof.
  revert skip. induction s as [|c s IH]; intros skip; cbn; [constructor|].
  destruct skip as [|k]; [|now constructor].
  destruct (matchAt (String c s)) as [[|m]|]; cbn; now constructor.
Qed.

Lemma trimStart_sublist (s : string) : sublist (chars_of (trimStart s)) (chars_of s).
Proof.
  induction s as [|c s IH]; cbn; [constructor|].
  destruct (isWhiteSpace c); [now constructor | reflexivity].
Qed.

Lemma trimEnd_sublist (s : string) : sublist (chars_of (trimEnd s)) (chars_of s).
Proof.
  induction s as [|c s IH]; cbn; [constructor|].
  destruct (_ && _); cbn; [apply sublist_nil_l | now constructor].
Qed.

(** X8: [sanitizeInput] only removes characters: its result is a
    subsequence of the input (nothing is inserted, escaped or reordered),
    it is never longer than the input, and it holds neither [<] nor [>]. *)
Theorem sanitizeInput_only_removes (input : string) :
  sublist (chars_of (sanitizeInput input)) (chars_of input) /\
  ("<"%char ∉ chars_of (sanitizeInput input)) /\
  (">"%char ∉ chars_of (sanitizeInput input)) /\
  (String.length (sanitizeInput input) <= String.length input)%nat.
Proof.
  assert (Hclean : sublist (chars_of (sanitizeInput input))
                           (chars_of (removeAngles input))).
  { unfold sanitizeInput, trim.
    etrans; [apply trimEnd_sublist|]. etrans; [apply trimStart_sublist|].
    etrans; apply removeMatches_sublist. }
  assert (Hsub : sublist (chars_of (sanitizeInput input)) (chars_of input))
    by (etrans; [exact Hclean | apply removeAngles_sublist]).
  split; [exact Hsub|]. repeat split.
  - intros Hin. eapply removeAngles_clean; [left; reflexivity|].
    eapply elem_of_sublist; eassumption.
  - intros Hin. eapply removeAngles_clean; [right; reflexivity|].
    eapply elem_of_sublist; eassumption.
  - apply sublist_length in Hsub.
    now rewrite !length_chars_of in Hsub.
Qed.

(** X9: the removals of [sanitizeInput] are single passes, so what they
    remove can be left behind: for every payload, the input
    [javajavascript:script:] followed by the payload is sanitised to a text
    that starts with [javascript:], although a plain [javascript:] prefix
    is removed. *)
Theorem javascript_protocol_survives (payload : string) :
  String.prefix "javascript:" (sanitizeInput ("javajavascript:script:" +:+ payload))
    = true /\
  sanitizeInput "javascript:alert(1)" = "alert(1)".
Proof.
  split; [|reflexivity].
  change (sanitizeInput ("javajavascript:script:" +:+ payload))
    with ("javascript:"
            +:+ trimEnd (removeMatches matchOnHandler 0
                           (removeMatches matchJavascript 0 (removeAngles payload)))).
  apply prefix_append.
Qed.

(** *** generateSecureId *)

Lemma get_in_range (s : string) (n : nat) :
  (n < String.length s)%nat ->
  exists c, String.get n s = Some c /\ c ∈ chars_of s.
Proof.
  revert n. induction s as [|a s IH]; intros n Hn; cbn in Hn; [lia|].
  destruct n as [|n]; cbn.
  - exists a. split; [reflexivity | left].
  - destruct (IH n) as (c & Hget & Hin); [lia|].
    exists c. split; [exact Hget | now right].
Qed.

Lemma charAt_byte (byte : Z) :
  0 <= byte < 256 ->
  exists c, charAt chars (Z.rem byte (Z.of_nat (String.length chars))) = String c ""
            /\ c ∈ chars_of chars.
Proof.
  intros Hbyte. change (Z.of_nat (String.length chars)) with 62.
  pose proof (Z.rem_bound_pos byte 62 ltac:(lia) ltac:(lia)) as Hrem.
  unfold charAt. destruct (Z.ltb_spec (Z.rem byte 62) 0) as [|_]; [lia|].
  destruct (get_in_range chars (Z.to_nat (Z.rem byte 62))) as (c & Hget & Hin).
  { change (String.length chars) with 62%nat. lia. }
  exists c. now rewrite Hget.
Qed.

Lemma generateSecureId_fold (array : list Z) (result : string) :
  Forall (fun byte => 0 <= byte < 256) array ->
  exists suffix,
    fold_left (fun result byte =>
                 result +:+ charAt chars (Z.rem byte (Z.of_nat (String.length chars))))
              array result = result +:+ suffix
    /\ String.length suffix = length array
    /\ Forall (fun c => c ∈ chars_of chars) (chars_of suffix).
Proof.
  intros Hbytes. revert result.
  induction Hbytes as [|byte array Hbyte _ IH]; intros result.
  - exists "". now rewrite append_empty_r.
  - destruct (charAt_byte byte Hbyte) as (c & Hc & Hin).
    destruct (IH (result +:+ String c "")) as (suffix & Hfold & Hlen & Hall).
    exists (String c suffix). cbn [fold_left]. rewrite Hc, Hfold, append_assoc.
    split; [reflexivity|]. cbn. rewrite Hlen. split; [reflexivity|].
    now constructor.
Qed.

(** X10: with [crypto.getRandomValues], [generateSecureId] returns one
    character per random byte, so an id of the requested length, and every
    character is a letter or digit of its alphabet. *)
Theorem generateSecureId_alphabet (array : list Z) :
  Forall (fun byte => 0 <= byte < 256) array ->
  String.length (generateSecureId_crypto array) = length array /\
  Forall (fun c => c ∈ chars_of chars) (chars_of (generateSecureId_crypto array)).
Proof.
  intros Hbytes. unfold generateSecureId_crypto.
  destruct (generateSecureId_fold array "" Hbytes) as (suffix & -> & Hlen & Hall).
  now split.
Qed.

Lemma generateSecureId_alphabet_witness :
  Forall (fun byte => 0 <= byte < 256) [0; 61; 62; 255] /\
  String.length (generateSecureId_crypto [0; 61; 62; 255]) = 4%nat.
Proof.
  assert (H : Forall (fun byte => 0 <= byte < 256) [0; 61; 62; 255])
    by (repeat constructor; lia).
  split; [exact H|].
  exact (proj1 (generateSecureId_alphabet [0; 61; 62; 255] H)).
Defined.

(** X11: the byte is reduced modulo 62, and 256 is no multiple of 62: each
    of the first eight characters of the alphabet ([A] to [H]) is drawn for
    five of the 256 byte values, every other character for four, so the
    ids are not uniformly distributed. *)
Theorem generateSecureId_modulo_bias (i : Z) :
  0 <= i < 62 ->
  bytesMappedTo i = if i <? 8 then 5%nat else 4%nat.
Proof.
  intros Hi.
  assert (Hall : forallb (fun i => Nat.eqb (bytesMappedTo i) (if i <? 8 then 5 else 4))
                         (seqZ 0 62) = true) by (vm_compute; reflexivity).
  rewrite forallb_forall in Hall.
  apply Nat.eqb_eq, Hall, list_elem_of_In, elem_of_seqZ. lia.
Qed.

Lemma generateSecureId_modulo_bias_witness :
  0 <= 7 < 62 /\ bytesMappedTo 7 = 5%nat.
Proof.
  split; [lia|]. apply (generateSecureId_modulo_bias 7). lia.
Defined.

(** *** encryptData and decryptData *)

Lemma replaceFirst_eq (key s : string) :
  replaceFirst key s
  = if String.prefix key s
    then String.substring (String.length key)
           (String.length s - String.length key) s
    else match s with
         | String c rest => String c (replaceFirst key rest)
         | EmptyString => EmptyString
         end.
Proof. destruct s; reflexivity. Qed.

Lemma substring_all (s : string) : String.substring 0 (String.length s) s = s.
Proof. induction s as [|c s IH]; [reflexivity|]. cbn. now rewrite IH. Qed.

Lemma substring_append (key rest : string) :
  String.substring (String.length key)
    (String.length (key +:+ rest) - String.length key) (key +:+ rest) = rest.
Proof.
  induction key as [|c key IH].
  - change ("" +:+ rest) with rest. cbn [String.length]. rewrite Nat.sub_0_r.
    apply substring_all.
  - change (String c key +:+ rest) with (String c (key +:+ rest)). cbn. exact IH.
Qed.

Lemma replaceFirst_prefix (key rest : string) :
  replaceFirst key (key +:+ rest) = rest.
Proof. rewrite replaceFirst_eq, prefix_append. apply substring_append. Qed.

Lemma replaceFirst_after (key data : string) :
  occursBefore key (data +:+ key) (String.length data) = false ->
  replaceFirst key (data +:+ key) = data.
Proof.
  induction data as [|c data IH]; intros Hocc.
  - change ("" +:+ key) with key. rewrite <- (append_empty_r key) at 2.
    apply replaceFirst_prefix.
  - change (String c data +:+ key) with (String c (data +:+ key)) in *.
    cbn [String.length occursBefore] in Hocc.
    apply orb_false_iff in Hocc as [Hpre Hrest].
    rewrite replaceFirst_eq, Hpre. now rewrite IH.
Qed.

Lemma replaceFirst_absent (key s : string) :
  occursBefore key s (S (String.length s)) = false -> replaceFirst key s = s.
Proof.
  induction s as [|c s IH]; intros Hocc.
  - now destruct key.
  - cbn [String.length occursBefore] in Hocc.
    apply orb_false_iff in Hocc as [Hpre Hrest].
    rewrite replaceFirst_eq, Hpre. now rewrite IH.
Qed.

Section WithCodec.

Variable btoa : string -> string.
Variable atob : string -> option string.
Hypothesis atob_btoa : forall s, atob (btoa s) = Some s.

(** X12: [decryptData] gives [encryptData]'s plaintext back when the key
    does not occur in the plaintext followed by the key before the
    appended copy; a plaintext that starts with the key comes back rotated
    (the key is cut from its front, the appended copy stays); decrypting
    with another key that does not occur returns the plaintext with the
    original key attached; and text that is not base64 decrypts to the
    empty string. *)
Theorem decrypt_encrypt (data key : string) :
  (occursBefore key (data +:+ key) (String.length data) = false ->
   decryptData atob (encryptData btoa data key) key = data) /\
  decryptData atob (encryptData btoa (key +:+ data) key) key = data +:+ key /\
  (forall otherKey,
     occursBefore otherKey (data +:+ key) (S (String.length (data +:+ key))) = false ->
     decryptData atob (encryptData btoa data key) otherKey = data +:+ key) /\
  (forall text, atob text = None -> decryptData atob text key = "").
Proof.
  unfold decryptData, encryptData. rewrite !atob_btoa. repeat split.
  - apply replaceFirst_after.
  - rewrite append_assoc. apply replaceFirst_prefix.
  - intros otherKey. apply replaceFirst_absent.
  - intros text ->. reflexivity.
Qed.

End WithCodec.

Lemma decrypt_encrypt_witness :
  (forall s : string, Some (id s) = Some s) /\
  decryptData (@Some string) (encryptData id "secret" "k1") "k1" = "secret" /\
  decryptData (@Some string) (encryptData id "k1-secret" "k1") "k1" = "-secretk1".
Proof.
  split; [reflexivity|]. split.
  - exact (proj1 (decrypt_encrypt id (@Some string) (fun s => eq_refl) "secret" "k1")
             eq_refl).
  - exact (proj1 (proj2 (decrypt_encrypt id (@Some string) (fun s => eq_refl)
                           "-secret" "k1"))).
Defined.

End SecurityProperties.

(** *** RateLimiter *)

Module RateLimiterProperties.
Import Security.RateLimiter.





(** X14: what one [isAllowed] call does. The first request of an
    identifier is always allowed, whatever the limit (0 or negative
    included); a known identifier is refused exactly when the timestamps
    of its history that lie inside the window number at least
    [maxRequests]. A refused request leaves the limiter as it was (it is
    not recorded; the expired timestamps stay); an allowed request
    replaces the history of the identifier by exactly its timestamps
    inside the window, in their order, followed by the current time; and
    no call touches the history of another identifier. *)
Theorem isAllowed_outcomes (now : Z) (identifier : string) (rl : t) :
  let history := default [] (requests rl !! identifier) in
  let recent := filter (fun time => now - windowMs rl < time) history in
  (requests rl !! identifier = None -> fst (isAllowed now identifier rl) = true) /\
  (fst (isAllowed now identifier rl) = false <->
   is_Some (requests rl !! identifier)
   /\ maxRequests rl <= Z.of_nat (length recent)) /\
  (fst (isAllowed now identifier rl) = false -> snd (isAllowed now identifier rl) = rl) /\
  (fst (isAllowed now identifier rl) = true ->
   requests (snd (isAllowed now identifier rl)) !! identifier
   = Some (recent ++ [now])) /\
  (forall other, other <> identifier ->
     requests (snd (isAllowed now identifier rl)) !! other = requests rl !! other).
Proof.
  cbv zeta. unfold isAllowed.
  destruct (requests rl !! identifier) as [reqs|] eqn:Hid.
  - change (default [] (Some reqs)) with reqs.
    destruct (Z.leb_spec (maxRequests rl)
                (Z.of_nat (length (filter (fun time => now - windowMs rl < time) reqs))))
      as [Hfull|Hroom]; cbn [fst snd].
    + split; [discriminate|]. split; [split; [intros _; split; [eauto|exact Hfull]
                                            |reflexivity]|].
      split; [reflexivity|]. split; [discriminate|]. reflexivity.
    + split; [discriminate|]. split; [split; [discriminate | intros [_ ?]; lia]|].
      split; [discriminate|]. split.
      * intros _. cbn. now rewrite lookup_insert_eq.
      * intros other Hne. cbn. now rewrite lookup_insert_ne by congruence.
  - change (default [] None) with (@nil Z). cbn [fst snd filter]. split; [reflexivity|].
    split; [split; [discriminate | intros [[? [=]] _]]|].
    split; [discriminate|]. split.
    + intros _. cbn. now rewrite lookup_insert_eq.
    + intros other Hne. cbn. now rewrite lookup_insert_ne by congruence.
Qed.

Lemma filter_later_window (w1 w2 : Z) (l : list Z) :
  w1 <= w2 ->
  filter (fun time => w2 < time) (filter (fun time => w1 < time) l)
  = filter (fun time => w2 < time) l.
Proof.
  intros Hw. rewrite list_filter_filter. apply list_filter_iff. intros x. lia.
Qed.

(** X15: with a limit of at least 1, running [cleanup] never changes an
    answer: whatever was cleaned up at an earlier time, a later [isAllowed]
    answers as it would have without the cleanup. *)
Theorem cleanup_keeps_decisions (now1 now2 : Z) (identifier : string) (rl : t) :
  1 <= maxRequests rl ->
  now1 <= now2 ->
  fst (isAllowed now2 identifier (cleanup now1 rl))
  = fst (isAllowed now2 identifier rl).
Proof.
  intros Hmax Hnow. unfold isAllowed, cleanup. cbn [requests maxRequests windowMs].
  rewrite lookup_omap.
  destruct (requests rl !! identifier) as [reqs|]; cbn; [|reflexivity].
  destruct (length (filter _ reqs) =? 0)%nat eqn:Hempty; cbn.
  - apply Nat.eqb_eq in Hempty. apply length_zero_iff_nil in Hempty.
    rewrite <- (filter_later_window (now1 - windowMs rl) (now2 - windowMs rl))
      by lia.
    rewrite Hempty. cbn.
    destruct (Z.leb_spec (maxRequests rl) (Z.of_nat 0)); [cbn in *; lia | reflexivity].
  - rewrite filter_later_window by lia.
    destruct (maxRequests rl <=? _); reflexivity.
Qed.

Lemma cleanup_keeps_decisions_witness :
  1 <= maxRequests sampleLimiter /\ 500 <= 900 /\
  fst (isAllowed 900 "shop" (cleanup 500 sampleLimiter)) = false.
Proof.
  split; [cbn; lia|]. split; [lia|].
  rewrite (cleanup_keeps_decisions 500 900 "shop" sampleLimiter);
    [reflexivity | cbn; lia | lia].
Defined.

End RateLimiterProperties.

(** ** More properties of the socket hook *)

Section HookProperties.

Variable displayToken : string.
Variables onCloseCartelas soundCallbacks : bool.

Abbreviation step := (applyEvent displayToken onCloseCartelas soundCallbacks).
Abbreviation steps := (applyEvents displayToken onCloseCartelas soundCallbacks).

Lemma columnIf_merge (supplied previous : option Z) (column : option string) :
  column = columnIf previous None ->
  columnIf supplied column = columnIf (supplied ||| previous) None.
Proof.
  intros ->. destruct supplied as [v|]; [|reflexivity].
  unfold js_or, js_truthy. cbn. destruct (truthy v) eqn:Hv; cbn; rewrite ?Hv; reflexivity.
Qed.

Lemma columnConsistent_step (e : Event) (h : Hook.t) :
  columnConsistent (Hook.gameState h) ->
  columnConsistent (Hook.gameState (fst (step e h))).
Proof.
  unfold columnConsistent. intros Hc.
  destruct e; run_listeners; try exact Hc; try reflexivity.
  all: repeat (case_match; simplify_eq; cbn in *); try exact Hc; try reflexivity.
  all: try congruence.
  all: repeat apply columnIf_merge; exact Hc.
Qed.

(** X16: the column that the hook keeps beside the current number is
    always the one derived from that number: from the initial state, and
    from every state where it holds, every sequence of socket events
    leaves [currentColumn] equal to [getColumnForNumber(currentNumber)]
    when there is a current number other than 0, and undefined
    otherwise. *)
Theorem column_follows_number (es : list Event) (h : Hook.t) :
  columnConsistent (Hook.gameState h) ->
  columnConsistent (Hook.gameState (fst (steps es h))) /\
  columnConsistent initialGameState.
Proof.
  intros Hc. split; [|reflexivity].
  revert h Hc. induction es as [|e es IH]; intros h Hc; [exact Hc|].
  cbn [applyEvents]. unfold andThen.
  pose proof (columnConsistent_step e h Hc) as Hstep.
  destruct (step e h) as [h1 effects1]. specialize (IH h1 Hstep).
  now destruct (steps es h1).
Qed.

(** X17: the events of the transport ([connect], [reconnect],
    [disconnect], [connect_error], [reconnect_error],
    [display:unauthorized]) never touch the game state, the cached
    verification or the remembered game room, and they leave the two copies
    of the connection flag and of the error text (the hook's own cells and
    those inside [displayState]) equal: connected after [connect] and
    [reconnect], not connected after the others. *)
Theorem connection_events_keep_game (h : Hook.t) :
  Forall (fun e =>
            let h' := fst (step e h) in
            Hook.gameState h' = Hook.gameState h /\
            Hook.verificationData h' = Hook.verificationData h /\
            Hook.prevGameIdRef h' = Hook.prevGameIdRef h /\
            Hook.isConnected h' = opensConnection e /\
            DisplayState.isConnected (Hook.displayState h') = opensConnection e /\
            DisplayState.connectionError (Hook.displayState h')
              = Hook.connectionError h')
         connectionEvents.
Proof.
  unfold connectionEvents. repeat constructor; run_listeners;
    destruct (truthy displayToken); reflexivity.
Qed.

(** X18: every [refresh_pages] event reloads the page: whatever its
    message and session id, the hook's state is untouched and a reload
    after 1000 ms is scheduled last, preceded by an immediate reload at
    most; without a message that delayed reload is the only effect. *)
Theorem refresh_pages_always_reloads (message sessionId : option string)
  (h : Hook.t) :
  fst (step (refresh_pages message sessionId) h) = h /\
  (exists immediate,
     snd (step (refresh_pages message sessionId) h) = immediate ++ [ReloadPage 1000]
     /\ (immediate = [] \/ immediate = [ReloadPage 0])) /\
  snd (step (refresh_pages None sessionId) h) = [ReloadPage 1000].
Proof.
  run_listeners. split; [|split; [|reflexivity]].
  - destruct message as [m|]; [|reflexivity].
    destruct (truthy m && includes m "Game ended"); [reflexivity|].
    destruct (truthy m && includes m "Verification modal closed"); reflexivity.
  - destruct message as [m|]; [|exists []; auto].
    destruct (truthy m && includes m "Game ended");
      [exists [ReloadPage 0]; auto|].
    destruct (truthy m && includes m "Verification modal closed");
      [exists [ReloadPage 0] | exists []]; auto.
Qed.

Lemma or_else_twice {A} `{Truthy A} (x : option A) (d : A) :
  x ||: (x ||: d) = x ||: d.
Proof. destruct x as [v|]; [|reflexivity]. cbn. now destruct (truthy v). Qed.

(** X19: a snapshot with an id ([game_data_updated] or
    [game_data_response]) whose status is [waiting] empties the called
    numbers and clears the current number and column, even when its
    [gameData] carries called numbers; with any other status the called
    numbers are the payload's list when it has one, else the previous
    ones. Either way the loading flag is cleared. *)
Theorem snapshot_progress (data : GameDataMsg.t) (h : Hook.t) :
  js_truthy (GameDataMsg.id data) = true ->
  Forall (fun e =>
            let g := Hook.gameState (fst (step e h)) in
            GameState.isLoadingGameData g = false /\
            (GameDataMsg.status data = Some "waiting" ->
             GameState.calledNumbers g = [] /\
             GameState.currentNumber g = None /\
             GameState.currentColumn g = None /\
             GameState.gameStatus g = Some "waiting") /\
            (GameDataMsg.status data <> Some "waiting" ->
             GameState.calledNumbers g
             = ((GameDataMsg.gameData data ≫= GameData.calledNumbers)
                  ||: GameState.calledNumbers (Hook.gameState h))))
         [game_data_updated data; game_data_response data].
Proof.
  intros Hid. repeat constructor; run_listeners; rewrite Hid; cbn.
  all: destruct (GameDataMsg.gameData data ≫= GameData.placedBetCartelas);
    destruct (bool_decide (GameDataMsg.status data = Some "active")
              && onCloseCartelas); cbn; try reflexivity.
  all: try match goal with
       | Hw : GameDataMsg.status _ = Some "waiting" |- _ =>
           rewrite Hw; reflexivity
       end.
  all: intros Hw; rewrite (bool_decide_eq_false_2 _ Hw);
    rewrite ?or_else_twice; reflexivity.
Qed.


Lemma last_recent (earlier : list Z) (n : Z) :
  last (Utils.getRecentNumbers (earlier ++ [n]) None) = Some n.
Proof.
  unfold Utils.getRecentNumbers, sliceFrom. cbn [default Z.opp Z.ltb Z.compare].
  rewrite length_app. cbn [length]. change (- (3) <? 0) with true. cbn iota.
  rewrite drop_app_le by lia. apply last_snoc.
Qed.

(** X21: the legacy [number_called] listener applies exactly the valid
    bingo numbers: for a number from 1 to 75 it appends the number to the
    called numbers and makes it the current number with its column, so that
    the recent numbers shown end with it; any other number, or a payload
    without a number, changes nothing. *)
Theorem number_called_guard (n : Z) (h : Hook.t) :
  (Utils.isValidBingoNumber (ofZ n) = true ->
   let g := Hook.gameState (fst (step (number_called (Some n)) h)) in
   GameState.calledNumbers g = GameState.calledNumbers (Hook.gameState h) ++ [n] /\
   GameState.currentNumber g = Some n /\
   GameState.currentColumn g = Some (getColumnForNumber n) /\
   last (Utils.getRecentNumbers (GameState.calledNumbers g) None) = Some n) /\
  (Utils.isValidBingoNumber (ofZ n) = false ->
   step (number_called (Some n)) h = (h, [])) /\
  step (number_called None) h = (h, []).
Proof.
  rewrite valid_of_integer.
  split; [|split; [|reflexivity]]; intros Hvalid; run_listeners.
  - assert (Htruthy : truthy n = true)
      by (unfold truthy, Truthy_Z; destruct (Z.eqb_spec n 0); [lia | reflexivity]).
    rewrite Htruthy. cbn [andb]. rewrite Hvalid. cbn.
    repeat split. apply last_recent.
  - rewrite <- andb_assoc, Hvalid, andb_false_r. reflexivity.
Qed.

(** X22: [cartela_verified] caches the verification and opens the modal as
    persistent; a [close-verification-modal] for the display's own session
    closes it and drops the cache; neither touches the game state, and when
    the modal was closed before, the hook is back in the state it had. *)
Theorem verification_modal_round_trip (data : VerificationData) (h : Hook.t) :
  let opened := fst (step (cartela_verified data) h) in
  let closed := fst (step (close_verification_modal (Some displayToken)) opened) in
  (Hook.verificationData opened = Some data /\
   DisplayState.showVerificationModal (Hook.displayState opened) = true /\
   DisplayState.modalPersistent (Hook.displayState opened) = true) /\
  (Hook.verificationData closed = None /\
   DisplayState.showVerificationModal (Hook.displayState closed) = false /\
   DisplayState.modalPersistent (Hook.displayState closed) = false) /\
  Hook.gameState closed = Hook.gameState h /\
  (Hook.verificationData h = None ->
   DisplayState.showVerificationModal (Hook.displayState h) = false ->
   DisplayState.modalPersistent (Hook.displayState h) = false ->
   closed = h).
Proof.
  destruct h as [? ? ? ? ? ds ? ?]; destruct ds.
  run_listeners. unfold forOurSession.
  rewrite bool_decide_eq_true_2 by reflexivity.
  destruct soundCallbacks; cbn;
    [destruct (String.eqb (vd_status data) "won");
     [|destruct (String.eqb (vd_status data) "lost")]|];
    cbn; repeat split; intros; subst; reflexivity.
Qed.

(** X23: [placed_bets_updated] with an empty list leaves the cartela count
    as it was (the length 0 is merged away by the or-operator) while a
    non-empty list sets the count to its length; in both cases the list is
    handed to the page by one window event, the game id becomes the
    payload's id when it has one, and nothing else of the game state
    changes. *)
Theorem placed_bets_updated_count (placedBetCartelas : list Z)
  (gameId : option string) (h : Hook.t) :
  let after := step (placed_bets_updated placedBetCartelas gameId) h in
  snd after = [DispatchWindowEvent "placed_bets_updated" placedBetCartelas] /\
  GameState.cartelas (Hook.gameState (fst after))
  = match placedBetCartelas with
    | [] => GameState.cartelas (Hook.gameState h)
    | _ => Some (Z.of_nat (length placedBetCartelas))
    end /\
  GameState.gameId (Hook.gameState (fst after))
  = (gameId ||| GameState.gameId (Hook.gameState h)) /\
  fst after
  = Hook.set_gameState
      (Hook.gameState h
         |> GameState.set_cartelas (GameState.cartelas (Hook.gameState (fst after)))
         |> GameState.set_gameId (GameState.gameId (Hook.gameState (fst after))))
      h.
Proof.
  run_listeners. destruct placedBetCartelas; repeat split.
Qed.

(** X24: the [game_started] listener (the wire name of
    [SOCKET_EVENTS.GAME_STARTED]) remembers the game of the event as the
    room the display is in; it leaves a room only when a different game was
    remembered, and then that one, never the room it joins; it joins the
    room of the event when the event has an id; delivered a second time it
    leaves no room. *)
Theorem game_started_rooms (gameId : option string) (h : Hook.t) :
  let previous := Hook.prevGameIdRef h in
  let after := step (game_started gameId) h in
  Hook.prevGameIdRef (fst after) = gameId /\
  (SocketEmit "leave_game" previous ∈ snd after <->
   js_truthy previous = true /\ previous <> gameId) /\
  (forall room, SocketEmit "leave_game" room ∈ snd after ->
                room = previous /\ room <> gameId) /\
  (SocketEmit "join_game" gameId ∈ snd after <-> js_truthy gameId = true) /\
  (forall room,
     SocketEmit "leave_game" room ∈ snd (step (game_started gameId) (fst after))
     -> False).
Proof.
  run_listeners.
  destruct (js_truthy (Hook.prevGameIdRef h)) eqn:Hprev;
    destruct (js_truthy gameId) eqn:Hid;
    destruct onCloseCartelas; destruct (truthy displayToken);
    repeat case_bool_decide; cbn;
    rewrite ?Hid; cbn;
    repeat case_bool_decide; cbn;
    repeat split; intros;
    repeat match goal with
           | H : _ ∈ _ :: _ |- _ => apply elem_of_cons in H as [H|H]
           | H : _ ∈ [] |- _ => apply elem_of_nil in H
           | H : _ /\ _ |- _ => destruct H
           | H : SocketEmit _ _ = SocketEmit _ _ |- _ => injection H as ?
           | H : SocketEmit _ _ = _ |- _ => discriminate H
           | H : False |- _ => destruct H
           end;
    subst; try congruence; try discriminate;
    rewrite ?elem_of_cons; auto 6.
Qed.

End HookProperties.

Lemma column_follows_number_witness :
  columnConsistent (Hook.gameState initialHook) /\
  GameState.currentColumn
    (Hook.gameState
       (fst (applyEvents "Y" true true
               [number_called (Some 7); number_drawn (Some 61) None] initialHook)))
  = Some "O".
Proof.
  split; [reflexivity|].
  exact (proj1 (column_follows_number "Y" true true
                  [number_called (Some 7); number_drawn (Some 61) None]
                  initialHook eq_refl)).
Defined.

Lemma snapshot_progress_witness :
  js_truthy (GameDataMsg.id waitingSnapshot) = true /\
  GameState.isLoadingGameData
    (Hook.gameState
       (fst (applyEvent "Y" true true (game_data_updated waitingSnapshot) initialHook)))
  = false.
Proof.
  split; [reflexivity|].
  exact (proj1 (Forall_inv
                  (snapshot_progress "Y" true true waitingSnapshot initialHook eq_refl))).
Defined.


(** ** More properties of the display page *)

Module PageProperties.
Import DisplayPage PageCallbacks.

Lemma stateKey_is_not_justStartedKey (displayToken : option string) :
  stateKey displayToken <> justStartedKey displayToken.
Proof.
  unfold justStartedKey. intros Heq.
  apply (f_equal String.length) in Heq. rewrite length_append in Heq.
  cbn in Heq. lia.
Qed.

Lemma status_waiting (r : Render) :
  GameState.gameStatus (gameState r) = Some "waiting" ->
  statusIs r "waiting" = true /\ statusIs r "active" = false /\
  statusIs r "completed" = false /\ statusIs r "finished" = false /\
  statusIs r "cancelled" = false.
Proof. unfold statusIs. intros ->. repeat split. Qed.

(** X25: the just-started flag suppresses the automatic opening of the
    overlay exactly once: in a pass with status [waiting], a selection to
    show, the overlay closed and the flag set, the overlay stays closed and
    the flag is removed (the rest of [localStorage] is untouched); the next
    pass over the same game state then opens the overlay. *)
Theorem just_started_guard (r : Render) (ls : LocalStorage) (selected : list Z)
  (flag : Stored) :
  GameState.gameStatus (gameState r) = Some "waiting" ->
  GameState.selectedCartelas (gameState r) = Some selected ->
  selected <> [] ->
  ls !! justStartedKey (displayToken r) = Some flag ->
  truthy flag = true ->
  showCartelas (page r) = false ->
  let first := statusPass r ls in
  let second :=
    statusPass {| page := fst first; placedBets := placedBets r;
                  gameState := gameState r; displayToken := displayToken r |}
               (snd first) in
  showCartelas (fst first) = false /\
  selectedCartelas (fst first) = selected /\
  snd first = delete (justStartedKey (displayToken r)) ls /\
  showCartelas (fst second) = true /\
  selectedCartelas (fst second) = selected.
Proof.
  intros Hstatus Hselected Hsome Hflag Htruthy Hclosed.
  destruct (status_waiting r Hstatus) as (Hw & Ha & Hc & Hf & Hx).
  assert (Hshow : (0 <? Z.of_nat (length selected))
                  || (0 <? Z.of_nat (size (placedBets r))) = true).
  { destruct selected; [congruence|]. reflexivity. }
  assert (Hfirst : statusPass r ls
                   = ({| showCartelas := false;
                         availableCartelas := availableCartelas (page r);
                         selectedCartelas := selected |},
                      delete (justStartedKey (displayToken r)) ls)).
  { unfold statusPass, statusEffects, runEffects, syncSelectedCartelas,
      keepOpenWhenActive, closeOnTerminalStatus, clearAfterGame.
    rewrite Hselected, Hshow, Hw, Ha, Hflag, Hclosed. cbn. rewrite Htruthy. cbn.
    now rewrite Hclosed. }
  cbv zeta. rewrite Hfirst. cbn [fst snd]. repeat split.
  - unfold statusPass, statusEffects, runEffects, syncSelectedCartelas,
      keepOpenWhenActive, closeOnTerminalStatus, clearAfterGame, statusIs.
    cbn. rewrite Hselected, Hshow, Hstatus, lookup_delete_eq. cbn.
    destruct (js_truthy (displayToken r)); reflexivity.
  - unfold statusPass, statusEffects, runEffects, syncSelectedCartelas,
      keepOpenWhenActive, closeOnTerminalStatus, clearAfterGame, statusIs.
    cbn. rewrite Hselected, Hshow, Hstatus, lookup_delete_eq. cbn.
    destruct (js_truthy (displayToken r)); reflexivity.
Qed.

Lemma just_started_guard_witness :
  GameState.gameStatus (gameState closedWaitingRender) = Some "waiting" /\
  GameState.selectedCartelas (gameState closedWaitingRender) = Some [5] /\
  showCartelas (fst (statusPass closedWaitingRender storageJustStarted)) = false.
Proof.
  split; [reflexivity|]. split; [reflexivity|].
  refine (proj1 (just_started_guard closedWaitingRender storageJustStarted [5]
                   (Text "true") eq_refl eq_refl _ _ eq_refl eq_refl)).
  - discriminate.
  - reflexivity.
Defined.

(** X26: what the start of a game does to the page through the hook's
    callback: with the close callback installed and a non-empty token,
    every [game_started] event, with or without a game id, and every
    [game_start] event that has a game id close the overlay, empty the
    page's selected and available lists, save the closed state and set the
    just-started flag, whatever the page showed; a [game_start] without an
    id does nothing; and without the callback the page and [localStorage]
    are left as they were by either event. *)
Theorem game_start_closes_overlay (token : string) (soundCallbacks : bool)
  (gameId eventId : option string) (h : Hook.t) (st : Page * LocalStorage) :
  truthy token = true ->
  let closes e :=
    let st' := runPageEffects token
                 (snd (applyEvent token true soundCallbacks e h)) st in
    fst st' = {| showCartelas := false; availableCartelas := [];
                 selectedCartelas := [] |} /\
    snd st' !! justStartedKey (Some token) = Some (Text "true") /\
    snd st' !! stateKey (Some token) = Some (CartelaState false []) in
  closes (game_started gameId) /\
  (js_truthy gameId = true -> closes (game_start gameId eventId)) /\
  (js_truthy gameId = false ->
   applyEvent token true soundCallbacks (game_start gameId eventId) h = (h, [])) /\
  Forall (fun e =>
            runPageEffects token
              (snd (applyEvent token false soundCallbacks e h)) st = st)
         [game_started gameId; game_start gameId eventId].
Proof.
  intros Htoken. destruct st as [p ls]. cbv zeta.
  assert (Hsave : forall show cartelas (store : LocalStorage),
             saveCartelaState (Some token) show cartelas store
             = <[stateKey (Some token) := CartelaState show cartelas]> store).
  { intros. unfold saveCartelaState. cbn. now rewrite Htoken. }
  assert (Hflag : forall (store : LocalStorage) v,
             <[justStartedKey (Some token) := Text "true"]>
               (<[stateKey (Some token) := v]> store) !! stateKey (Some token)
             = Some v).
  { intros. rewrite lookup_insert_ne
      by (apply not_eq_sym, stateKey_is_not_justStartedKey).
    apply lookup_insert_eq. }
  split; [|split; [|split]].
  - run_listeners. rewrite ?Htoken. cbn.
    destruct (js_truthy (Hook.prevGameIdRef h)); repeat case_bool_decide; cbn;
      destruct (js_truthy gameId); cbn;
      unfold runPageEffects, onCloseCartelas; cbn; rewrite ?Hsave;
      (split; [reflexivity|]); (split; [apply lookup_insert_eq | apply Hflag]).
  - intros Hid. run_listeners. rewrite Hid, ?Htoken. cbn.
    unfold runPageEffects, onCloseCartelas; cbn; rewrite ?Hsave.
    split; [reflexivity|]. split; [apply lookup_insert_eq | apply Hflag].
  - intros Hid. run_listeners. now rewrite Hid.
  - repeat constructor; run_listeners;
      destruct (js_truthy (Hook.prevGameIdRef h)); repeat case_bool_decide; cbn;
      destruct (js_truthy gameId); reflexivity.
Qed.

Lemma game_start_closes_overlay_witness :
  truthy "Y" = true /\
  fst (runPageEffects "Y"
         (snd (applyEvent "Y" true true (game_started None) initialHook))
         (openPage, ∅))
  = {| showCartelas := false; availableCartelas := []; selectedCartelas := [] |}.
Proof.
  split; [reflexivity|].
  exact (proj1 (proj1 (game_start_closes_overlay "Y" true None None initialHook
                         (openPage, ∅) eq_refl))).
Defined.

End PageProperties.

(** ** The sound manager *)

Module SoundProperties.

Lemma toString_inj (n m : Z) : toString n = toString m -> n = m.
Proof.
  intros Heq. pose proof (UtilsProperties.parseInt_toString n) as Hn.
  rewrite Heq, UtilsProperties.parseInt_toString in Hn. congruence.
Qed.

Lemma numberText_ofZ (fractionText : Q -> string) (n : Z) :
  SoundManager.numberText fractionText (ofZ n) = toString n.
Proof.
  unfold SoundManager.numberText, ofZ, isInteger, integerOf. cbn.
  now rewrite Z.rem_1_r, Z.quot_1_r.
Qed.

Lemma sound_column_letter (n : Z) :
  Utils.isValidBingoNumber (ofZ n) = true ->
  SoundManager.getColumnForNumber (ofZ n) = Utils.getColumnForNumber (ofZ n) /\
  exists c, Utils.getColumnForNumber (ofZ n) = String c "".
Proof.
  rewrite valid_of_integer.
  unfold SoundManager.getColumnForNumber, Utils.getColumnForNumber.
  rewrite !js_ge_ofZ, !js_le_ofZ. intros Hvalid.
  repeat match goal with
         | |- context [?a <=? ?b] => destruct (Z.leb_spec a b)
         end; cbn in *; try lia; (split; [reflexivity | eexists; reflexivity]).
Qed.

(** On finite numbers the guard of [playNumberSound] lets through exactly
    the valid bingo numbers; [NaN], which fails every comparison, passes
    the guard although it is no valid number. *)
Lemma sound_guard (isMuted : bool) (number : JsNumber) :
  number <> NaN ->
  isMuted || js_lt number 1 || js_gt number 75
  = isMuted || negb (Utils.isValidBingoNumber number).
Proof.
  unfold Utils.isValidBingoNumber, BINGO_CONFIG.TOTAL_NUMBERS.
  destruct number as [q| | |]; intros Hnan; try congruence;
    destruct isMuted; cbn; try reflexivity.
  destruct (Qle_bool (inject_Z 1) q), (Qle_bool q (inject_Z 75)); reflexivity.
Qed.

(** X27: [playNumberSound] plays nothing exactly when the manager is muted
    or the number is below 1 or above 75. For an integer from 1 to 75 its
    cache key is [<type>_<column><number>] and its file
    [/sounds/<type>/<column><number>.mp3] with the column that
    [getColumnForNumber] of lib/utils.ts derives, so for integers the sound
    manager's own fallback column [B] is not used. For other numbers it
    is: a number strictly between two columns (above 15 and below 16, or
    so at 30, 45 or 60) and [NaN] pass the guard, no range matches, and the
    fallback [B] names the file where lib/utils.ts returns the empty
    string. *)
Theorem sound_file_of_number (fractionText : Q -> string)
  (soundType : SoundManager.SoundType) (isMuted : bool) (number : JsNumber) :
  (SoundManager.playNumberSound fractionText soundType isMuted number = None <->
   isMuted = true \/ js_lt number 1 = true \/ js_gt number 75 = true) /\
  (forall q, number = Finite q ->
     (SoundManager.playNumberSound fractionText soundType isMuted number = None <->
      isMuted = true \/ Utils.isValidBingoNumber number = false)) /\
  (forall n : Z,
     Utils.isValidBingoNumber (ofZ n) = true ->
     SoundManager.playNumberSound fractionText soundType false (ofZ n)
     = Some (SoundManager.soundTypeText soundType +:+ "_"
               +:+ Utils.getColumnForNumber (ofZ n) +:+ toString n,
             "/sounds/" +:+ SoundManager.soundTypeText soundType +:+ "/"
               +:+ Utils.getColumnForNumber (ofZ n) +:+ toString n +:+ ".mp3")) /\
  (forall q : Q,
     betweenColumns q ->
     Utils.getColumnForNumber (Finite q) = "" /\
     SoundManager.playNumberSound fractionText soundType false (Finite q)
     = Some (SoundManager.soundTypeText soundType +:+ "_B" +:+ fractionText q,
             "/sounds/" +:+ SoundManager.soundTypeText soundType +:+ "/B"
               +:+ fractionText q +:+ ".mp3")) /\
  (Utils.getColumnForNumber NaN = "" /\
   SoundManager.playNumberSound fractionText soundType false NaN
   = Some (SoundManager.soundTypeText soundType +:+ "_BNaN",
           "/sounds/" +:+ SoundManager.soundTypeText soundType +:+ "/BNaN.mp3")).
Proof.
  split; [|split; [|split; [|split]]].
  - unfold SoundManager.playNumberSound.
    destruct (isMuted || js_lt number 1 || js_gt number 75) eqn:Hguard.
    + split; [intros _|reflexivity].
      apply orb_true_iff in Hguard as [Hguard|Hguard]; [|now right; right].
      apply orb_true_iff in Hguard as [Hguard|Hguard]; [now left | now right; left].
    + split; [discriminate|]. intros Hor.
      apply orb_false_iff in Hguard as [Hguard Hgt].
      apply orb_false_iff in Hguard as [Hmuted Hlt].
      destruct Hor as [H|[H|H]]; congruence.
  - intros q ->. unfold SoundManager.playNumberSound.
    rewrite sound_guard by discriminate.
    destruct isMuted; cbn; [split; auto|].
    destruct (Utils.isValidBingoNumber (Finite q)); cbn;
      (split; [intros; try discriminate; auto | intros [?|?]; congruence]).
  - intros n Hvalid. unfold SoundManager.playNumberSound.
    rewrite sound_guard by discriminate. rewrite Hvalid. cbn [negb orb].
    rewrite numberText_ofZ.
    now destruct (sound_column_letter n Hvalid) as [-> _].
  - intros q Hbetween.
    destruct (between_columns q Hbetween)
      as (_ & Hcolumn & Hfallback & Hlt & Hgt & Hfraction).
    split; [exact Hcolumn|]. unfold SoundManager.playNumberSound.
    rewrite Hlt, Hgt, Hfallback. cbn [orb SoundManager.numberText].
    rewrite Hfraction. destruct soundType; reflexivity.
  - split; [reflexivity|]. destruct soundType; reflexivity.
Qed.

(** X28: no two sounds share a file or a cache key: for valid numbers and
    an unmuted manager, [playNumberSound] asks for the same key and path
    only for the same sound type and the same number. *)
Theorem sound_files_distinct (fractionText : Q -> string)
  (type1 type2 : SoundManager.SoundType) (n m : Z) :
  Utils.isValidBingoNumber (ofZ n) = true ->
  Utils.isValidBingoNumber (ofZ m) = true ->
  SoundManager.playNumberSound fractionText type1 false (ofZ n)
  = SoundManager.playNumberSound fractionText type2 false (ofZ m) ->
  type1 = type2 /\ n = m.
Proof.
  intros Hn Hm. unfold SoundManager.playNumberSound.
  rewrite !sound_guard by discriminate. rewrite Hn, Hm. cbn [negb orb].
  rewrite !numberText_ofZ.
  destruct (sound_column_letter n Hn) as [-> [c ->]].
  destruct (sound_column_letter m Hm) as [-> [c' ->]].
  destruct type1, type2; cbn; intros Heq; simplify_eq;
    (split; [reflexivity | now apply toString_inj]).
Qed.

Lemma sound_files_distinct_witness :
  Utils.isValidBingoNumber (ofZ 7) = true /\
  SoundManager.playNumberSound (fun _ => "") SoundManager.AM false (ofZ 7)
  = Some ("AM_B7", "/sounds/AM/B7.mp3") /\
  (SoundManager.AM = SoundManager.AM /\ 7 = 7).
Proof.
  split; [reflexivity|]. split; [reflexivity|].
  exact (sound_files_distinct (fun _ => "") SoundManager.AM SoundManager.AM 7 7
           eq_refl eq_refl eq_refl).
Defined.

End SoundProperties.

(** ** The life of a connection *)

Section ConnectionLifecycle.

Variable io : string -> option Socket.
Variables onCloseCartelas soundCallbacks : bool.


End ConnectionLifecycle.

